(** * document_bot: a shallow embedding of the upload conversation, the
    callback router, the pagination builders and the reminder job.

    Python values are modelled as follows.
    - [int] is [Z]; [//] is floor division and raises on a zero divisor.
    - [str] is a list of Unicode code points ([N]), so [len] counts code
      points as Python does; string literals of the code are written with
      [lit].
    - a [date] is its proleptic Gregorian ordinal ([date.toordinal()]).
    - an exception is the [Raise] case of [result]. *)

From Stdlib Require Import DecimalString.
From stdpp Require Import prelude gmap strings.

Local Open Scope Z_scope.

(** ** Exceptions and results *)

Inductive exn :=
| ZeroDivisionError
| KeyError
| ValueError
| TypeError
| AttributeError
| OverflowError.

Inductive result (A : Type) :=
| Ok (a : A)
| Raise (e : exn).
Arguments Ok {A} a.
Arguments Raise {A} e.

#[global] Instance result_ret : MRet result := fun A a => Ok a.

#[global] Instance result_bind : MBind result := fun A B k r =>
  match r with
  | Ok a => k a
  | Raise e => Raise e
  end.

#[global] Instance result_fmap : FMap result := fun A B f r =>
  match r with
  | Ok a => Ok (f a)
  | Raise e => Raise e
  end.

(** ** Python strings *)

Module PyStr.

Definition char := N.
Definition str := list char.

(** A string literal of the source (ASCII only). *)
Definition lit (s : string) : str :=
  map Ascii.N_of_ascii (String.list_ascii_of_string s).
Arguments lit : simpl never.

Definition len {A} (l : list A) : Z := Z.of_nat (length l).

Fixpoint eqb (a b : str) : bool :=
  match a, b with
  | [], [] => true
  | x :: a', y :: b' => N.eqb x y && eqb a' b'
  | _, _ => false
  end.

(** [s.startswith(p)] *)
Fixpoint startswith (p s : str) : bool :=
  match p, s with
  | [], _ => true
  | x :: p', y :: s' => N.eqb x y && startswith p' s'
  | _ :: _, [] => false
  end.

(** [str(n)] for an int. *)
Definition of_Z (n : Z) : str :=
  lit (NilZero.string_of_int (Z.to_int n)).
Arguments of_Z : simpl never.

(** Python's [Py_UNICODE_ISSPACE], the characters removed by [str.strip()]. *)
Definition isspace (c : char) : bool :=
  ((9 <=? c) && (c <=? 13) || (28 <=? c) && (c <=? 32) ||
   (c =? 133) || (c =? 160) || (c =? 5760) ||
   (8192 <=? c) && (c <=? 8202) || (c =? 8232) || (c =? 8233) ||
   (c =? 8239) || (c =? 8287) || (c =? 12288))%N.

Fixpoint lstrip (s : str) : str :=
  match s with
  | c :: s' => if isspace c then lstrip s' else s
  | [] => []
  end.

Definition rstrip (s : str) : str := rev (lstrip (rev s)).

Definition strip (s : str) : str := rstrip (lstrip s).

(** [s.split(sep)] for a one-character separator: never an empty list. *)
Fixpoint split (sep : char) (s : str) : list str :=
  match s with
  | [] => [[]]
  | c :: s' =>
      if N.eqb c sep then [] :: split sep s'
      else match split sep s' with
           | seg :: segs => (c :: seg) :: segs
           | [] => [[c]]
           end
  end.

(** Index normalisation of a slice bound, as [PySlice_AdjustIndices] does
    for step 1. *)
Definition clamp_index (n i : Z) : Z :=
  if i <? 0 then Z.max 0 (i + n) else Z.min i n.

(** [l[start:stop]] *)
Definition slice {A} (l : list A) (start stop : Z) : list A :=
  let n := len l in
  let a := clamp_index n start in
  let b := clamp_index n stop in
  take (Z.to_nat (b - a)) (drop (Z.to_nat a) l).

(** [l[:stop]] *)
Definition slice_to {A} (l : list A) (stop : Z) : list A := slice l 0 stop.

End PyStr.
Import PyStr.

(** [a // b] *)
Definition floordiv (a b : Z) : result Z :=
  if b =? 0 then Raise ZeroDivisionError else Ok (a / b).

(** ** config.py

    config.py is not among the sources: its constants are the fields of
    [config], and what the interpreter takes from outside the language are
    fields too: the tables of the Unicode database that [str.lower], [\d]
    and [int()] consult, and the text the C library's [strftime] prints for
    a date. *)

Module Config.

(** Modelled from the spec: [config.UploadStates] (config.py is not among the
    sources), the four conversation states of section 3; [END] is
    [ConversationHandler.END]. *)
Inductive UploadStates :=
| WAITING_NAME
| WAITING_START_DATE
| WAITING_END_DATE
| WAITING_TEMPLATE
| END.

Record config := {
  MAX_DOCUMENTS_PER_USER : Z;
  ALLOWED_EXTENSIONS : list str;
  MAX_FILE_SIZE : Z;
  REMINDER_DAYS_BEFORE : list Z;
  (* [Py_UNICODE_TODECIMAL]: the value of a decimal digit of any script *)
  unicode_decimal : char -> option Z;
  (* [str.lower] *)
  unicode_lower : str -> str;
  (* [date.strftime("%d.%m.%Y")], for the date of an ordinal *)
  strftime_date : Z -> str;
}.

End Config.
Import Config.

(** ** utils.py: keyboards *)

Module Utils.

Record InlineKeyboardButton := {
  text : str;
  callback_data : str;
}.

Definition InlineKeyboardMarkup := list (list InlineKeyboardButton).

Definition bar : str := lit "|".

(* Button captions of the source, as code points. *)
Definition CAPTION_PREV_LONG : str := [9664; 65039; 32; 1053; 1072; 1079; 1072; 1076]%N.
Definition CAPTION_NEXT_LONG : str := [1042; 1087; 1077; 1088; 1105; 1076; 32; 9654; 65039]%N.
Definition CAPTION_BACK : str := [128281; 32; 1053; 1072; 1079; 1072; 1076]%N.
Definition CAPTION_PREV : str := [9664; 65039]%N.
Definition CAPTION_NEXT : str := [9654; 65039]%N.
Definition CAPTION_FOLDER : str := [128193; 32]%N.
Definition CAPTION_NO_TEMPLATE : str :=
  [9197; 65039; 32; 1041; 1077; 1079; 32; 1096; 1072; 1073; 1083; 1086; 1085; 1072]%N.
Definition CAPTION_CREATE_TEMPLATE : str :=
  [10133; 32; 1057; 1086; 1079; 1076; 1072; 1090; 1100; 32; 1096; 1072; 1073; 1083; 1086; 1085]%N.

(** The page count computed at the head of [build_pagination_keyboard]:
    [(len(items) + page_size - 1) // page_size]. *)
Definition pagination_total_pages (count page_size : Z) : result Z :=
  floordiv (count + page_size - 1) page_size.

(** The navigation row of [build_pagination_keyboard]. *)
Definition pagination_nav_row (callback_prefix : str) (page total_pages : Z)
  : list InlineKeyboardButton :=
  (if 0 <? page
   then [{| text := CAPTION_PREV_LONG;
            callback_data := callback_prefix ++ lit "|page|" ++ of_Z (page - 1) |}]
   else []) ++
  [{| text := of_Z (page + 1) ++ lit "/" ++ of_Z total_pages;
      callback_data := callback_prefix ++ lit "|current" |}] ++
  (if page <? total_pages - 1
   then [{| text := CAPTION_NEXT_LONG;
            callback_data := callback_prefix ++ lit "|page|" ++ of_Z (page + 1) |}]
   else []).

Definition build_pagination_keyboard {A} (items : list A) (page page_size : Z)
    (callback_prefix item_callback_prefix : str)
    (get_item_label : A -> str) (get_item_id : A -> str)
    (back_callback : option str) : result InlineKeyboardMarkup :=
  total_pages ← pagination_total_pages (len items) page_size;
  let start_idx := page * page_size in
  let end_idx := Z.min (start_idx + page_size) (len items) in
  let keyboard :=
    map (fun item =>
           [{| text := get_item_label item;
               callback_data := item_callback_prefix ++ bar ++ get_item_id item |}])
        (slice items start_idx end_idx) in
  let keyboard :=
    if 1 <? total_pages
    then keyboard ++ [pagination_nav_row callback_prefix page total_pages]
    else keyboard in
  let keyboard :=
    match back_callback with
    | Some cb =>
        if negb (eqb cb [])
        then keyboard ++ [[{| text := CAPTION_BACK; callback_data := cb |}]]
        else keyboard
    | None => keyboard
    end in
  Ok keyboard.

(** A row of [get_user_templates]: the keys the keyboard reads. *)
Record template_info := {
  tmpl_id : Z;
  tmpl_name : str;
  tmpl_documents_count : Z;
}.

(** The page count computed at the head of [build_templates_keyboard]:
    [max(1, (len(templates) + page_size - 1) // page_size)]. *)
Definition templates_total_pages (count page_size : Z) : result Z :=
  q ← floordiv (count + page_size - 1) page_size;
  Ok (Z.max 1 q).

Definition templates_nav_row (select_mode : bool) (page total_pages : Z)
  : list InlineKeyboardButton :=
  let prefix := if select_mode then lit "upload|tmplpage" else lit "templates|page" in
  (if 0 <? page
   then [{| text := CAPTION_PREV; callback_data := prefix ++ bar ++ of_Z (page - 1) |}]
   else []) ++
  [{| text := of_Z (page + 1) ++ lit "/" ++ of_Z total_pages;
      callback_data := lit "noop" |}] ++
  (if page <? total_pages - 1
   then [{| text := CAPTION_NEXT; callback_data := prefix ++ bar ++ of_Z (page + 1) |}]
   else []).

Definition build_templates_keyboard (templates : list template_info)
    (page page_size : Z) (select_mode : bool) : result InlineKeyboardMarkup :=
  total_pages ← templates_total_pages (len templates) page_size;
  let start_idx := page * page_size in
  let end_idx := Z.min (start_idx + page_size) (len templates) in
  let keyboard :=
    map (fun tmpl =>
           [{| text := CAPTION_FOLDER ++ tmpl_name tmpl ++ lit " (" ++
                       of_Z (tmpl_documents_count tmpl) ++ lit ")";
               callback_data :=
                 (if select_mode then lit "upload|template|" else lit "tmpl|view|")
                 ++ of_Z (tmpl_id tmpl) |}])
        (slice templates start_idx end_idx) in
  let keyboard :=
    if 1 <? total_pages
    then keyboard ++ [templates_nav_row select_mode page total_pages]
    else keyboard in
  Ok (keyboard ++
      [[if select_mode
        then {| text := CAPTION_NO_TEMPLATE; callback_data := lit "upload|template|skip" |}
        else {| text := CAPTION_CREATE_TEMPLATE; callback_data := lit "tmpl|create" |}]]).

(** *** Files *)

(** [s.rfind(c)]: the last index of [c], or -1. *)
Fixpoint rfind_from (c : char) (s : str) (i : Z) (last : Z) : Z :=
  match s with
  | [] => last
  | x :: s' => rfind_from c s' (i + 1) (if N.eqb x c then i else last)
  end.

Definition rfind (c : char) (s : str) : Z := rfind_from c s 0 (-1).

(** [os.path.splitext(p)[1]] of posixpath: the extension starts at the last
    dot after the last slash, unless only dots precede it in the name. *)
Definition splitext_ext (p : str) : str :=
  let sepIndex := rfind 47%N p in
  let dotIndex := rfind 46%N p in
  if sepIndex <? dotIndex then
    if existsb (fun x => negb (N.eqb x 46%N)) (slice p (sepIndex + 1) dotIndex)
    then drop (Z.to_nat dotIndex) p
    else []
  else [].

(** The messages [validate_file] returns, the last one being the empty
    string of a valid file. *)
Inductive validation_message :=
| NO_FILE_NAME
| UNSUPPORTED_FORMAT (ext : str)
| FILE_TOO_LARGE
| NO_MESSAGE.

Definition validate_file (cfg : config) (file_name : option str)
    (file_size : option Z) : result (bool * validation_message) :=
  match file_name with
  | None => Ok (false, NO_FILE_NAME)
  | Some [] => Ok (false, NO_FILE_NAME)
  | Some name =>
      let ext := splitext_ext (unicode_lower cfg name) in
      if negb (existsb (eqb ext) (ALLOWED_EXTENSIONS cfg))
      then Ok (false, UNSUPPORTED_FORMAT ext)
      else
        match file_size with
        | None => Raise TypeError
        | Some size =>
            if MAX_FILE_SIZE cfg <? size then Ok (false, FILE_TOO_LARGE)
            else Ok (true, NO_MESSAGE)
        end
  end.

Definition type_mapping : list (list str * str) :=
  [([lit ".pdf"], lit "pdf");
   ([lit ".doc"; lit ".docx"; lit ".odt"; lit ".rtf"], lit "document");
   ([lit ".xls"; lit ".xlsx"; lit ".ods"], lit "spreadsheet");
   ([lit ".ppt"; lit ".pptx"; lit ".odp"], lit "presentation");
   ([lit ".jpg"; lit ".jpeg"; lit ".png"; lit ".gif"; lit ".webp"], lit "image");
   ([lit ".zip"; lit ".rar"; lit ".7z"], lit "archive");
   ([lit ".txt"], lit "text")].

Definition get_file_type (cfg : config) (file_name : str) : str :=
  match file_name with
  | [] => lit "unknown"
  | _ =>
      let ext := splitext_ext (unicode_lower cfg file_name) in
      match List.find (fun '(extensions, _) => existsb (eqb ext) extensions) type_mapping with
      | Some (_, file_type) => file_type
      | None => lit "other"
      end
  end.

End Utils.

(** ** The callback router

    [main()] of bot.py registers every handler in group 0, and
    [Application.process_update] gives an update to the first handler of the
    group whose [check_update] accepts it.  The model covers callback-query
    updates: [CommandHandler] and [MessageHandler] accept none of them. *)

Module Router.

(** The fragment of [re] syntax the patterns of the handlers use. *)
Inductive re_item :=
| Bol                        (* ^ *)
| Eol                        (* $ *)
| Chr (c : char)             (* a literal character, escaped or not *)
| NotFollowedBy (s : str).   (* (?!s) *)

Definition pattern := list re_item.

(** [re.match(p, s)]: [at_start] tells whether the position is still 0.
    [$] matches at the end and before a final newline. *)
Fixpoint matches_from (p : pattern) (at_start : bool) (s : str) : bool :=
  match p with
  | [] => true
  | Bol :: p' => at_start && matches_from p' at_start s
  | Eol :: p' => (eqb s [] || eqb s [10%N]) && matches_from p' at_start s
  | Chr c :: p' =>
      match s with
      | x :: s' => N.eqb x c && matches_from p' false s'
      | [] => false
      end
  | NotFollowedBy l :: p' => negb (startswith l s) && matches_from p' at_start s
  end.

Definition re_match (p : pattern) (s : str) : bool := matches_from p true s.

(** [^] followed by the literal text [s]. *)
Definition anchored (s : string) : pattern := Bol :: map Chr (lit s).

(** The coroutines the handlers are registered with. *)
Inductive callback :=
| cmd_start | cmd_help | cmd_mydocs | cmd_templates | cmd_cancel | cmd_stats
| upload_start | upload_name
| upload_start_date_callback | upload_start_date_manual
| upload_end_date_callback | upload_end_date_manual
| upload_template_callback | upload_cancel
| view_document | download_document
| delete_document_confirm | delete_document_execute
| edit_document_menu | mydocs_list
| view_template | template_documents_list
| delete_template_confirm | delete_template_execute
| templates_list | create_template_start | create_template_name
| noop_callback.

(** The message filters the handlers are built with. *)
Inductive filter :=
| Document_ALL
| PHOTO
| COMMAND
| TEXT_and_not_COMMAND.

Inductive handler :=
| CommandHandler (command : string) (cb : callback)
| MessageHandler (f : filter) (cb : callback)
| CallbackQueryHandler (cb : callback) (p : pattern).

(** [handler.check_update] on a callback query carrying [data]. *)
Definition check_update (h : handler) (data : str) : option callback :=
  match h with
  | CommandHandler _ _ => None
  | MessageHandler _ _ => None
  | CallbackQueryHandler cb p => if re_match p data then Some cb else None
  end.

(** The first handler of a list that accepts the update. *)
Fixpoint first_match (hs : list handler) (data : str) : option callback :=
  match hs with
  | [] => None
  | h :: hs' =>
      match check_update h data with
      | Some cb => Some cb
      | None => first_match hs' data
      end
  end.

Record ConversationHandler := {
  entry_points : list handler;
  states : UploadStates -> list handler;
  fallbacks : list handler;
  allow_reentry : bool;
}.

(** [get_document_conversation_handler()] *)
Definition get_document_conversation_handler : ConversationHandler := {|
  entry_points := [MessageHandler Document_ALL upload_start; MessageHandler PHOTO upload_start];
  states := fun st =>
    match st with
    | WAITING_NAME => [MessageHandler TEXT_and_not_COMMAND upload_name]
    | WAITING_START_DATE =>
        [CallbackQueryHandler upload_start_date_callback (anchored "start|");
         MessageHandler TEXT_and_not_COMMAND upload_start_date_manual]
    | WAITING_END_DATE =>
        [CallbackQueryHandler upload_end_date_callback (anchored "end|");
         MessageHandler TEXT_and_not_COMMAND upload_end_date_manual]
    | WAITING_TEMPLATE =>
        [CallbackQueryHandler upload_template_callback (anchored "upload|template|")]
    | END => []
    end;
  fallbacks := [MessageHandler COMMAND upload_cancel];
  allow_reentry := true;
|}.

(** [ConversationHandler.check_update]: [state] is the conversation's state
    for the user and chat of the update, [None] outside a conversation. *)
Definition conversation_check_update (c : ConversationHandler)
    (state : option UploadStates) (data : str) : option callback :=
  let entry :=
    if bool_decide (state = None) || allow_reentry c
    then first_match (entry_points c) data else None in
  match entry, state with
  | Some cb, _ => Some cb
  | None, None => None
  | None, Some st =>
      match first_match (states c st) data with
      | Some cb => Some cb
      | None => first_match (fallbacks c) data
      end
  end.

(** [get_command_handlers()] *)
Definition get_command_handlers : list handler :=
  [CommandHandler "start" cmd_start; CommandHandler "help" cmd_help;
   CommandHandler "mydocs" cmd_mydocs; CommandHandler "templates" cmd_templates;
   CommandHandler "cancel" cmd_cancel; CommandHandler "stats" cmd_stats].

(** [get_document_callback_handlers()] *)
Definition get_document_callback_handlers : list handler :=
  [CallbackQueryHandler view_document (anchored "doc|view|");
   CallbackQueryHandler download_document (anchored "doc|download|");
   CallbackQueryHandler delete_document_confirm
     (anchored "doc|delete|" ++ [NotFollowedBy (lit "yes")]);
   CallbackQueryHandler delete_document_execute (anchored "doc|delete_yes|");
   CallbackQueryHandler edit_document_menu (anchored "doc|edit|");
   CallbackQueryHandler mydocs_list (anchored "mydocs|list|")].

(** [get_template_handlers()] *)
Definition get_template_handlers : list handler :=
  [CallbackQueryHandler view_template (anchored "tmpl|view|");
   CallbackQueryHandler template_documents_list (anchored "tmpl|docs|");
   CallbackQueryHandler delete_template_confirm
     (anchored "tmpl|delete|" ++ [NotFollowedBy (lit "yes")]);
   CallbackQueryHandler delete_template_execute (anchored "tmpl|delete_yes|");
   CallbackQueryHandler templates_list (anchored "templates|list|");
   CallbackQueryHandler templates_list (anchored "templates|page|");
   CallbackQueryHandler create_template_start (anchored "tmpl|create" ++ [Eol]);
   MessageHandler TEXT_and_not_COMMAND create_template_name].

(** [get_callback_dispatcher()] *)
Definition get_callback_dispatcher : list handler :=
  [CallbackQueryHandler noop_callback (anchored "noop" ++ [Eol])].

(** The dispatch of a callback query by the application built in [main()]:
    commands, the upload conversation, document callbacks, template
    handlers, the final dispatcher, in registration order. *)
Definition dispatch (state : option UploadStates) (data : str) : option callback :=
  match first_match get_command_handlers data with
  | Some cb => Some cb
  | None =>
      match conversation_check_update get_document_conversation_handler state data with
      | Some cb => Some cb
      | None =>
          first_match (get_document_callback_handlers ++ get_template_handlers ++
                       get_callback_dispatcher) data
      end
  end.

End Router.

(** ** datetime: dates, [date + timedelta], [datetime.strptime] *)

Module Datetime.

(** A date is its ordinal: 1 is 0001-01-01, [MAXORDINAL] is 9999-12-31. *)
Definition date := Z.

Definition MINYEAR : Z := 1.
Definition MAXYEAR : Z := 9999.
Definition MAXORDINAL : Z := 3652059.

Definition is_leap (year : Z) : bool :=
  (year mod 4 =? 0) && (negb (year mod 100 =? 0) || (year mod 400 =? 0)).

Definition DAYS_IN_MONTH : list Z := [31; 28; 31; 30; 31; 30; 31; 31; 30; 31; 30; 31].

Definition days_in_month (year month : Z) : Z :=
  if (month =? 2) && is_leap year then 29
  else nth (Z.to_nat (month - 1)) DAYS_IN_MONTH 0.

Definition days_before_year (year : Z) : Z :=
  let y := year - 1 in y * 365 + y / 4 - y / 100 + y / 400.

Definition days_before_month (year month : Z) : Z :=
  fold_right Z.add 0 (take (Z.to_nat (month - 1)) DAYS_IN_MONTH) +
  (if (2 <? month) && is_leap year then 1 else 0).

Definition ymd2ord (year month day : Z) : Z :=
  days_before_year year + days_before_month year month + day.

(** [date(year, month, day)] *)
Definition make_date (year month day : Z) : result date :=
  if (MINYEAR <=? year) && (year <=? MAXYEAR) &&
     (1 <=? month) && (month <=? 12) &&
     (1 <=? day) && (day <=? days_in_month year month)
  then Ok (ymd2ord year month day)
  else Raise ValueError.

(** [d + timedelta(days=n)] *)
Definition add_days (d : date) (n : Z) : result date :=
  let o := d + n in
  if (0 <? o) && (o <=? MAXORDINAL) then Ok o else Raise OverflowError.

(** *** The regular expressions [_strptime] builds from a format *)

Inductive cls :=
| Range (lo hi : char)   (* [lo-hi] *)
| Exactly (c : char)     (* a literal character *)
| Digit.                 (* \d *)

Inductive directive :=
| D_d                    (* %d *)
| D_m                    (* %m *)
| D_Y                    (* %Y *)
| D_lit (c : char).

Definition ch (s : string) : char :=
  match lit s with c :: _ => c | [] => 0%N end.

(** The alternatives of a directive's group, in the order of the pattern:
    %d is [3[0-1]|[1-2]\d|0[1-9]|[1-9]| [1-9]], %m is [1[0-2]|0[1-9]|[1-9]],
    %Y is [\d\d\d\d]. *)
Definition regex_of (d : directive) : list (list cls) :=
  match d with
  | D_d => [[Exactly (ch "3"); Range (ch "0") (ch "1")];
            [Range (ch "1") (ch "2"); Digit];
            [Exactly (ch "0"); Range (ch "1") (ch "9")];
            [Range (ch "1") (ch "9")];
            [Exactly (ch " "); Range (ch "1") (ch "9")]]
  | D_m => [[Exactly (ch "1"); Range (ch "0") (ch "2")];
            [Exactly (ch "0"); Range (ch "1") (ch "9")];
            [Range (ch "1") (ch "9")]]
  | D_Y => [[Digit; Digit; Digit; Digit]]
  | D_lit c => [[Exactly c]]
  end.

(** The directives of a format string; [None] for a directive other than
    the three above. *)
Fixpoint directives_of (format : str) : option (list directive) :=
  match format with
  | [] => Some []
  | c :: rest =>
      if N.eqb c (ch "%") then
        match rest with
        | k :: rest' =>
            let d := if N.eqb k (ch "d") then Some D_d
                     else if N.eqb k (ch "m") then Some D_m
                     else if N.eqb k (ch "Y") then Some D_Y
                     else None in
            match d, directives_of rest' with
            | Some d, Some ds => Some (d :: ds)
            | _, _ => None
            end
        | [] => None
        end
      else
        match directives_of rest with
        | Some ds => Some (D_lit c :: ds)
        | None => None
        end
  end.

Section Strptime.

(** [Py_UNICODE_TODECIMAL]: the value of a decimal digit of any script, which
    is what [\d] matches and [int()] converts. *)
Variable decimal : char -> option Z.

Definition cls_matches (k : cls) (c : char) : bool :=
  match k with
  | Range lo hi => (lo <=? c)%N && (c <=? hi)%N
  | Exactly x => (c =? x)%N
  | Digit => bool_decide (is_Some (decimal c))
  end.

(** One alternative at the head of [s]: the text it consumes and the rest. *)
Fixpoint match_seq (ks : list cls) (s : str) : option (str * str) :=
  match ks with
  | [] => Some ([], s)
  | k :: ks' =>
      match s with
      | c :: s' =>
          if cls_matches k c then
            match match_seq ks' s' with
            | Some (cap, r) => Some (c :: cap, r)
            | None => None
            end
          else None
      | [] => None
      end
  end.

(** The groups in sequence, with backtracking over the alternatives of each
    in their order: the text of each group and what is left of [s]. *)
Fixpoint match_groups (gs : list (list (list cls))) (s : str)
  : option (list str * str) :=
  match gs with
  | [] => Some ([], s)
  | g :: gs' =>
      (fix try_alts (alts : list (list cls)) : option (list str * str) :=
         match alts with
         | [] => None
         | a :: alts' =>
             match match_seq a s with
             | Some (cap, r) =>
                 match match_groups gs' r with
                 | Some (caps, r') => Some (cap :: caps, r')
                 | None => try_alts alts'
                 end
             | None => try_alts alts'
             end
         end) g
  end.

Fixpoint digits_value (acc : Z) (s : str) : option Z :=
  match s with
  | [] => Some acc
  | c :: s' =>
      match decimal c with
      | Some v => digits_value (acc * 10 + v) s'
      | None => None
      end
  end.

(** [int(s)] on the text of a group: digits, after blanks that [int] skips. *)
Definition int_of_group (s : str) : result Z :=
  match strip s with
  | [] => Raise ValueError
  | t => match digits_value 0 t with
         | Some v => Ok v
         | None => Raise ValueError
         end
  end.

(** The year, month and day found, from the defaults 1900, 1, 1. *)
Fixpoint found_fields (ds : list directive) (caps : list str) (ymd : Z * Z * Z)
  : result (Z * Z * Z) :=
  match ds, caps with
  | d :: ds', cap :: caps' =>
      let '(y, m, dd) := ymd in
      match d with
      | D_Y => v ← int_of_group cap; found_fields ds' caps' (v, m, dd)
      | D_m => v ← int_of_group cap; found_fields ds' caps' (y, v, dd)
      | D_d => v ← int_of_group cap; found_fields ds' caps' (y, m, v)
      | D_lit _ => found_fields ds' caps' ymd
      end
  | _, _ => Ok ymd
  end.

(** [datetime.strptime(data_string, format).date()] *)
Definition strptime (data_string format : str) : result date :=
  match directives_of format with
  | None => Raise ValueError
  | Some ds =>
      match match_groups (map regex_of ds) data_string with
      | None => Raise ValueError
      | Some (caps, rest) =>
          if negb (eqb rest []) then Raise ValueError
          else
            '(y, m, d) ← found_fields ds caps (1900, 1, 1);
            make_date y m d
      end
  end.

(** The loop of the manual date handlers: the first format that parses. *)
Fixpoint first_parse (text : str) (formats : list str) : result (option date) :=
  match formats with
  | [] => Ok None
  | fmt :: formats' =>
      match strptime text fmt with
      | Ok d => Ok (Some d)
      | Raise ValueError => first_parse text formats'
      | Raise e => Raise e
      end
  end.

End Strptime.

Arguments strptime : simpl never.
Arguments first_parse : simpl never.

(** The formats of both manual date handlers, in their order. *)
Definition MANUAL_FORMATS : list str :=
  [lit "%d.%m.%Y"; lit "%d/%m/%Y"; lit "%Y-%m-%d"].

(** A digit table that knows the ASCII digits only. *)
Definition ascii_decimal (c : char) : option Z :=
  if (48 <=? c)%N && (c <=? 57)%N then Some (Z.of_N c - 48) else None.

End Datetime.

(** ** Dynamically typed values: what a draft holds and a column stores *)

Inductive pyval :=
| VNone
| VBool (b : bool)
| VInt (n : Z)
| VStr (s : str)
| VDate (d : Datetime.date).

(** The truth value of [if v:]. *)
Definition truthy (v : pyval) : bool :=
  match v with
  | VNone => false
  | VBool b => b
  | VInt n => negb (n =? 0)
  | VStr s => negb (eqb s [])
  | VDate _ => true
  end.

(** ** database.py

    The tables are lists of rows in insertion order.  The timestamp columns
    and [users.id], which no query of the modelled code reads, are left out.
    Every function opens its own connection, runs its statements and commits;
    the statements that change a table are journalled in execution order.
    The store itself does not fail: no statement raises. *)

Module Database.

Record user_row := {
  telegram_id : Z;
  username : pyval;
  first_name : pyval;
}.

Record template_row := {
  t_id : Z;
  t_user_id : Z;
  t_name : str;
}.

Record document_row := {
  d_id : Z;
  d_user_id : Z;
  d_name : pyval;
  d_file_id : pyval;
  d_file_name : pyval;
  d_file_type : pyval;
  d_start_date : pyval;
  d_end_date : pyval;
  d_template_id : pyval;
  d_notes : pyval;
}.

Record reminder_row := {
  document_id : Z;
  days_before : Z;
}.

Record database := {
  users : list user_row;
  templates : list template_row;
  documents : list document_row;
  reminders_sent : list reminder_row;
  (* the largest rowid [documents] has used (AUTOINCREMENT) *)
  documents_seq : Z;
}.

(** The statements of the modelled functions that write. *)
Inductive statement :=
| UPDATE_users (tid : Z) (uname fname : pyval)
| INSERT_users (tid : Z) (uname fname : pyval)
| INSERT_documents (user_id : Z) (name file_id file_name file_type
                    start_date end_date template_id notes : pyval)
| DELETE_reminders_sent (doc_id : Z)
| DELETE_documents (doc_id user_id : Z)
| INSERT_OR_IGNORE_reminders_sent (doc_id days : Z).

Definition is_user (tid : Z) (u : user_row) : bool := telegram_id u =? tid.

Definition owned_document (doc_id user_id : Z) (d : document_row) : bool :=
  (d_id d =? doc_id) && (d_user_id d =? user_id).

Definition is_reminder (doc_id days : Z) (r : reminder_row) : bool :=
  (document_id r =? doc_id) && (days_before r =? days).

(** [cur.execute(stmt)]: the database after the statement and [cur.rowcount]. *)
Definition execute (st : statement) (db : database) : database * Z :=
  match st with
  | UPDATE_users tid uname fname =>
      ({| users := map (fun u => if is_user tid u
                                 then {| telegram_id := tid; username := uname;
                                         first_name := fname |}
                                 else u) (users db);
          templates := templates db; documents := documents db;
          reminders_sent := reminders_sent db; documents_seq := documents_seq db |},
       len (List.filter (fun u => is_user tid u) (users db)))
  | INSERT_users tid uname fname =>
      (* telegram_id is UNIQUE; the code inserts after a SELECT found no row *)
      ({| users := users db ++ [{| telegram_id := tid; username := uname;
                                   first_name := fname |}];
          templates := templates db; documents := documents db;
          reminders_sent := reminders_sent db; documents_seq := documents_seq db |}, 1)
  | INSERT_documents user_id name file_id file_name file_type
                     start_date end_date template_id notes =>
      let rowid := documents_seq db + 1 in
      ({| users := users db; templates := templates db;
          documents := documents db ++
            [{| d_id := rowid; d_user_id := user_id; d_name := name;
                d_file_id := file_id; d_file_name := file_name;
                d_file_type := file_type; d_start_date := start_date;
                d_end_date := end_date; d_template_id := template_id;
                d_notes := notes |}];
          reminders_sent := reminders_sent db; documents_seq := rowid |}, 1)
  | DELETE_reminders_sent doc_id =>
      ({| users := users db; templates := templates db; documents := documents db;
          reminders_sent :=
            List.filter (fun r => negb (document_id r =? doc_id)) (reminders_sent db);
          documents_seq := documents_seq db |},
       len (List.filter (fun r => document_id r =? doc_id) (reminders_sent db)))
  | DELETE_documents doc_id user_id =>
      ({| users := users db; templates := templates db;
          documents :=
            List.filter (fun d => negb (owned_document doc_id user_id d)) (documents db);
          reminders_sent := reminders_sent db; documents_seq := documents_seq db |},
       len (List.filter (fun d => owned_document doc_id user_id d) (documents db)))
  | INSERT_OR_IGNORE_reminders_sent doc_id days =>
      (* UNIQUE(document_id, days_before): a conflicting row is ignored *)
      if existsb (is_reminder doc_id days) (reminders_sent db)
      then (db, 0)
      else
        ({| users := users db; templates := templates db; documents := documents db;
            reminders_sent := reminders_sent db ++
              [{| document_id := doc_id; days_before := days |}];
            documents_seq := documents_seq db |}, 1)
  end.

(** A connection: the database as the statements so far left it, and the
    journal of the statements executed. *)
Record connection := {
  store : database;
  journal : list statement;
}.

Definition Sql (A : Type) : Type := connection -> A * connection.

#[global] Instance Sql_ret : MRet Sql := fun A a c => (a, c).

#[global] Instance Sql_bind : MBind Sql := fun A B k m c =>
  let '(a, c') := m c in k a c'.

(** A SELECT: a read of the current database. *)
Definition select {A} (q : database -> A) : Sql A := fun c => (q (store c), c).

(** A writing statement; the result is [cur.rowcount]. *)
Definition exec (st : statement) : Sql Z := fun c =>
  let '(db', n) := execute st (store c) in
  (n, {| store := db'; journal := journal c ++ [st] |}).

(** [with get_connection() as conn: ...]: the result, the committed database
    and the journal. *)
Definition with_connection {A} (m : Sql A) (db : database)
  : A * database * list statement :=
  let '(a, c) := m {| store := db; journal := [] |} in (a, store c, journal c).

Definition result_of {A} (r : A * database * list statement) : A := r.1.1.
Definition db_of {A} (r : A * database * list statement) : database := r.1.2.
Definition journal_of {A} (r : A * database * list statement) : list statement := r.2.

(** *** Users *)

Definition get_or_create_user (tid : Z) (uname fname : pyval) : Sql user_row :=
  user ← select (fun db => head (List.filter (fun u => is_user tid u) (users db)));
  match user with
  | Some u =>
      _ ← exec (UPDATE_users tid uname fname);
      mret u
  | None =>
      _ ← exec (INSERT_users tid uname fname);
      u ← select (fun db => head (List.filter (fun u => is_user tid u) (users db)));
      mret (default {| telegram_id := tid; username := uname; first_name := fname |} u)
  end.

(** *** Documents *)

(** The id of the new document ([cur.lastrowid]). *)
Definition insert_document (user_id : Z) (name file_id file_name file_type
    start_date end_date template_id notes : pyval) : Sql Z :=
  _ ← exec (INSERT_documents user_id name file_id file_name file_type
                             start_date end_date template_id notes);
  select documents_seq.

Definition get_documents_count (user_id : Z) : Sql Z :=
  select (fun db => len (List.filter (fun d => d_user_id d =? user_id) (documents db))).

Definition delete_document (doc_id user_id : Z) : Sql bool :=
  found ← select (fun db => head (List.filter (fun d => owned_document doc_id user_id d)
                                         (documents db)));
  match found with
  | None => mret false
  | Some _ =>
      _ ← exec (DELETE_reminders_sent doc_id);
      rowcount ← exec (DELETE_documents doc_id user_id);
      mret (0 <? rowcount)
  end.

(** *** Templates *)

(** Code point order, which is the order of SQLite's BINARY collation on
    UTF-8 text. *)
Fixpoint str_leb (a b : str) : bool :=
  match a, b with
  | [], _ => true
  | _ :: _, [] => false
  | x :: a', y :: b' => (x <? y)%N || ((x =? y)%N && str_leb a' b')
  end.

Fixpoint insert_by_name (t : Utils.template_info) (l : list Utils.template_info)
  : list Utils.template_info :=
  match l with
  | [] => [t]
  | u :: l' =>
      if str_leb (Utils.tmpl_name t) (Utils.tmpl_name u) then t :: l
      else u :: insert_by_name t l'
  end.

(** ORDER BY t.name *)
Definition order_by_name (l : list Utils.template_info) : list Utils.template_info :=
  fold_right insert_by_name [] l.

Definition get_user_templates (user_id : Z) : Sql (list Utils.template_info) :=
  select (fun db =>
    order_by_name
      (map (fun t =>
              {| Utils.tmpl_id := t_id t;
                 Utils.tmpl_name := t_name t;
                 Utils.tmpl_documents_count :=
                   len (List.filter (fun d => match d_template_id d with
                                           | VInt n => n =? t_id t
                                           | _ => false
                                           end) (documents db)) |})
           (List.filter (fun t => t_user_id t =? user_id) (templates db)))).

(** *** Reminders *)

(** A row of [get_expiring_documents]: the document and the joined user. *)
Record expiring_row := {
  doc : document_row;
  user_telegram_id : Z;
  user_first_name : pyval;
}.

(** [CAST(julianday(d.end_date) - julianday(today) AS INTEGER) = days] with
    [d.end_date IS NOT NULL]: both are dates without a time of day, so the
    difference is the difference of the ordinals. *)
Definition expires_in (today days : Z) (d : document_row) : bool :=
  match d_end_date d with
  | VDate e => e - today =? days
  | _ => false
  end.

Definition get_expiring_documents (today days : Z) : Sql (list expiring_row) :=
  select (fun db =>
    flat_map (fun d =>
                map (fun u => {| doc := d; user_telegram_id := telegram_id u;
                                 user_first_name := first_name u |})
                    (List.filter (fun u => is_user (d_user_id d) u) (users db)))
             (List.filter (fun d => expires_in today days d) (documents db))).

Definition is_reminder_sent (doc_id days : Z) : Sql bool :=
  select (fun db => existsb (is_reminder doc_id days) (reminders_sent db)).

Definition mark_reminder_sent (doc_id days : Z) : Sql unit :=
  _ ← exec (INSERT_OR_IGNORE_reminders_sent doc_id days);
  mret tt.

End Database.

(** ** utils.py: the status of a document *)

Module Status.
Import Datetime.

(** [parse_date] *)
Definition parse_date (cfg : config) (date_str : str) : option date :=
  match strptime (unicode_decimal cfg) date_str (lit "%Y-%m-%d") with
  | Ok d => Some d
  | Raise _ => None
  end.

(** [get_days_until], on a value of a row: [date - date] of any other value
    raises. *)
Definition get_days_until (cfg : config) (today : date) (end_date : pyval)
  : result (option Z) :=
  if negb (truthy end_date) then Ok None
  else
    match end_date with
    | VStr s =>
        match parse_date cfg s with
        | Some d => Ok (Some (d - today))
        | None => Ok None
        end
    | VDate d => Ok (Some (d - today))
    | _ => Raise TypeError
    end.

(** The dash [format_date] shows for no date. *)
Definition NO_DATE : str := [8212]%N.

(** [format_date] with the default [default]. *)
Definition format_date (cfg : config) (d : pyval) : result str :=
  if negb (truthy d) then Ok NO_DATE
  else
    match d with
    | VStr s =>
        match parse_date cfg s with
        | Some d => Ok (strftime_date cfg d)
        | None => Ok NO_DATE
        end
    | VDate d => Ok (strftime_date cfg d)
    | _ => Raise AttributeError
    end.

Definition EMOJI_NO_END_DATE : str := [128196]%N.
Definition EMOJI_EXPIRED : str := [128308]%N.
Definition EMOJI_WEEK : str := [128992]%N.
Definition EMOJI_MONTH : str := [128993]%N.
Definition EMOJI_VALID : str := [128994]%N.

Definition get_status_emoji (cfg : config) (today : date) (end_date : pyval)
  : result str :=
  days ← get_days_until cfg today end_date;
  match days with
  | None => Ok EMOJI_NO_END_DATE
  | Some days =>
      if days <? 0 then Ok EMOJI_EXPIRED
      else if days <=? 7 then Ok EMOJI_WEEK
      else if days <=? 30 then Ok EMOJI_MONTH
      else Ok EMOJI_VALID
  end.

(** The documents of a list shown with the emoji [emoji]. *)
Definition shown (cfg : config) (today : date) (emoji : str)
    (rows : list Database.document_row) : Z :=
  len (List.filter (fun d => match get_status_emoji cfg today (Database.d_end_date d) with
                             | Ok e => eqb e emoji
                             | Raise _ => false
                             end) rows).

End Status.

(** ** utils.py: the date keyboard *)

Module DateKeyboard.
Import Utils Datetime.

Definition CAPTION_TODAY : str :=
  [128197; 32; 1057; 1077; 1075; 1086; 1076; 1085; 1103; 32; 40]%N.
Definition CAPTION_MANUAL : str :=
  [9999; 65039; 32; 1042; 1074; 1077; 1089; 1090; 1080; 32; 1076; 1072; 1090; 1091;
   32; 1074; 1088; 1091; 1095; 1085; 1091; 1102]%N.
Definition CAPTION_SKIP : str :=
  [9197; 65039; 32; 1055; 1088; 1086; 1087; 1091; 1089; 1090; 1080; 1090; 1100]%N.

(** [quick_dates]: code, label, days. *)
Definition quick_dates : list (string * str * Z) :=
  [("+1m", [1063; 1077; 1088; 1077; 1079; 32; 49; 32; 1084; 1077; 1089; 46]%N, 30);
   ("+3m", [1063; 1077; 1088; 1077; 1079; 32; 51; 32; 1084; 1077; 1089; 46]%N, 90);
   ("+6m", [1063; 1077; 1088; 1077; 1079; 32; 54; 32; 1084; 1077; 1089; 46]%N, 180);
   ("+1y", [1063; 1077; 1088; 1077; 1079; 32; 49; 32; 1075; 1086; 1076]%N, 365);
   ("+2y", [1063; 1077; 1088; 1077; 1079; 32; 50; 32; 1075; 1086; 1076; 1072]%N, 730);
   ("+5y", [1063; 1077; 1088; 1077; 1079; 32; 53; 32; 1083; 1077; 1090]%N, 1825)].

(** The loop over [quick_dates], from the row and the keyboard built so
    far: [today + timedelta(days=days)] is computed for every option. *)
Fixpoint quick_rows (callback_prefix : str) (today : date)
    (options : list (string * str * Z)) (row : list InlineKeyboardButton)
    (keyboard : InlineKeyboardMarkup)
  : result (list InlineKeyboardButton * InlineKeyboardMarkup) :=
  match options with
  | [] => Ok (row, keyboard)
  | (code, label, days) :: options' =>
      target_date ← add_days today days;
      let row := row ++ [{| text := label;
                            callback_data := callback_prefix ++ bar ++ lit code |}] in
      if len row =? 2
      then quick_rows callback_prefix today options' [] (keyboard ++ [row])
      else quick_rows callback_prefix today options' row keyboard
  end.

(** [build_date_keyboard]; [today] is what its [date.today()] returns. *)
Definition build_date_keyboard (cfg : config) (today : date) (callback_prefix : str)
    (include_today include_skip quick_options : bool) : result InlineKeyboardMarkup :=
  let keyboard := [] in
  keyboard ←
    (if include_today then
       today_text ← Status.format_date cfg (VDate today);
       Ok (keyboard ++ [[{| text := CAPTION_TODAY ++ today_text ++ lit ")";
                            callback_data := callback_prefix ++ lit "|today" |}]])
     else Ok keyboard);
  keyboard ←
    (if quick_options then
       '(row, keyboard) ← quick_rows callback_prefix today quick_dates [] keyboard;
       Ok (match row with
           | [] => keyboard
           | _ => keyboard ++ [row]
           end)
     else Ok keyboard);
  let keyboard := keyboard ++ [[{| text := CAPTION_MANUAL;
                                   callback_data := callback_prefix ++ lit "|manual" |}]] in
  let keyboard :=
    if include_skip
    then keyboard ++ [[{| text := CAPTION_SKIP;
                          callback_data := callback_prefix ++ lit "|skip" |}]]
    else keyboard in
  Ok keyboard.

End DateKeyboard.

(** ** jobs.py: the reminder job

    [context.bot.send_message] either returns or raises; which of the two
    the [n]-th call of a process does is given by [delivers n].  The job
    leaves a trace: the messages delivered, the ledger writes and the lines
    of [logger.error]. *)

Module Jobs.
Import Database.

Inductive urgency :=
| TODAY
| TOMORROW
| WITHIN_WEEK (days : Z)
| LATER (days : Z).

(** The text of a reminder: what the f-string is built from. *)
Record message := {
  m_name : pyval;
  m_end_date : pyval;
  m_urgency : urgency;
}.

Inductive event :=
| Delivered (doc_id days chat_id : Z) (m : message)  (* send_message returned *)
| Marked (doc_id days : Z)                           (* mark_reminder_sent *)
| Failed (doc_id days chat_id : Z).                  (* send_message raised; logger.error *)

Record job_state := {
  db : database;
  calls : nat;          (* calls of send_message so far *)
  trace : list event;
  sent_count : Z;
}.

Definition urgency_of (days : Z) : urgency :=
  if days =? 0 then TODAY
  else if days =? 1 then TOMORROW
  else if days <=? 7 then WITHIN_WEEK days
  else LATER days.

(** The body of the inner loop, for one row of [get_expiring_documents]. *)
Definition remind (delivers : nat -> bool) (days : Z) (st : job_state)
    (row : expiring_row) : job_state :=
  let doc_id := d_id (doc row) in
  let chat := user_telegram_id row in
  if result_of (with_connection (is_reminder_sent doc_id days) (db st)) then st
  else
    let m := {| m_name := d_name (doc row); m_end_date := d_end_date (doc row);
                m_urgency := urgency_of days |} in
    if delivers (calls st) then
      {| db := db_of (with_connection (mark_reminder_sent doc_id days) (db st));
         calls := S (calls st);
         trace := trace st ++ [Delivered doc_id days chat m; Marked doc_id days];
         sent_count := sent_count st + 1 |}
    else
      {| db := db st;
         calls := S (calls st);
         trace := trace st ++ [Failed doc_id days chat];
         sent_count := sent_count st |}.

(** The body of the outer loop, for one threshold. *)
Definition remind_threshold (delivers : nat -> bool) (today : Z) (st : job_state)
    (days : Z) : job_state :=
  let documents := result_of (with_connection (get_expiring_documents today days) (db st)) in
  fold_left (remind delivers days) documents st.

(** The outer loop from the [i]-th threshold on: [get_expiring_documents]
    reads [date.today()] once for every threshold, and [clock i] is the day
    it returns at the [i]-th. *)
Fixpoint remind_thresholds (delivers : nat -> bool) (clock : nat -> Z) (i : nat)
    (thresholds : list Z) (st : job_state) : job_state :=
  match thresholds with
  | [] => st
  | days :: thresholds' =>
      remind_thresholds delivers clock (S i) thresholds'
        (remind_threshold delivers (clock i) st days)
  end.

(** [send_reminders], run on the database [d] by a process that has called
    [send_message] [n] times before: the state when the run ends, with the
    trace of this run. *)
Definition send_reminders_clock (cfg : config) (delivers : nat -> bool)
    (clock : nat -> Z) (d : database) (n : nat) : job_state :=
  remind_thresholds delivers clock 0 (REMINDER_DAYS_BEFORE cfg)
    {| db := d; calls := n; trace := []; sent_count := 0 |}.

(** The run within one day: every [date.today()] of the run returns
    [today]. *)
Definition send_reminders (cfg : config) (delivers : nat -> bool) (today : Z)
    (d : database) (n : nat) : job_state :=
  fold_left (remind_threshold delivers today) (REMINDER_DAYS_BEFORE cfg)
    {| db := d; calls := n; trace := []; sent_count := 0 |}.

(** The messages of the trace delivered for a (document, threshold) pair. *)
Definition is_delivery (doc_id days : Z) (e : event) : bool :=
  match e with
  | Delivered d k _ _ => (d =? doc_id) && (k =? days)
  | _ => false
  end.

Definition deliveries (doc_id days : Z) (tr : list event) : nat :=
  length (List.filter (is_delivery doc_id days) tr).

Definition is_failure (doc_id days : Z) (e : event) : bool :=
  match e with
  | Failed d k _ => (d =? doc_id) && (k =? days)
  | _ => false
  end.

Definition failures (doc_id days : Z) (tr : list event) : nat :=
  length (List.filter (is_failure doc_id days) tr).

(** What each call of [send_message] in the trace did, in order. *)
Definition outcome (e : event) : option bool :=
  match e with
  | Delivered _ _ _ _ => Some true
  | Failed _ _ _ => Some false
  | Marked _ _ => None
  end.

(** [is_reminder_sent(doc_id, days)] on the database [d]. *)
Definition in_ledger (d : database) (doc_id days : Z) : bool :=
  result_of (with_connection (is_reminder_sent doc_id days) d).

(** [get_expiring_documents(days)] on the database [d]. *)
Definition expiring (today days : Z) (d : database) : list expiring_row :=
  result_of (with_connection (get_expiring_documents today days) d).

(** The database after [mark_reminder_sent(doc_id, days)]. *)
Definition mark (d : database) (doc_id days : Z) : database :=
  db_of (with_connection (mark_reminder_sent doc_id days) d).

End Jobs.

(** ** handlers/documents.py: the upload conversation

    A handler takes the context (the user's [user_data], the database, the
    calls made on the chat so far) and returns the next conversation state
    with the context it leaves, or raises.  The texts sent are kept as the
    expressions that build them. *)

Module Documents.
Import Database.

(** The draft [context.user_data["upload"]], a dict with string keys. *)
Abbreviation draft := (gmap string pyval).

(** [context.user_data]: the code uses the keys "upload" and
    "creating_template". *)
Record UserData := {
  upload : option draft;
  creating_template : option pyval;
}.

Inductive text :=
| MESSAGES (key : string)                       (* config.MESSAGES[key] *)
| MESSAGES_format (key : string) (arg : pyval)  (* config.MESSAGES[key].format(...) *)
| SEND_A_FILE                                   (* the reply to a message with no file *)
| VALIDATION (m : Utils.validation_message)
| ENTER_START_DATE
| ENTER_END_DATE
| BAD_START_DATE
| BAD_END_DATE
| START_DATE_SELECTED (d : Datetime.date)
| END_DATE_SELECTED (d : pyval)
| SAVED_SUMMARY (name start_date end_date : pyval).

Inductive markup :=
| InlineKeyboard (k : Utils.InlineKeyboardMarkup).

Inductive action :=
| answer                                              (* query.answer() *)
| reply_text (t : text) (k : option markup)           (* message.reply_text *)
| edit_message_text (t : text) (k : option markup).   (* query.edit_message_text *)

Record context := {
  user_data : UserData;
  db : database;
  sent : list action;
}.

Definition send (a : action) (ctx : context) : context :=
  {| user_data := user_data ctx; db := db ctx; sent := sent ctx ++ [a] |}.

Definition set_upload (u : option draft) (ctx : context) : context :=
  {| user_data := {| upload := u;
                     creating_template := creating_template (user_data ctx) |};
     db := db ctx; sent := sent ctx |}.

Definition set_db (d : database) (ctx : context) : context :=
  {| user_data := user_data ctx; db := d; sent := sent ctx |}.

(** [context.user_data["upload"][key] = v] *)
Definition upload_setitem (key : string) (v : pyval) (ctx : context) : result context :=
  match upload (user_data ctx) with
  | None => Raise KeyError
  | Some d => Ok (set_upload (Some (<[key := v]> d)) ctx)
  end.

(** [context.user_data["upload"].pop(key, None)] *)
Definition upload_pop (key : string) (ctx : context) : result context :=
  match upload (user_data ctx) with
  | None => Raise KeyError
  | Some d => Ok (set_upload (Some (delete key d)) ctx)
  end.

(** [context.user_data.get("upload", {})] *)
Definition upload_data (ctx : context) : draft :=
  default ∅ (upload (user_data ctx)).

(** [d.get(key)] *)
Definition get (d : draft) (key : string) : pyval := default VNone (d !! key).

(** [d.get(key, dflt)] *)
Definition get_default (d : draft) (key : string) (dflt : pyval) : pyval :=
  default dflt (d !! key).

(** A database call of a handler, on its own connection. *)
Definition call {A} (m : Sql A) (ctx : context) : A * context :=
  let r := with_connection m (db ctx) in (result_of r, set_db (db_of r) ctx).

Record User := {
  id : Z;
  user_username : pyval;
  user_first_name : pyval;
}.

Record File := {
  file_id : str;
  file_unique_id : str;
  file_name : option str;
  file_size : option Z;
}.

Record Message := {
  document : option File;
  photo : list File;
}.

Definition NAME_MISSING : str :=
  [1041; 1077; 1079; 32; 1085; 1072; 1079; 1074; 1072; 1085; 1080; 1103]%N.
Definition NAME_DOCUMENT : str := [1044; 1086; 1082; 1091; 1084; 1077; 1085; 1090]%N.
Definition CAPTION_VIEW : str :=
  [128196; 32; 1055; 1086; 1089; 1084; 1086; 1090; 1088; 1077; 1090; 1100]%N.
Definition CAPTION_MY_DOCUMENTS : str :=
  [128218; 32; 1052; 1086; 1080; 32; 1076; 1086; 1082; 1091; 1084; 1077; 1085; 1090; 1099]%N.

Definition upload_start (cfg : config) (user : User) (message : Message)
    (ctx : context) : result (UploadStates * context) :=
  let '(_, ctx) := call (get_or_create_user (id user) (user_username user)
                                             (user_first_name user)) ctx in
  let '(doc_count, ctx) := call (get_documents_count (id user)) ctx in
  if MAX_DOCUMENTS_PER_USER cfg <=? doc_count then
    Ok (END, send (reply_text (MESSAGES_format "limit_reached_documents"
                                 (VInt (MAX_DOCUMENTS_PER_USER cfg))) None) ctx)
  else
    let file :=
      match document message with
      | Some f => Some (file_id f, file_name f, file_size f)
      | None =>
          match last (photo message) with
          | Some f => Some (file_id f,
                            Some (lit "photo_" ++ file_unique_id f ++ lit ".jpg"),
                            Some (default 0 (file_size f)))
          | None => None
          end
      end in
    match file with
    | None => Ok (END, send (reply_text SEND_A_FILE None) ctx)
    | Some (fid, fname, fsize) =>
        '(is_valid, error_msg) ← Utils.validate_file cfg fname fsize;
        if negb is_valid then Ok (END, send (reply_text (VALIDATION error_msg) None) ctx)
        else
          let name := default [] fname in
          let ctx := set_upload
            (Some (<["file_id" := VStr fid]>
                    (<["file_name" := VStr name]>
                      (<["file_type" := VStr (Utils.get_file_type cfg name)]> ∅)))) ctx in
          Ok (WAITING_NAME, send (reply_text (MESSAGES "upload_start") None) ctx)
    end.

(** [built] is the day on which the date keyboard is built: what the
    [date.today()] of [build_date_keyboard] returns. *)
Definition upload_name (cfg : config) (built : Datetime.date) (text : str)
    (ctx : context) : result (UploadStates * context) :=
  let name := strip text in
  if len name <? 2 then
    Ok (WAITING_NAME, send (reply_text (MESSAGES "upload_name_invalid") None) ctx)
  else
    let name := if 100 <? len name then slice_to name 100 else name in
    ctx ← upload_setitem "name" (VStr name) ctx;
    keyboard ← DateKeyboard.build_date_keyboard cfg built (lit "start") true false true;
    Ok (WAITING_START_DATE,
        send (reply_text (MESSAGES "upload_select_start_date")
                (Some (InlineKeyboard keyboard))) ctx).

(** [today] is the [date.today()] of the handler, [built] the one of
    [build_date_keyboard], read after it. *)
Definition upload_start_date_callback (cfg : config) (today built : Datetime.date)
    (data : str) (ctx : context) : result (UploadStates * context) :=
  let ctx := send answer ctx in
  let data := split 124%N data in
  if len data <? 2 then Ok (WAITING_START_DATE, ctx)
  else
    let date_option := nth 1 data [] in
    (* the code after the chain, for the date the chain selected *)
    let finish (selected_date : Datetime.date) : result (UploadStates * context) :=
      ctx ← upload_setitem "start_date" (VDate selected_date) ctx;
      keyboard ← DateKeyboard.build_date_keyboard cfg built (lit "end") false true true;
      Ok (WAITING_END_DATE,
          send (edit_message_text (START_DATE_SELECTED selected_date)
                  (Some (InlineKeyboard keyboard))) ctx) in
    if eqb date_option (lit "today") then finish today
    else if eqb date_option (lit "+1m") then Datetime.add_days today 30 ≫= finish
    else if eqb date_option (lit "+3m") then Datetime.add_days today 90 ≫= finish
    else if eqb date_option (lit "+6m") then Datetime.add_days today 180 ≫= finish
    else if eqb date_option (lit "+1y") then Datetime.add_days today 365 ≫= finish
    else if eqb date_option (lit "+2y") then Datetime.add_days today 730 ≫= finish
    else if eqb date_option (lit "+5y") then Datetime.add_days today 1825 ≫= finish
    else if eqb date_option (lit "manual") then
      let ctx := send (edit_message_text ENTER_START_DATE None) ctx in
      ctx ← upload_setitem "waiting_manual_start" (VBool true) ctx;
      Ok (WAITING_START_DATE, ctx)
    else Ok (WAITING_START_DATE, ctx).

Definition upload_start_date_manual (cfg : config) (built : Datetime.date)
    (text : str) (ctx : context) : result (UploadStates * context) :=
  if negb (truthy (get (upload_data ctx) "waiting_manual_start")) then
    Ok (WAITING_START_DATE, ctx)
  else
    let text := strip text in
    parsed_date ← Datetime.first_parse (unicode_decimal cfg) text Datetime.MANUAL_FORMATS;
    match parsed_date with
    | None => Ok (WAITING_START_DATE, send (reply_text BAD_START_DATE None) ctx)
    | Some d =>
        ctx ← upload_setitem "start_date" (VDate d) ctx;
        ctx ← upload_pop "waiting_manual_start" ctx;
        keyboard ← DateKeyboard.build_date_keyboard cfg built (lit "end") false true true;
        Ok (WAITING_END_DATE,
            send (reply_text (START_DATE_SELECTED d)
                    (Some (InlineKeyboard keyboard))) ctx)
    end.

(** sqlite3 binds a Python int as a 64-bit INTEGER and raises OverflowError
    for any other, before the statement runs.  Of the values a draft is
    saved with, the template id is the int: the others are the texts and
    dates the handlers stored; the user id is Telegram's. *)
Definition bind_int (v : pyval) : result unit :=
  match v with
  | VInt n => if (- 2 ^ 63 <=? n) && (n <? 2 ^ 63) then Ok () else Raise OverflowError
  | _ => Ok ()
  end.

(** The [insert_document] call shared by both ways of saving. *)
Definition insert_draft (user_id : Z) (d : draft) : Sql Z :=
  insert_document user_id
    (get_default d "name" (VStr NAME_MISSING))
    (get d "file_id") (get d "file_name") (get d "file_type")
    (get d "start_date") (get d "end_date") (get d "template_id") VNone.

Definition save_document (user_id : Z) (ctx : context)
    : result (UploadStates * context) :=
  let d := upload_data ctx in
  if negb (truthy (get d "file_id")) then
    Ok (END, send (reply_text (MESSAGES "error_generic") None) ctx)
  else
    _ ← bind_int (get d "template_id");
    let '(doc_id, ctx) := call (insert_draft user_id d) ctx in
    let ctx :=
      if negb (doc_id =? 0)
      then send (reply_text (MESSAGES_format "upload_success"
                               (get_default d "name" (VStr NAME_DOCUMENT))) None) ctx
      else send (reply_text (MESSAGES "error_generic") None) ctx in
    Ok (END, set_upload None ctx).

Definition save_document_from_callback (user_id : Z) (ctx : context)
    : result (UploadStates * context) :=
  let d := upload_data ctx in
  if negb (truthy (get d "file_id")) then
    Ok (END, send (edit_message_text (MESSAGES "error_generic") None) ctx)
  else
    _ ← bind_int (get d "template_id");
    let '(doc_id, ctx) := call (insert_draft user_id d) ctx in
    let ctx :=
      if negb (doc_id =? 0)
      then send (edit_message_text
                   (SAVED_SUMMARY (get_default d "name" (VStr NAME_DOCUMENT))
                                  (get d "start_date") (get d "end_date"))
                   (Some (InlineKeyboard
                      [[{| Utils.text := CAPTION_VIEW;
                           Utils.callback_data := lit "doc|view|" ++ of_Z doc_id |}];
                       [{| Utils.text := CAPTION_MY_DOCUMENTS;
                           Utils.callback_data := lit "mydocs|list|0" |}]]))) ctx
      else send (edit_message_text (MESSAGES "error_generic") None) ctx in
    Ok (END, set_upload None ctx).

Definition show_template_selection (user_id : Z) (ctx : context)
    : result (UploadStates * context) :=
  let '(templates, ctx) := call (get_user_templates user_id) ctx in
  match upload (user_data ctx) with
  | None => Raise KeyError
  | Some d =>
      let end_date := get d "end_date" in
      match templates with
      | [] => save_document_from_callback user_id ctx
      | _ =>
          keyboard ← Utils.build_templates_keyboard templates 0 8 true;
          Ok (WAITING_TEMPLATE,
              send (edit_message_text (END_DATE_SELECTED end_date)
                      (Some (InlineKeyboard keyboard))) ctx)
      end
  end.

Definition upload_end_date_callback (today : Datetime.date) (user_id : Z)
    (data : str) (ctx : context) : result (UploadStates * context) :=
  let ctx := send answer ctx in
  let data := split 124%N data in
  if len data <? 2 then Ok (WAITING_END_DATE, ctx)
  else
    let date_option := nth 1 data [] in
    (* the code after the chain, for the value the chain selected *)
    let finish (selected_date : pyval) : result (UploadStates * context) :=
      ctx ← upload_setitem "end_date" selected_date ctx;
      show_template_selection user_id ctx in
    let plus (days : Z) : result pyval := VDate <$> Datetime.add_days today days in
    if eqb date_option (lit "skip") then finish VNone
    else if eqb date_option (lit "today") then finish (VDate today)
    else if eqb date_option (lit "+1m") then plus 30 ≫= finish
    else if eqb date_option (lit "+3m") then plus 90 ≫= finish
    else if eqb date_option (lit "+6m") then plus 180 ≫= finish
    else if eqb date_option (lit "+1y") then plus 365 ≫= finish
    else if eqb date_option (lit "+2y") then plus 730 ≫= finish
    else if eqb date_option (lit "+5y") then plus 1825 ≫= finish
    else if eqb date_option (lit "manual") then
      let ctx := send (edit_message_text ENTER_END_DATE None) ctx in
      ctx ← upload_setitem "waiting_manual_end" (VBool true) ctx;
      Ok (WAITING_END_DATE, ctx)
    else Ok (WAITING_END_DATE, ctx).

Definition upload_end_date_manual (cfg : config) (user_id : Z) (text : str)
    (ctx : context) : result (UploadStates * context) :=
  if negb (truthy (get (upload_data ctx) "waiting_manual_end")) then
    Ok (WAITING_END_DATE, ctx)
  else
    let text := strip text in
    parsed_date ← Datetime.first_parse (unicode_decimal cfg) text Datetime.MANUAL_FORMATS;
    match parsed_date with
    | None => Ok (WAITING_END_DATE, send (reply_text BAD_END_DATE None) ctx)
    | Some d =>
        ctx ← upload_setitem "end_date" (VDate d) ctx;
        ctx ← upload_pop "waiting_manual_end" ctx;
        let '(templates, ctx) := call (get_user_templates user_id) ctx in
        match templates with
        | [] => save_document user_id ctx
        | _ =>
            keyboard ← Utils.build_templates_keyboard templates 0 8 true;
            Ok (WAITING_TEMPLATE,
                send (reply_text (MESSAGES "upload_select_template")
                        (Some (InlineKeyboard keyboard))) ctx)
        end
    end.

End Documents.

(** ** Sample data *)

Module Examples.
Import Database.

Definition ascii_lower (s : str) : str :=
  map (fun c => if (65 <=? c)%N && (c <=? 90)%N then (c + 32)%N else c) s.

Definition sample_config : config := {|
  MAX_DOCUMENTS_PER_USER := 2;
  ALLOWED_EXTENSIONS := [lit ".pdf"; lit ".jpg"; lit ".png"];
  MAX_FILE_SIZE := 20971520;
  REMINDER_DAYS_BEFORE := [0; 1; 3; 7; 30];
  unicode_decimal := Datetime.ascii_decimal;
  unicode_lower := ascii_lower;
  strftime_date := fun _ => lit "15.01.2024";
|}.

(** 2024-01-15 *)
Definition sample_today : Datetime.date := Datetime.ymd2ord 2024 1 15.

Definition sample_document (ident : Z) (end_date : pyval) : document_row := {|
  d_id := ident; d_user_id := 100; d_name := VStr (lit "Passport");
  d_file_id := VStr (lit "file-1"); d_file_name := VStr (lit "passport.pdf");
  d_file_type := VStr (lit "pdf"); d_start_date := VNone; d_end_date := end_date;
  d_template_id := VNone; d_notes := VNone;
|}.

(** One user with two documents, the first expiring in a week. *)
Definition sample_db : database := {|
  users := [{| telegram_id := 100; username := VStr (lit "ann"); first_name := VNone |}];
  templates := [];
  documents := [sample_document 1 (VDate (sample_today + 7)); sample_document 2 VNone];
  reminders_sent := [];
  documents_seq := 2;
|}.

Definition sample_user : Documents.User := {|
  Documents.id := 100;
  Documents.user_username := VStr (lit "ann");
  Documents.user_first_name := VNone;
|}.

Definition sample_draft : Documents.draft :=
  <["file_id" := VStr (lit "file-9")]>
    (<["file_name" := VStr (lit "visa.pdf")]> (<["file_type" := VStr (lit "pdf")]> ∅)).

Definition sample_context (d : Documents.draft) : Documents.context := {|
  Documents.user_data := {| Documents.upload := Some d;
                            Documents.creating_template := None |};
  Documents.db := sample_db;
  Documents.sent := [];
|}.

End Examples.

(** ** datetime: the texts of a date

    The texts are built from the fields of a date; the fields are those of
    [make_date]. *)

Module Formatting.

(** The ASCII digit of a value from 0 to 9. *)
Definition digit_char (v : Z) : char := Z.to_N (48 + v).

(** ["%02d" % n] for n from 0 to 99 *)
Definition pad2 (n : Z) : str := [digit_char (n / 10); digit_char (n mod 10)].

(** ["%04d" % n] for n from 0 to 9999 *)
Definition pad4 (n : Z) : str :=
  [digit_char (n / 1000); digit_char (n / 100 mod 10);
   digit_char (n / 10 mod 10); digit_char (n mod 10)].

(** [date(year, month, day).isoformat()], the text the sqlite3 module stores
    for a date and returns for a DATE column. *)
Definition isoformat (year month day : Z) : str :=
  pad4 year ++ lit "-" ++ pad2 month ++ lit "-" ++ pad2 day.

(** [date(year, month, day).strftime("%d.%m.%Y")], what [format_date]
    shows, for a year of four digits. *)
Definition strftime_dmY (year month day : Z) : str :=
  pad2 day ++ lit "." ++ pad2 month ++ lit "." ++ pad4 year.

(** The same date typed with slashes. *)
Definition typed_with_slashes (year month day : Z) : str :=
  pad2 day ++ lit "/" ++ pad2 month ++ lit "/" ++ pad4 year.

End Formatting.

(** ** The notions the properties are stated with *)

Module Notions.
Import Utils Router Datetime.

(** The ceiling of [a / b] as the specification means it: the least integer
    not below the quotient. *)
Definition ceil_div (a b : Z) : Z := - ((- a) / b).

(** The patterns of the two handlers that delete a document. *)
Definition confirm_pattern : pattern :=
  anchored "doc|delete|" ++ [NotFollowedBy (lit "yes")].

Definition execute_pattern : pattern := anchored "doc|delete_yes|".

(** Two digit tables agree on every character of a text. *)
Definition agree (dec dec' : char -> option Z) (s : str) : Prop :=
  Forall (fun c => dec c = dec' c) s.

(** [cap] is a text one of the alternatives of the directive matches. *)
Definition field (dec : char -> option Z) (d : directive) (cap : str) : Prop :=
  exists alt, alt ∈ regex_of d /\ Forall2 (fun k c => cls_matches dec k c = true) alt cap.

(** The three layouts a typed date can have: day, month and year fields
    with the separators of one of the formats. *)
Definition layout (dec : char -> option Z) (text : str) (date : date) : Prop :=
  exists dd mm yyyy y m d,
    field dec D_d dd /\ field dec D_m mm /\ field dec D_Y yyyy
    /\ int_of_group dec dd = Ok d /\ int_of_group dec mm = Ok m
    /\ int_of_group dec yyyy = Ok y
    /\ make_date y m d = Ok date
    /\ (text = dd ++ lit "." ++ mm ++ lit "." ++ yyyy
        \/ text = dd ++ lit "/" ++ mm ++ lit "/" ++ yyyy
        \/ text = yyyy ++ lit "-" ++ mm ++ lit "-" ++ dd).

(** The ways to write the number of a day: with two digits, and from 1 to 9
    also the digit alone or a blank and the digit. *)
Definition day_texts (d : Z) : list str :=
  Formatting.pad2 d
  :: (if d <? 10
      then [[Formatting.digit_char d]; [32%N; Formatting.digit_char d]]
      else []).

(** The ways to write the number of a month: with two digits, and from 1 to
    9 also the digit alone. *)
Definition month_texts (m : Z) : list str :=
  Formatting.pad2 m :: (if m <? 10 then [[Formatting.digit_char m]] else []).

(** [text] is a way to write the calendar date [date]: its day, month and
    year, the year with four digits, as day.month.year, day/month/year or
    year-month-day. *)
Definition written (text : str) (date : date) : Prop :=
  exists y m d dd mm,
    make_date y m d = Ok date
    /\ dd ∈ day_texts d /\ mm ∈ month_texts m
    /\ (text = dd ++ lit "." ++ mm ++ lit "." ++ Formatting.pad4 y
        \/ text = dd ++ lit "/" ++ mm ++ lit "/" ++ Formatting.pad4 y
        \/ text = Formatting.pad4 y ++ lit "-" ++ mm ++ lit "-" ++ dd).

Definition is_digit (c : char) : bool := (48 <=? c)%N && (c <=? 57)%N.

(** DD.MM.YYYY, DD/MM/YYYY or YYYY-MM-DD to the letter: ten characters, two
    digits for the day, two for the month and four for the year. *)
Definition is_literal_format (text : str) : bool :=
  match text with
  | [a; b; s; c; d; s'; e; f; g; h] =>
      is_digit a && is_digit b && is_digit c && is_digit d
      && is_digit e && is_digit f && is_digit g && is_digit h
      && ((s =? 46)%N && (s' =? 46)%N || (s =? 47)%N && (s' =? 47)%N)
      || is_digit a && is_digit b && is_digit s && is_digit c
         && (d =? 45)%N && is_digit s' && is_digit e
         && (f =? 45)%N && is_digit g && is_digit h
  | _ => false
  end.

End Notions.

Module JobsNotions.
Import Database Jobs.

(** What holds of the loop state throughout a run that started on the
    database [d0] after [n] calls of [send_message]. *)
Record run_inv (delivers : nat -> bool) (d0 : database) (n : nat) (s : job_state)
  : Prop := {
  inv_documents : documents (db s) = documents d0;
  inv_users : users (db s) = users d0;
  inv_once : forall doc_id days, (deliveries doc_id days (trace s) <= 1)%nat;
  inv_ledger : forall doc_id days,
    in_ledger (db s) doc_id days
    = in_ledger d0 doc_id days || (0 <? deliveries doc_id days (trace s))%nat;
  inv_old : forall doc_id days,
    in_ledger d0 doc_id days = true -> deliveries doc_id days (trace s) = 0%nat;
  inv_order : forall i doc_id days,
    trace s !! i = Some (Marked doc_id days) ->
    exists j chat m, i = S j /\ trace s !! j = Some (Delivered doc_id days chat m);
  inv_calls : (n <= calls s)%nat
              /\ omap outcome (trace s) = map delivers (seq n (calls s - n));
}.

(** A pair the loop has dealt with: recorded in the ledger, or its delivery
    failed and was logged. *)
Definition handled (s : job_state) (doc_id days : Z) : Prop :=
  in_ledger (db s) doc_id days = true \/ (0 < failures doc_id days (trace s))%nat.

End JobsNotions.

Module DocumentsNotions.
Import Database Documents.

(** The count [get_documents_count] returns on the database [d]. *)
Definition documents_count (user_id : Z) (d : database) : Z :=
  result_of (with_connection (get_documents_count user_id) d).

(** The quick-date options and their offsets in days, as the specification
    lists them. *)
Definition QUICK_OPTIONS : list (string * Z) :=
  [("today", 0); ("+1m", 30); ("+3m", 90); ("+6m", 180);
   ("+1y", 365); ("+2y", 730); ("+5y", 1825)].

(** The row a draft is saved as. *)
Definition row_of_draft (rowid user_id : Z) (d : draft) : document_row := {|
  d_id := rowid; d_user_id := user_id;
  d_name := get_default d "name" (VStr NAME_MISSING);
  d_file_id := get d "file_id"; d_file_name := get d "file_name";
  d_file_type := get d "file_type"; d_start_date := get d "start_date";
  d_end_date := get d "end_date"; d_template_id := get d "template_id";
  d_notes := VNone;
|}.

(** Saved without a template: the conversation ends, the draft [d]
    is gone from the session store, and the documents have one more row, for
    [d] with the end date chosen and no template. *)
Definition persisted_without_template (user_id : Z) (d : draft) (end_date : pyval)
    (ctx : context) (r : result (UploadStates * context)) : Prop :=
  exists ctx',
    r = Ok (END, ctx')
    /\ upload (user_data ctx') = None
    /\ exists row,
         documents (db ctx') = documents (db ctx) ++ [row]
         /\ d_user_id row = user_id
         /\ d_template_id row = VNone
         /\ d_end_date row = end_date
         /\ d_file_id row = get d "file_id"
         /\ d_name row = get_default d "name" (VStr NAME_MISSING)
         /\ d_start_date row = get d "start_date".

(** The templates [get_user_templates] returns on the database [d]. *)
Definition user_templates (user_id : Z) (d : database) : list Utils.template_info :=
  result_of (with_connection (get_user_templates user_id) d).

(** A handler kept the draft's file and left its template alone: a draft
    that was there is still there, with the same entries under "file_id"
    and "template_id". *)
Definition kept (ctx ctx' : context) : Prop :=
  forall d, upload (user_data ctx) = Some d ->
  exists d', upload (user_data ctx') = Some d'
             /\ d' !! "file_id" = d !! "file_id"
             /\ d' !! "template_id" = d !! "template_id".

End DocumentsNotions.

(** ** More notions: what a run of the reminder job leaves behind *)

Module JobsTrace.
Import Database Jobs.

(** The ledger row an event of the trace writes. *)
Definition marked (e : event) : option reminder_row :=
  match e with
  | Marked doc_id days => Some {| document_id := doc_id; days_before := days |}
  | _ => None
  end.

(** The event is what the loop body does for the row [row] at the
    threshold [days]. *)
Definition about (days : Z) (row : expiring_row) (e : event) : Prop :=
  match e with
  | Delivered doc_id k chat m =>
      doc_id = d_id (doc row) /\ k = days /\ chat = user_telegram_id row
      /\ m = {| m_name := d_name (doc row); m_end_date := d_end_date (doc row);
                m_urgency := urgency_of days |}
  | Marked doc_id k => doc_id = d_id (doc row) /\ k = days
  | Failed doc_id k chat =>
      doc_id = d_id (doc row) /\ k = days /\ chat = user_telegram_id row
  end.

(** The pair an event is about. *)
Definition pair_of (e : event) : Z * Z :=
  match e with
  | Delivered doc_id k _ _ => (doc_id, k)
  | Marked doc_id k => (doc_id, k)
  | Failed doc_id k _ => (doc_id, k)
  end.

(** An event a run on the database [d0] may leave: it is about a row a
    configured threshold matches, for a pair the ledger of [d0] lacks. *)
Definition justified (cfg : config) (today : Z) (d0 : database) (e : event) : Prop :=
  (exists days row,
     days ∈ REMINDER_DAYS_BEFORE cfg /\ row ∈ expiring today days d0 /\ about days row e)
  /\ in_ledger d0 (pair_of e).1 (pair_of e).2 = false.

(** A message delivered about the document [doc_id], at any threshold. *)
Definition concerns (doc_id : Z) (e : event) : bool :=
  match e with
  | Delivered d _ _ _ => d =? doc_id
  | _ => false
  end.

End JobsTrace.

(** ** database.py: lookups, templates and statistics

    The functions of database.py the upload conversation and the reminder
    job do not call.  Those that write are given in state-passing style:
    the database before, the result and the database after.

    A DATE column holds the ISO text of a date, which the model keeps as
    [VDate]; on such texts the order of SQLite is the order of the dates. *)

Module DatabaseMore.
Import Datetime Database.

Definition owned_template (template_id user_id : Z) (t : template_row) : bool :=
  (t_id t =? template_id) && (t_user_id t =? user_id).

(** [d.template_id = ?] *)
Definition in_template (template_id : Z) (d : document_row) : bool :=
  match d_template_id d with
  | VInt n => n =? template_id
  | _ => false
  end.

(** [t.name as template_name] in the rows [LEFT JOIN templates t ON
    d.template_id = t.id] yields for one document: NULL when no template
    matches. *)
Definition template_names (db : database) (d : document_row) : list pyval :=
  match List.filter (fun t => in_template (t_id t) d) (templates db) with
  | [] => [VNone]
  | ts => map (fun t => VStr (t_name t)) ts
  end.

(** The row and its [template_name], or [None]. *)
Definition get_document_by_id (doc_id user_id : Z)
  : Sql (option (document_row * pyval)) :=
  select (fun db =>
    head (flat_map (fun d => map (pair d) (template_names db d))
                   (List.filter (fun d => owned_document doc_id user_id d)
                                (documents db)))).

(** The rows the WHERE clause of [get_user_documents] selects, in table
    order: the ORDER BY of the query sorts them by end date and by
    [created_at], which is not modelled. *)
Definition user_documents (user_id : Z) (template_id : pyval) (db : database)
  : list document_row :=
  if truthy template_id
  then List.filter (fun d => (d_user_id d =? user_id) &&
                             match template_id with
                             | VInt n => in_template n d
                             | _ => false
                             end) (documents db)
  else List.filter (fun d => d_user_id d =? user_id) (documents db).

Definition get_template_by_id (template_id user_id : Z) : Sql (option template_row) :=
  select (fun db =>
    head (List.filter (fun t => owned_template template_id user_id t) (templates db))).

Definition get_templates_count (user_id : Z) : Sql Z :=
  select (fun db => len (List.filter (fun t => t_user_id t =? user_id) (templates db))).

(** *** update_document *)

(** [end_date if end_date != "NULL" else None] *)
Definition end_date_param (end_date : pyval) : pyval :=
  match end_date with
  | VStr s => if eqb s (lit "NULL") then VNone else end_date
  | _ => end_date
  end.

(** [template_id if template_id != -1 else None] *)
Definition template_id_param (template_id : pyval) : pyval :=
  match template_id with
  | VInt n => if n =? -1 then VNone else template_id
  | _ => template_id
  end.

Definition is_None (v : pyval) : bool :=
  match v with
  | VNone => true
  | _ => false
  end.

(** The columns the built UPDATE sets, on one row: an argument that is
    [None] adds no assignment. *)
Definition set_columns (name start_date end_date template_id notes : pyval)
    (d : document_row) : document_row := {|
  d_id := d_id d; d_user_id := d_user_id d;
  d_name := if is_None name then d_name d else name;
  d_file_id := d_file_id d; d_file_name := d_file_name d;
  d_file_type := d_file_type d;
  d_start_date := if is_None start_date then d_start_date d else start_date;
  d_end_date := if is_None end_date then d_end_date d else end_date_param end_date;
  d_template_id :=
    if is_None template_id then d_template_id d else template_id_param template_id;
  d_notes := if is_None notes then d_notes d else notes;
|}.

Definition set_documents (rows : list document_row) (db : database) : database :=
  {| users := users db; templates := templates db; documents := rows;
     reminders_sent := reminders_sent db; documents_seq := documents_seq db |}.

Definition set_templates (rows : list template_row) (db : database) : database :=
  {| users := users db; templates := rows; documents := documents db;
     reminders_sent := reminders_sent db; documents_seq := documents_seq db |}.

Definition update_document (doc_id user_id : Z)
    (name start_date end_date template_id notes : pyval) (db : database)
  : bool * database :=
  if is_None name && is_None start_date && is_None end_date &&
     is_None template_id && is_None notes
  then (false, db)
  else
    let rowcount := len (List.filter (fun d => owned_document doc_id user_id d)
                                     (documents db)) in
    (0 <? rowcount,
     set_documents
       (map (fun d => if owned_document doc_id user_id d
                      then set_columns name start_date end_date template_id notes d
                      else d) (documents db)) db).

(** *** Templates *)

(** [UPDATE documents SET template_id = NULL WHERE template_id = ?] on one
    row. *)
Definition unlink (template_id : Z) (d : document_row) : document_row :=
  if in_template template_id d
  then {| d_id := d_id d; d_user_id := d_user_id d; d_name := d_name d;
          d_file_id := d_file_id d; d_file_name := d_file_name d;
          d_file_type := d_file_type d; d_start_date := d_start_date d;
          d_end_date := d_end_date d; d_template_id := VNone;
          d_notes := d_notes d |}
  else d.

Definition delete_template (template_id user_id : Z) (db : database)
  : bool * database :=
  match head (List.filter (fun t => owned_template template_id user_id t)
                          (templates db)) with
  | None => (false, db)
  | Some _ =>
      let db := set_documents (map (unlink template_id) (documents db)) db in
      let rowcount := len (List.filter (fun t => owned_template template_id user_id t)
                                       (templates db)) in
      let db := set_templates
                  (List.filter (fun t => negb (owned_template template_id user_id t))
                               (templates db)) db in
      (0 <? rowcount, db)
  end.

(** The database with the largest rowid [templates] has used
    (AUTOINCREMENT). *)
Record template_store := {
  tables : database;
  templates_seq : Z;
}.

(** The id of the new template, or [None] when the user has a template of
    that name. *)
Definition insert_template (user_id : Z) (name : str) (s : template_store)
  : option Z * template_store :=
  match head (List.filter (fun t => (t_user_id t =? user_id) && eqb (t_name t) name)
                          (templates (tables s))) with
  | Some _ => (None, s)
  | None =>
      let rowid := templates_seq s + 1 in
      (Some rowid,
       {| tables := set_templates
                      (templates (tables s) ++
                       [{| t_id := rowid; t_user_id := user_id; t_name := name |}])
                      (tables s);
          templates_seq := rowid |})
  end.

(** *** Statistics *)

Record statistics := {
  total : Z;
  expired : Z;
  expiring_soon : Z;
  no_end_date : Z;
  active : Z;
}.

(** [SELECT COUNT( * ) FROM documents WHERE user_id = ? AND ...] *)
Definition count_documents (user_id : Z) (p : document_row -> bool) : Sql Z :=
  select (fun db =>
    len (List.filter (fun d => (d_user_id d =? user_id) && p d) (documents db))).

(** [date(?, '+30 days')]: NULL past the last day SQLite knows, 9999-12-31. *)
Definition plus_30_days (today : date) : option date :=
  if today + 30 <=? MAXORDINAL then Some (today + 30) else None.

Definition get_documents_statistics (today : date) (user_id : Z) : Sql statistics :=
  total ← count_documents user_id (fun _ => true);
  expired ← count_documents user_id
    (fun d => match d_end_date d with
              | VDate e => e <? today
              | _ => false
              end);
  expiring_soon ← count_documents user_id
    (fun d => match d_end_date d, plus_30_days today with
              | VDate e, Some limit => (today <=? e) && (e <=? limit)
              | _, _ => false
              end);
  no_end_date ← count_documents user_id (fun d => is_None (d_end_date d));
  mret {| total := total; expired := expired; expiring_soon := expiring_soon;
          no_end_date := no_end_date; active := total - expired |}.

End DatabaseMore.

Module DatabaseNotions.
Import Database DatabaseMore.

(** AUTOINCREMENT: no document has an id above the sequence. *)
Definition ids_bounded (d : database) : Prop :=
  forall row, row ∈ documents d -> d_id row <= documents_seq d.

(** The rows of the other users. *)
Definition others (user_id : Z) (d : database) : list document_row :=
  List.filter (fun row => negb (d_user_id row =? user_id)) (documents d).

(** Every end date is a date or NULL, as every writer of the upload
    conversation leaves it. *)
Definition end_dates_typed (d : database) : Prop :=
  forall row, row ∈ documents d ->
    d_end_date row = VNone \/ exists e, d_end_date row = VDate e.

(** UNIQUE(user_id, name) on templates. *)
Definition names_unique (d : database) : Prop :=
  NoDup (map (fun t => (t_user_id t, t_name t)) (templates d)).

End DatabaseNotions.

(** ** Built-in functions *)

From Stdlib Require DecimalPos.

Module Builtins.

(** What [int()] sees of a character: [_PyUnicode_TransformDecimalAndSpaceToASCII]
    leaves the characters below 127 alone, turns every other space into a
    blank and every other decimal digit into its ASCII digit, and
    [PyLong_FromString] then reads blanks, a sign, digits and underscores. *)
Inductive int_char :=
| IBlank
| IDigit (v : Z)
| IUnderscore
| IPlus
| IMinus
| IOther.

(** C [Py_ISSPACE] *)
Definition ascii_space (c : char) : bool :=
  ((9 <=? c) && (c <=? 13) || (c =? 32))%N.

Definition int_char_of (decimal : char -> option Z) (c : char) : int_char :=
  if (c <? 127)%N then
    if ascii_space c then IBlank
    else if (48 <=? c)%N && (c <=? 57)%N then IDigit (Z.of_N c - 48)
    else if (c =? 95)%N then IUnderscore
    else if (c =? 43)%N then IPlus
    else if (c =? 45)%N then IMinus
    else IOther
  else if isspace c then IBlank
  else match decimal c with
       | Some v => IDigit v
       | None => IOther
       end.

Definition is_blank (t : int_char) : bool :=
  match t with
  | IBlank => true
  | _ => false
  end.

Fixpoint skip_blanks (ts : list int_char) : list int_char :=
  match ts with
  | IBlank :: ts' => skip_blanks ts'
  | _ => ts
  end.

(** The digits, with single underscores between them: the value, the
    number of digits and what follows. *)
Fixpoint scan_digits (acc count : Z) (ts : list int_char) : Z * Z * list int_char :=
  match ts with
  | IDigit v :: ts' => scan_digits (acc * 10 + v) (count + 1) ts'
  | IUnderscore :: ts' =>
      match ts' with
      | IDigit _ :: _ => scan_digits acc count ts'
      | _ => (acc, count, ts)
      end
  | _ => (acc, count, ts)
  end.

(** [sys.get_int_max_str_digits()] at its default. *)
Definition MAX_STR_DIGITS : Z := 4300.

(** [int(s)] for a str [s]. *)
Definition int (decimal : char -> option Z) (s : str) : result Z :=
  let ts := skip_blanks (map (int_char_of decimal) s) in
  let '(sign, ts) :=
    match ts with
    | IPlus :: ts' => (1, ts')
    | IMinus :: ts' => (-1, ts')
    | _ => (1, ts)
    end in
  match ts with
  | IUnderscore :: _ => Raise ValueError
  | _ =>
      let '(v, count, rest) := scan_digits 0 0 ts in
      if (count =? 0) || (MAX_STR_DIGITS <? count) || negb (forallb is_blank rest)
      then Raise ValueError
      else Ok (sign * v)
  end.

End Builtins.

(** ** utils.py: the keyboards of a document *)

Module Keyboards.
Import Utils.

Definition CAPTION_DOWNLOAD : str :=
  [128229; 32; 1057; 1082; 1072; 1095; 1072; 1090; 1100]%N.
Definition CAPTION_EDIT : str :=
  [9999; 65039; 32; 1048; 1079; 1084; 1077; 1085; 1080; 1090; 1100]%N.
Definition CAPTION_DELETE : str :=
  [128465; 65039; 32; 1059; 1076; 1072; 1083; 1080; 1090; 1100]%N.
Definition CAPTION_TO_LIST : str :=
  [128281; 32; 1050; 32; 1089; 1087; 1080; 1089; 1082; 1091]%N.
Definition CAPTION_NAME : str :=
  [9999; 65039; 32; 1053; 1072; 1079; 1074; 1072; 1085; 1080; 1077]%N.
Definition CAPTION_DATES : str := [128197; 32; 1044; 1072; 1090; 1099]%N.
Definition CAPTION_TEMPLATE : str :=
  [128193; 32; 1064; 1072; 1073; 1083; 1086; 1085]%N.
Definition CAPTION_CANCEL : str := [10060; 32; 1054; 1090; 1084; 1077; 1085; 1072]%N.
Definition CAPTION_MY_TEMPLATES : str :=
  [128193; 32; 1052; 1086; 1080; 32; 1096; 1072; 1073; 1083; 1086; 1085; 1099]%N.
Definition CAPTION_BY_TEMPLATES : str :=
  [128193; 32; 1055; 1086; 32; 1096; 1072; 1073; 1083; 1086; 1085; 1072; 1084]%N.
Definition CAPTION_SEARCH : str := [128269; 32; 1055; 1086; 1080; 1089; 1082]%N.

Definition build_confirmation_keyboard
    (confirm_callback cancel_callback confirm_text cancel_text : str)
  : InlineKeyboardMarkup :=
  [[{| text := confirm_text; callback_data := confirm_callback |};
    {| text := cancel_text; callback_data := cancel_callback |}]].

Definition build_document_actions_keyboard (doc_id : Z) (include_back : bool)
  : InlineKeyboardMarkup :=
  [[{| text := CAPTION_DOWNLOAD; callback_data := lit "doc|download|" ++ of_Z doc_id |};
    {| text := CAPTION_EDIT; callback_data := lit "doc|edit|" ++ of_Z doc_id |}];
   [{| text := CAPTION_DELETE; callback_data := lit "doc|delete|" ++ of_Z doc_id |}]]
  ++ (if include_back
      then [[{| text := CAPTION_TO_LIST; callback_data := lit "mydocs|list|0" |}]]
      else []).

Definition build_edit_document_keyboard (doc_id : Z) : InlineKeyboardMarkup :=
  [[{| text := CAPTION_NAME; callback_data := lit "edit|name|" ++ of_Z doc_id |};
    {| text := CAPTION_DATES; callback_data := lit "edit|dates|" ++ of_Z doc_id |}];
   [{| text := CAPTION_TEMPLATE;
       callback_data := lit "edit|template|" ++ of_Z doc_id |}];
   [{| text := CAPTION_BACK; callback_data := lit "doc|view|" ++ of_Z doc_id |}]].

(** The row of filter buttons [cmd_mydocs] ends its keyboard with. *)
Definition cmd_mydocs_filters : list InlineKeyboardButton :=
  [{| text := CAPTION_BY_TEMPLATES; callback_data := lit "mydocs|bytemplates" |};
   {| text := CAPTION_SEARCH; callback_data := lit "mydocs|search" |}].

(** The callback data of the buttons of a keyboard. *)
Definition tokens (k : InlineKeyboardMarkup) : list str :=
  map callback_data (concat k).

End Keyboards.

(** ** handlers/documents.py: the callbacks of a document

    A handler takes the callback data, the id of the user and the database
    and returns the database it leaves with the calls it made on the chat,
    or raises. *)

Module DocumentCallbacks.
Import Utils Database DatabaseMore Builtins Keyboards.

Inductive text :=
| DOCUMENT_NOT_FOUND
| DOCUMENT_INFO (row : document_row) (template_name : pyval)  (* format_document_info *)
| MESSAGES (key : string)
| MESSAGES_format (key : string) (arg : pyval)
| EDIT_MENU (name : pyval)
| SEND_FAILED.

Inductive action :=
| answer
| edit_message_text (t : text) (k : option InlineKeyboardMarkup)
| send_document (file_id caption : pyval)
| reply_text (t : text).

(** The head of every handler: [data = query.data.split("|")], the guard
    [len(data) < 3] and [int(data[2])]; [None] when the guard returns. *)
Definition callback_id (cfg : config) (data : str) : result (option Z) :=
  let data := split 124%N data in
  if len data <? 3 then Ok None
  else Some <$> int (unicode_decimal cfg) (nth 2 data []).

Definition view_document (cfg : config) (data : str) (user_id : Z) (db : database)
  : result (database * list action) :=
  parsed ← callback_id cfg data;
  match parsed with
  | None => Ok (db, [answer])
  | Some doc_id =>
      match result_of (with_connection (get_document_by_id doc_id user_id) db) with
      | None => Ok (db, [answer; edit_message_text DOCUMENT_NOT_FOUND None])
      | Some (row, template_name) =>
          Ok (db, [answer;
                   edit_message_text (DOCUMENT_INFO row template_name)
                     (Some (build_document_actions_keyboard doc_id true))])
      end
  end.

(** [sends] tells whether [send_document] returns or raises. *)
Definition download_document (cfg : config) (sends : bool) (data : str) (user_id : Z)
    (db : database) : result (database * list action) :=
  parsed ← callback_id cfg data;
  match parsed with
  | None => Ok (db, [answer])
  | Some doc_id =>
      match result_of (with_connection (get_document_by_id doc_id user_id) db) with
      | None => Ok (db, [answer; edit_message_text DOCUMENT_NOT_FOUND None])
      | Some (row, _) =>
          if sends
          then Ok (db, [answer; send_document (d_file_id row) (d_name row)])
          else Ok (db, [answer; reply_text SEND_FAILED])
      end
  end.

Definition delete_document_confirm (cfg : config) (data : str) (user_id : Z)
    (db : database) : result (database * list action) :=
  parsed ← callback_id cfg data;
  match parsed with
  | None => Ok (db, [answer])
  | Some doc_id =>
      match result_of (with_connection (get_document_by_id doc_id user_id) db) with
      | None => Ok (db, [answer; edit_message_text DOCUMENT_NOT_FOUND None])
      | Some (row, _) =>
          Ok (db, [answer;
                   edit_message_text (MESSAGES_format "delete_confirm" (d_name row))
                     (Some (build_confirmation_keyboard
                              (lit "doc|delete_yes|" ++ of_Z doc_id)
                              (lit "doc|view|" ++ of_Z doc_id)
                              CAPTION_DELETE CAPTION_CANCEL))])
      end
  end.

Definition delete_document_execute (cfg : config) (data : str) (user_id : Z)
    (db : database) : result (database * list action) :=
  parsed ← callback_id cfg data;
  match parsed with
  | None => Ok (db, [answer])
  | Some doc_id =>
      let r := with_connection (delete_document doc_id user_id) db in
      if result_of r
      then Ok (db_of r,
               [answer;
                edit_message_text (MESSAGES "delete_success")
                  (Some [[{| Utils.text := Documents.CAPTION_MY_DOCUMENTS;
                             Utils.callback_data := lit "mydocs|list|0" |}]])])
      else Ok (db_of r, [answer; edit_message_text (MESSAGES "delete_error") None])
  end.

Definition edit_document_menu (cfg : config) (data : str) (user_id : Z)
    (db : database) : result (database * list action) :=
  parsed ← callback_id cfg data;
  match parsed with
  | None => Ok (db, [answer])
  | Some doc_id =>
      match result_of (with_connection (get_document_by_id doc_id user_id) db) with
      | None => Ok (db, [answer; edit_message_text DOCUMENT_NOT_FOUND None])
      | Some (row, _) =>
          Ok (db, [answer;
                   edit_message_text (EDIT_MENU (d_name row))
                     (Some (build_edit_document_keyboard doc_id))])
      end
  end.

(** The keyboards a list of calls showed. *)
Definition keyboards (sent : list action) : list InlineKeyboardMarkup :=
  omap (fun a => match a with
                 | edit_message_text _ (Some k) => Some k
                 | _ => None
                 end) sent.

End DocumentCallbacks.

(** ** handlers/documents.py: the choice of a template *)

Module TemplateChoice.
Import Database Documents Builtins.

Definition upload_template_callback (cfg : config) (user_id : Z) (data : str)
    (ctx : context) : result (UploadStates * context) :=
  let ctx := send answer ctx in
  let data := split 124%N data in
  if len data <? 3 then Ok (WAITING_TEMPLATE, ctx)
  else
    let template_option := nth 2 data [] in
    ctx ← (if eqb template_option (lit "skip")
           then upload_setitem "template_id" VNone ctx
           else match int (unicode_decimal cfg) template_option with
                | Ok n => upload_setitem "template_id" (VInt n) ctx
                | Raise ValueError => upload_setitem "template_id" VNone ctx
                | Raise e => Raise e
                end);
    save_document_from_callback user_id ctx.

End TemplateChoice.

Module BuiltinsNotions.

(** The number a sequence of decimal digits denotes, after [acc]. *)
Fixpoint uint_value (acc : Z) (d : Decimal.uint) : Z :=
  match d with
  | Decimal.Nil => acc
  | Decimal.D0 l => uint_value (acc * 10 + 0) l
  | Decimal.D1 l => uint_value (acc * 10 + 1) l
  | Decimal.D2 l => uint_value (acc * 10 + 2) l
  | Decimal.D3 l => uint_value (acc * 10 + 3) l
  | Decimal.D4 l => uint_value (acc * 10 + 4) l
  | Decimal.D5 l => uint_value (acc * 10 + 5) l
  | Decimal.D6 l => uint_value (acc * 10 + 6) l
  | Decimal.D7 l => uint_value (acc * 10 + 7) l
  | Decimal.D8 l => uint_value (acc * 10 + 8) l
  | Decimal.D9 l => uint_value (acc * 10 + 9) l
  end.

(** A character of [str(n)]: the minus sign or an ASCII digit. *)
Definition int_literal_char (c : char) : Prop :=
  c = 45%N \/ (48 <= c <= 57)%N.

End BuiltinsNotions.

Module PaginationNotions.
Import Utils.

(** [items[start_idx:end_idx]], the items a builder shows on a page. *)
Definition page_items {A} (items : list A) (page page_size : Z) : list A :=
  slice items (page * page_size) (Z.min (page * page_size + page_size) (len items)).

(** The row [build_templates_keyboard] shows for a template. *)
Definition template_button (select_mode : bool) (tmpl : template_info)
  : list InlineKeyboardButton :=
  [{| text := CAPTION_FOLDER ++ tmpl_name tmpl ++ lit " (" ++
              of_Z (tmpl_documents_count tmpl) ++ lit ")";
      callback_data :=
        (if select_mode then lit "upload|template|" else lit "tmpl|view|")
        ++ of_Z (tmpl_id tmpl) |}].

(** Its last row. *)
Definition footer (select_mode : bool) : list InlineKeyboardButton :=
  [if select_mode
   then {| text := CAPTION_NO_TEMPLATE; callback_data := lit "upload|template|skip" |}
   else {| text := CAPTION_CREATE_TEMPLATE; callback_data := lit "tmpl|create" |}].

(** A navigation button: the page counter, or a step to a neighbouring
    page that exists. *)
Definition steps_within (select_mode : bool) (page total_pages : Z)
    (b : InlineKeyboardButton) : Prop :=
  callback_data b = lit "noop"
  \/ exists q, 0 <= q < total_pages /\ (q = page - 1 \/ q = page + 1)
               /\ callback_data b
                  = (if select_mode then lit "upload|tmplpage" else lit "templates|page")
                    ++ bar ++ of_Z q.

End PaginationNotions.


(** ** handlers/templates.py: creating and deleting templates

    A handler takes the id of the user and the context: the user's
    [user_data], the database with the template sequence, and the calls made
    on the chat. *)

Module TemplateHandlers.
Import Utils Database DatabaseMore Builtins Keyboards.

Inductive text :=
| MESSAGES (key : string)
| MESSAGES_format (key : string) (arg : pyval)
| NAME_TOO_SHORT
| OPERATION_CANCELLED.

Inductive action :=
| answer
| edit_message_text (t : text) (k : option InlineKeyboardMarkup)
| reply_text (t : text) (k : option InlineKeyboardMarkup).

Record context := {
  user_data : Documents.UserData;
  store : template_store;
  sent : list action;
}.

Definition send (a : action) (ctx : context) : context :=
  {| user_data := user_data ctx; store := store ctx; sent := sent ctx ++ [a] |}.

Definition set_creating_template (v : option pyval) (ctx : context) : context :=
  {| user_data := {| Documents.upload := Documents.upload (user_data ctx);
                     Documents.creating_template := v |};
     store := store ctx; sent := sent ctx |}.

Definition set_store (s : template_store) (ctx : context) : context :=
  {| user_data := user_data ctx; store := s; sent := sent ctx |}.

Definition set_tables (d : database) (ctx : context) : context :=
  set_store {| tables := d; templates_seq := templates_seq (store ctx) |} ctx.

(** [get_templates_count(user_id)] on the database of the context. *)
Definition templates_count (user_id : Z) (ctx : context) : Z :=
  result_of (with_connection (get_templates_count user_id) (tables (store ctx))).

Section Limit.

(** [config.MAX_TEMPLATES_PER_USER]; config.py is not among the sources. *)
Variable MAX_TEMPLATES_PER_USER : Z.

Definition create_template_start (user_id : Z) (ctx : context) : context :=
  let ctx := send answer ctx in
  let count := templates_count user_id ctx in
  if MAX_TEMPLATES_PER_USER <=? count then
    send (edit_message_text
            (MESSAGES_format "limit_reached_templates" (VInt MAX_TEMPLATES_PER_USER))
            None) ctx
  else
    let ctx := set_creating_template (Some (VBool true)) ctx in
    send (edit_message_text (MESSAGES "template_create_prompt")
            (Some [[{| Utils.text := CAPTION_CANCEL;
                       callback_data := lit "templates|list|0" |}]])) ctx.

Definition create_template_name (text : str) (user_id : Z) (ctx : context)
  : context :=
  if negb (truthy (default VNone (Documents.creating_template (user_data ctx))))
  then ctx
  else
    let name := strip text in
    if len name <? 2 then send (reply_text NAME_TOO_SHORT None) ctx
    else
      let name := if 50 <? len name then slice_to name 50 else name in
      let '(template_id, s) := insert_template user_id name (store ctx) in
      let ctx := set_store s ctx in
      if match template_id with
         | Some rowid => negb (rowid =? 0)
         | None => false
         end
      then
        let ctx := set_creating_template None ctx in
        send (reply_text (MESSAGES_format "template_created" (VStr name))
                (Some [[{| Utils.text := CAPTION_MY_TEMPLATES;
                           callback_data := lit "templates|list|0" |}]])) ctx
      else send (reply_text (MESSAGES "template_name_exists") None) ctx.

Definition delete_template_execute (cfg : config) (data : str) (user_id : Z)
    (ctx : context) : result context :=
  let ctx := send answer ctx in
  let data := split 124%N data in
  if len data <? 3 then Ok ctx
  else
    template_id ← int (unicode_decimal cfg) (nth 2 data []);
    let '(deleted, d) := delete_template template_id user_id (tables (store ctx)) in
    let ctx := set_tables d ctx in
    if deleted
    then Ok (send (edit_message_text (MESSAGES "template_deleted")
                     (Some [[{| Utils.text := CAPTION_MY_TEMPLATES;
                                callback_data := lit "templates|list|0" |}]])) ctx)
    else Ok (send (edit_message_text (MESSAGES "error_generic") None) ctx).

(** [cmd_cancel] of handlers/commands.py: [context.user_data.clear()]. *)
Definition cmd_cancel (ctx : context) : context :=
  let ctx := {| user_data := {| Documents.upload := None;
                                Documents.creating_template := None |};
                store := store ctx; sent := sent ctx |} in
  send (reply_text OPERATION_CANCELLED None) ctx.

(** The updates of a user these handlers take. *)
Inductive update :=
| PressCreate                  (* tmpl|create *)
| SendText (text : str)        (* a text message that is no command *)
| PressDeleteYes (data : str)  (* tmpl|delete_yes|... *)
| SendCancel.                  (* /cancel *)

(** The context after the handler of an update; a handler that raises
    leaves what it did before. *)
Definition handle (cfg : config) (user_id : Z) (ctx : context) (u : update)
  : context :=
  match u with
  | PressCreate => create_template_start user_id ctx
  | SendText text => create_template_name text user_id ctx
  | PressDeleteYes data =>
      match delete_template_execute cfg data user_id ctx with
      | Ok ctx' => ctx'
      | Raise _ => send answer ctx
      end
  | SendCancel => cmd_cancel ctx
  end.

(** What holds between the updates of a user: the limit, the name rules of
    the user's templates, and the state of the creation flag. *)
Record template_inv (user_id : Z) (ctx : context) : Prop := {
  inv_limit : templates_count user_id ctx <= MAX_TEMPLATES_PER_USER;
  inv_flag :
    truthy (default VNone (Documents.creating_template (user_data ctx))) = true ->
    templates_count user_id ctx < MAX_TEMPLATES_PER_USER;
  inv_seq : 0 <= templates_seq (store ctx);
  inv_ids : forall t, t ∈ templates (tables (store ctx)) ->
                      t_id t <= templates_seq (store ctx);
  inv_unique : NoDup (map (fun t => (t_user_id t, t_name t))
                          (templates (tables (store ctx))));
  inv_names : forall t, t ∈ templates (tables (store ctx)) -> t_user_id t = user_id ->
                        2 <= len (t_name t) <= 50;
}.

End Limit.

End TemplateHandlers.

Module MoreExamples.
Import Database.

(** The sample database with nine templates of user 100, named a to i. *)
Definition nine_templates : database := {|
  users := users Examples.sample_db;
  templates :=
    map (fun n => {| t_id := Z.of_nat n; t_user_id := 100;
                     t_name := [(96 + N.of_nat n)%N] |}) (seq 1 9);
  documents := documents Examples.sample_db;
  reminders_sent := [];
  documents_seq := 2;
|}.

Definition nine_templates_context : Documents.context := {|
  Documents.user_data := {| Documents.upload := Some Examples.sample_draft;
                            Documents.creating_template := None |};
  Documents.db := nine_templates;
  Documents.sent := [];
|}.

(** A user without templates, outside any conversation. *)
Definition no_templates_context : TemplateHandlers.context := {|
  TemplateHandlers.user_data := {| Documents.upload := None;
                                   Documents.creating_template := None |};
  TemplateHandlers.store := {| DatabaseMore.tables := Examples.sample_db;
                               DatabaseMore.templates_seq := 0 |};
  TemplateHandlers.sent := [];
|}.

(** The user asks three times for a new template and names it. *)
Definition three_creations : list TemplateHandlers.update :=
  [TemplateHandlers.PressCreate; TemplateHandlers.SendText (lit "Home");
   TemplateHandlers.PressCreate; TemplateHandlers.SendText (lit "Work");
   TemplateHandlers.PressCreate; TemplateHandlers.SendText (lit "Cars")].

End MoreExamples.

(** ** The lists of documents: /mydocs and the pages behind it

    [cmd_mydocs] of handlers/commands.py and [mydocs_list] of
    handlers/documents.py, from the rows [get_user_documents] returned: the
    ORDER BY of the query is the database's. *)

Module DocumentList.
Import Utils Database DatabaseMore Builtins Keyboards Status.

Inductive text :=
| MESSAGES (key : string)
| MYDOCS_HEADER (stats : statistics)     (* the header of /mydocs *)
| MYDOCS_PAGE (page total_pages : Z).    (* the title of a page of the list *)

Inductive action :=
| answer
| edit_message_text (t : text) (k : option InlineKeyboardMarkup)
| reply_text (t : text) (k : option InlineKeyboardMarkup).

Definition CAPTION_MORE : str := [128196; 32; 1045; 1097; 1105; 32; 40]%N.

Section Format.

(** [format(value)], the text an f-string puts for a value of a row. *)
Variable format : pyval -> str.

(** The row of a document in both lists. *)
Definition document_button (cfg : config) (today : Datetime.date) (doc : document_row)
  : result (list InlineKeyboardButton) :=
  emoji ← get_status_emoji cfg today (d_end_date doc);
  let label := emoji ++ lit " " ++ format (d_name doc) in
  let label := if 40 <? len label then slice_to label 37 ++ lit "..." else label in
  Ok [{| Utils.text := label;
         callback_data := lit "doc|view|" ++ of_Z (d_id doc) |}].

(** The loop over the documents shown: the first exception ends it. *)
Fixpoint document_buttons (cfg : config) (today : Datetime.date)
    (docs : list document_row) : result InlineKeyboardMarkup :=
  match docs with
  | [] => Ok []
  | doc :: docs' =>
      row ← document_button cfg today doc;
      rows ← document_buttons cfg today docs';
      Ok (row :: rows)
  end.

(** [cmd_mydocs], from the rows [get_user_documents] returned and the
    counts [get_documents_statistics] returned. *)
Definition cmd_mydocs (cfg : config) (today : Datetime.date)
    (documents : list document_row) (stats : statistics) : result action :=
  match documents with
  | [] => Ok (reply_text (MESSAGES "no_documents") None)
  | _ =>
      let page_size := 10 in
      let docs_to_show := slice_to documents page_size in
      keyboard ← document_buttons cfg today docs_to_show;
      let keyboard :=
        if page_size <? len documents
        then keyboard ++
             [[{| Utils.text := CAPTION_MORE ++ of_Z (len documents - page_size)
                                ++ lit ")";
                  callback_data := lit "mydocs|list|1" |}]]
        else keyboard in
      let keyboard := keyboard ++ [cmd_mydocs_filters] in
      Ok (reply_text (MYDOCS_HEADER stats) (Some keyboard))
  end.

Definition mydocs_nav_row (page total_pages : Z) : list InlineKeyboardButton :=
  (if 0 <? page
   then [{| Utils.text := CAPTION_PREV;
            callback_data := lit "mydocs|list|" ++ of_Z (page - 1) |}]
   else []) ++
  (if 1 <? total_pages
   then [{| Utils.text := of_Z (page + 1) ++ lit "/" ++ of_Z total_pages;
            callback_data := lit "noop" |}]
   else []) ++
  (if page <? total_pages - 1
   then [{| Utils.text := CAPTION_NEXT;
            callback_data := lit "mydocs|list|" ++ of_Z (page + 1) |}]
   else []).

(** [mydocs_list], from the rows [get_user_documents] returned. *)
Definition mydocs_list (cfg : config) (today : Datetime.date) (data : str)
    (documents : list document_row) : result (list action) :=
  let data := split 124%N data in
  page ← (if 2 <? len data then int (unicode_decimal cfg) (nth 2 data []) else Ok 0);
  match documents with
  | [] => Ok [answer; edit_message_text (MESSAGES "no_documents") None]
  | _ =>
      let page_size := 10 in
      total_pages ← floordiv (len documents + page_size - 1) page_size;
      let start_idx := page * page_size in
      let end_idx := Z.min (start_idx + page_size) (len documents) in
      keyboard ← document_buttons cfg today (slice documents start_idx end_idx);
      let nav_row := mydocs_nav_row page total_pages in
      let keyboard :=
        match nav_row with
        | [] => keyboard
        | _ => keyboard ++ [nav_row]
        end in
      Ok [answer;
          edit_message_text (MYDOCS_PAGE (page + 1) total_pages) (Some keyboard)]
  end.

End Format.

End DocumentList.

Module DocumentListNotions.
Import Database.

(** What a DATE column gives back: NULL, a date, or its text. *)
Definition end_date_stored (v : pyval) : Prop :=
  v = VNone \/ (exists d, v = VDate d) \/ (exists s, v = VStr s).

End DocumentListNotions.

Module ListExamples.
Import Database.

(** Twelve documents without end date. *)
Definition twelve_documents : list document_row :=
  map (fun n => Examples.sample_document (Z.of_nat n) VNone) (seq 1 12).

(** The text of a name that is a string. *)
Definition name_text (v : pyval) : str :=
  match v with
  | VStr s => s
  | _ => []
  end.

Definition no_statistics : DatabaseMore.statistics := {|
  DatabaseMore.total := 12;
  DatabaseMore.expired := 0;
  DatabaseMore.expiring_soon := 0;
  DatabaseMore.no_end_date := 12;
  DatabaseMore.active := 12;
|}.

End ListExamples.

Module DateKeyboardNotions.
Import DateKeyboard.

(** The days the keyboard has for a code; the button for today has none. *)
Definition listed (with_today : bool) (code : string) (days : Z) : Prop :=
  (with_today = true /\ code = "today" /\ days = 0)
  \/ exists label, (code, label, days) ∈ quick_dates.

(** What a handler leaves of the context [ctx]: the draft [u], the calls
    [calls] made on the chat after those made before, and the rest of the
    session and the database as they were. *)
Definition leaves (ctx ctx' : Documents.context) (u : Documents.draft)
    (calls : list Documents.action) : Prop :=
  Documents.upload (Documents.user_data ctx') = Some u
  /\ Documents.creating_template (Documents.user_data ctx')
     = Documents.creating_template (Documents.user_data ctx)
  /\ Documents.db ctx' = Documents.db ctx
  /\ Documents.sent ctx' = Documents.sent ctx ++ calls.

End DateKeyboardNotions.

(** * Properties *)

(** ** Pagination *)

Module PaginationSpec.
Import Utils Notions.

Lemma ceil_div_bounds a b :
  0 < b -> (ceil_div a b - 1) * b < a <= ceil_div a b * b.
Proof.
  intros Hb. unfold ceil_div.
  pose proof (Z.div_mod (- a) b ltac:(lia)) as Hdm.
  pose proof (Z.mod_pos_bound (- a) b Hb) as Hm.
  nia.
Qed.

Lemma ceil_div_unique a b q :
  0 < b -> (q - 1) * b < a <= q * b -> ceil_div a b = q.
Proof.
  intros Hb Hq. pose proof (ceil_div_bounds a b Hb) as Hc. nia.
Qed.

Lemma floordiv_ceil count page_size :
  0 < page_size ->
  floordiv (count + page_size - 1) page_size = Ok (ceil_div count page_size).
Proof.
  intros Hp. unfold floordiv.
  destruct (Z.eqb_spec page_size 0) as [->|_]; [lia|].
  f_equal. symmetry. apply ceil_div_unique; [done|].
  pose proof (Z.div_mod (count + page_size - 1) page_size ltac:(lia)) as Hdm.
  pose proof (Z.mod_pos_bound (count + page_size - 1) page_size Hp) as Hm.
  nia.
Qed.

Lemma ceil_div_pos a b : 0 < b -> 0 < a -> 1 <= ceil_div a b.
Proof. intros Hb Ha. pose proof (ceil_div_bounds a b Hb). nia. Qed.

Lemma ceil_div_0 b : ceil_div 0 b = 0.
Proof. unfold ceil_div. simpl. by rewrite Zdiv_0_l. Qed.

Lemma len_nil_iff {A} (l : list A) : len l = 0 <-> l = [].
Proof. unfold len. destruct l; simpl; split; intros; (done || lia). Qed.

Lemma len_nonneg {A} (l : list A) : 0 <= len l.
Proof. unfold len. lia. Qed.


(** Where the two builders agree with the ceiling: for every item list and
    positive page size, [build_templates_keyboard] computes
    max(1, ceil(count/pageSize)), which is 1 for an empty list; for every
    list that is not empty [build_pagination_keyboard] computes the same
    number; for 25 items and page size 10 both give 3. *)
Lemma total_pages_ceil {A} (items : list A) (page_size : Z) :
  0 < page_size ->
  templates_total_pages (len items) page_size
    = Ok (Z.max 1 (ceil_div (len items) page_size))
  /\ templates_total_pages (len (@nil A)) page_size = Ok 1
  /\ (items <> [] ->
      pagination_total_pages (len items) page_size
      = Ok (Z.max 1 (ceil_div (len items) page_size)))
  /\ (length items = 25%nat ->
      templates_total_pages (len items) 10 = Ok 3
      /\ pagination_total_pages (len items) 10 = Ok 3).
Proof.
  intros Hp.
  assert (Ht : forall n, templates_total_pages n page_size
                         = Ok (Z.max 1 (ceil_div n page_size))).
  { intros n. unfold templates_total_pages.
    rewrite floordiv_ceil by done. reflexivity. }
  split; [apply Ht|].
  split; [rewrite Ht; change (len (@nil A)) with 0; by rewrite ceil_div_0|].
  split.
  - intros Hne. unfold pagination_total_pages. rewrite floordiv_ceil by done.
    f_equal. symmetry. apply Z.max_r. apply ceil_div_pos; [done|].
    pose proof (len_nonneg items). pose proof (len_nil_iff items).
    destruct (Z.eq_dec (len items) 0); [tauto | lia].
  - intros H25. unfold len. rewrite H25. split; reflexivity.
Qed.

Lemma total_pages_ceil_witness :
  templates_total_pages (len [1; 2; 3]) 2 = Ok (Z.max 1 (ceil_div (len [1; 2; 3]) 2))
  /\ templates_total_pages (len (@nil Z)) 2 = Ok 1
  /\ ([1; 2; 3] <> [] ->
      pagination_total_pages (len [1; 2; 3]) 2
      = Ok (Z.max 1 (ceil_div (len [1; 2; 3]) 2)))
  /\ (length [1; 2; 3] = 25%nat ->
      templates_total_pages (len [1; 2; 3]) 10 = Ok 3
      /\ pagination_total_pages (len [1; 2; 3]) 10 = Ok 3).
Proof. apply (total_pages_ceil [1; 2; 3] 2). reflexivity. Defined.

(** The count for 25 items and page size 10, on a list of 25 items. *)
Example total_pages_25_10 :
  templates_total_pages (len (replicate 25 0)) 10 = Ok 3
  /\ pagination_total_pages (len (replicate 25 0)) 10 = Ok 3.
Proof. split; reflexivity. Qed.

Lemma slice_nil {A} a b : slice (@nil A) a b = [].
Proof. unfold slice. by rewrite drop_nil, take_nil. Qed.

(** The page count of [build_pagination_keyboard] only decides whether the
    navigation row is shown, so a count of 0 and a count of 1 build the same
    keyboard: for an empty list there are no item rows and no navigation
    row. *)
Lemma build_pagination_keyboard_empty {A} page page_size prefix item_prefix
    (label ident : A -> str) back :
  0 < page_size ->
  build_pagination_keyboard [] page page_size prefix item_prefix label ident back
  = Ok (match back with
        | Some cb => if negb (eqb cb []) then [[{| text := CAPTION_BACK; callback_data := cb |}]]
                     else []
        | None => []
        end).
Proof.
  intros Hp. unfold build_pagination_keyboard.
  unfold pagination_total_pages. rewrite floordiv_ceil by done.
  change (len (@nil A)) with 0. rewrite ceil_div_0, slice_nil.
  destruct back as [cb|]; [destruct (negb (eqb cb []))|]; reflexivity.
Qed.

End PaginationSpec.

(** ** Router precedence *)

Module RouterSpec.
Import Router Notions.

Example delete_patterns_registered :
  CallbackQueryHandler delete_document_confirm confirm_pattern
    ∈ get_document_callback_handlers
  /\ CallbackQueryHandler delete_document_execute execute_pattern
    ∈ get_document_callback_handlers.
Proof. split; apply list_elem_of_In; simpl; tauto. Qed.

(** C2: a token doc|delete|<id> whose id does not begin with yes goes to the
    confirm handler, doc|delete_yes|<id> goes to the execute handler, in
    every conversation state, and neither pattern matches the other's
    tokens. *)
Theorem delete_tokens_dispatch (state : option UploadStates) (id : str) :
  startswith (lit "yes") id = false ->
  dispatch state (lit "doc|delete|" ++ id) = Some delete_document_confirm
  /\ dispatch state (lit "doc|delete_yes|" ++ id) = Some delete_document_execute
  /\ re_match execute_pattern (lit "doc|delete|" ++ id) = false
  /\ re_match confirm_pattern (lit "doc|delete_yes|" ++ id) = false.
Proof.
  intros Hid. vm_compute in Hid.
  repeat split.
  - destruct state as [[]|]; vm_compute; rewrite Hid; reflexivity.
  - destruct state as [[]|]; reflexivity.
Qed.

Lemma delete_tokens_dispatch_witness :
  dispatch (Some WAITING_TEMPLATE) (lit "doc|delete|" ++ lit "7")
    = Some delete_document_confirm
  /\ dispatch (Some WAITING_TEMPLATE) (lit "doc|delete_yes|" ++ lit "7")
    = Some delete_document_execute
  /\ re_match execute_pattern (lit "doc|delete|" ++ lit "7") = false
  /\ re_match confirm_pattern (lit "doc|delete_yes|" ++ lit "7") = false.
Proof. apply (delete_tokens_dispatch (Some WAITING_TEMPLATE) (lit "7")). reflexivity. Defined.

(** The template handlers are registered with the same two patterns. *)
Lemma template_delete_tokens_dispatch (state : option UploadStates) (id : str) :
  startswith (lit "yes") id = false ->
  dispatch state (lit "tmpl|delete|" ++ id) = Some delete_template_confirm
  /\ dispatch state (lit "tmpl|delete_yes|" ++ id) = Some delete_template_execute.
Proof.
  intros Hid. vm_compute in Hid. split.
  - destruct state as [[]|]; vm_compute; rewrite Hid; reflexivity.
  - destruct state as [[]|]; reflexivity.
Qed.

(** A token whose id begins with yes reaches neither delete handler. *)
Example delete_yes_id_unrouted : dispatch None (lit "doc|delete|yes7") = None.
Proof. reflexivity. Qed.

End RouterSpec.

(** ** Deleting a document *)

Module DatabaseSpec.
Import Database.

Lemma head_filter_None {A} (f : A -> bool) l :
  head (List.filter f l) = None <-> existsb f l = false.
Proof.
  induction l as [|x l IH]; simpl; [done|].
  destruct (f x); simpl; [split; discriminate | apply IH].
Qed.

Lemma existsb_filter_negb {A} (f : A -> bool) l :
  existsb f (List.filter (fun x => negb (f x)) l) = false.
Proof.
  induction l as [|x l IH]; simpl; [done|].
  destruct (f x) eqn:Hx; simpl; [done|]. by rewrite Hx.
Qed.

Lemma len_filter_pos {A} (f : A -> bool) l :
  existsb f l = true -> 0 < len (List.filter f l).
Proof.
  unfold len. induction l as [|x l IH]; simpl; [discriminate|].
  destruct (f x); simpl; [lia | apply IH].
Qed.

(** C9: when the caller owns the document, [delete_document] executes the
    delete of its reminder rows and then the delete of the document row, in
    that order (after the first the document is still there, after the
    second neither remains), and returns True; when the document does not
    exist or belongs to someone else it returns False, executes no writing
    statement and leaves the database as it was. *)
Theorem delete_document_order (doc_id user_id : Z) (d : database) :
  let r := with_connection (delete_document doc_id user_id) d in
  if existsb (owned_document doc_id user_id) (documents d)
  then
    result_of r = true
    /\ journal_of r = [DELETE_reminders_sent doc_id; DELETE_documents doc_id user_id]
    /\ (let mid := (execute (DELETE_reminders_sent doc_id) d).1 in
        documents mid = documents d
        /\ existsb (fun row => document_id row =? doc_id) (reminders_sent mid) = false)
    /\ existsb (fun row => document_id row =? doc_id) (reminders_sent (db_of r)) = false
    /\ existsb (owned_document doc_id user_id) (documents (db_of r)) = false
  else
    result_of r = false /\ journal_of r = [] /\ db_of r = d.
Proof.
  intros r. subst r.
  unfold with_connection, delete_document, result_of, db_of, journal_of.
  cbv [mbind Sql_bind select exec mret Sql_ret store journal].
  destruct (existsb (owned_document doc_id user_id) (documents d)) eqn:Hex.
  - destruct (head (List.filter _ (documents d))) eqn:Hh.
    + simpl. repeat split.
      * apply Z.ltb_lt. by apply len_filter_pos.
      * apply existsb_filter_negb.
      * apply existsb_filter_negb.
      * apply (existsb_filter_negb (owned_document doc_id user_id)).
    + apply head_filter_None in Hh.
      change (existsb (owned_document doc_id user_id) (documents d) = false) in Hh.
      congruence.
  - apply (head_filter_None (fun row => owned_document doc_id user_id row)) in Hex.
    rewrite Hex. simpl. done.
Qed.

End DatabaseSpec.

(** ** The reminder job *)

Module JobsSpec.
Import Database Jobs JobsNotions.

Lemma in_ledger_unfold d doc_id days :
  in_ledger d doc_id days = existsb (is_reminder doc_id days) (reminders_sent d).
Proof. reflexivity. Qed.

Lemma mark_unfold d doc_id days :
  mark d doc_id days = (execute (INSERT_OR_IGNORE_reminders_sent doc_id days) d).1.
Proof.
  unfold mark, mark_reminder_sent, with_connection, db_of.
  cbv [mbind Sql_bind exec mret Sql_ret store journal].
  by destruct (execute _ d).
Qed.

(** A duplicate insert into the ledger changes nothing. *)
Lemma mark_present d doc_id days :
  in_ledger d doc_id days = true -> mark d doc_id days = d.
Proof.
  rewrite in_ledger_unfold, mark_unfold. simpl. by intros ->.
Qed.

Lemma mark_tables d doc_id days :
  documents (mark d doc_id days) = documents d
  /\ users (mark d doc_id days) = users d.
Proof.
  rewrite mark_unfold. simpl.
  by destruct (existsb (is_reminder doc_id days) (reminders_sent d)).
Qed.

Lemma in_ledger_mark d doc_id days doc_id' days' :
  in_ledger (mark d doc_id days) doc_id' days'
  = in_ledger d doc_id' days' || ((doc_id =? doc_id') && (days =? days')).
Proof.
  rewrite mark_unfold, !in_ledger_unfold. simpl.
  destruct (existsb (is_reminder doc_id days) (reminders_sent d)) eqn:Hp; simpl.
  - destruct (Z.eqb_spec doc_id doc_id') as [<-|]; simpl; [|by rewrite orb_false_r].
    destruct (Z.eqb_spec days days') as [<-|]; simpl; [|by rewrite orb_false_r].
    by rewrite Hp.
  - rewrite existsb_app. simpl. rewrite orb_false_r.
    f_equal.
Qed.

Lemma mark_twice d doc_id days :
  mark (mark d doc_id days) doc_id days = mark d doc_id days.
Proof.
  apply mark_present. rewrite in_ledger_mark, !Z.eqb_refl. apply orb_true_r.
Qed.

Lemma deliveries_app doc_id days tr l :
  deliveries doc_id days (tr ++ l)
  = (deliveries doc_id days tr + deliveries doc_id days l)%nat.
Proof. unfold deliveries. by rewrite List.filter_app, length_app. Qed.

Lemma failures_app doc_id days tr l :
  failures doc_id days (tr ++ l)
  = (failures doc_id days tr + failures doc_id days l)%nat.
Proof. unfold failures. by rewrite List.filter_app, length_app. Qed.

(** The three ways the loop body ends. *)
Lemma remind_cases delivers days st row :
  let doc_id := d_id (doc row) in
  (in_ledger (db st) doc_id days = true /\ remind delivers days st row = st)
  \/ (in_ledger (db st) doc_id days = false /\ delivers (calls st) = true
      /\ exists chat m,
         remind delivers days st row
         = {| db := mark (db st) doc_id days; calls := S (calls st);
              trace := trace st ++ [Delivered doc_id days chat m; Marked doc_id days];
              sent_count := sent_count st + 1 |})
  \/ (in_ledger (db st) doc_id days = false /\ delivers (calls st) = false
      /\ exists chat,
         remind delivers days st row
         = {| db := db st; calls := S (calls st);
              trace := trace st ++ [Failed doc_id days chat];
              sent_count := sent_count st |}).
Proof.
  intros doc_id. unfold remind. fold doc_id.
  change (result_of (with_connection (is_reminder_sent doc_id days) (db st)))
    with (in_ledger (db st) doc_id days).
  destruct (in_ledger (db st) doc_id days); [by left|right].
  destruct (delivers (calls st)); [left|right]; eauto.
Qed.

Lemma run_inv_start delivers d n :
  run_inv delivers d n {| db := d; calls := n; trace := []; sent_count := 0 |}.
Proof.
  split; simpl; try done.
  - intros. unfold deliveries. simpl. lia.
  - intros. unfold deliveries. simpl. by rewrite orb_false_r.
  - split; [lia|]. by rewrite Nat.sub_diag.
Qed.

Lemma seq_snoc_calls (delivers : nat -> bool) n c :
  (n <= c)%nat ->
  map delivers (seq n (S c - n)) = map delivers (seq n (c - n)) ++ [delivers c].
Proof.
  intros Hn. replace (S c - n)%nat with (S (c - n)) by lia.
  rewrite seq_S, map_app. simpl. by replace (n + (c - n))%nat with c by lia.
Qed.

Lemma run_inv_remind delivers d0 n days st row :
  run_inv delivers d0 n st -> run_inv delivers d0 n (remind delivers days st row).
Proof.
  intros [Hdoc Husr Honce Hled Hold Hord [Hn Hcalls]].
  destruct (remind_cases delivers days st row)
    as [[_ ->]|[(Hnew & Hok & chat & m & ->)|(Hnew & Hfail & chat & ->)]];
    [by split| |].
  - (* delivered, then marked *)
    set (doc_id := d_id (doc row)) in *.
    assert (Hzero : deliveries doc_id days (trace st) = 0%nat).
    { rewrite Hled in Hnew. apply orb_false_iff in Hnew as [_ Hnew].
      apply Nat.ltb_ge in Hnew. lia. }
    split; simpl.
    + rewrite <- Hdoc. apply mark_tables.
    + rewrite <- Husr. apply mark_tables.
    + intros doc_id' days'. rewrite deliveries_app.
      unfold deliveries at 2. simpl.
      destruct (Z.eqb_spec doc_id doc_id') as [<-|]; simpl;
        [destruct (Z.eqb_spec days days') as [<-|]; simpl|].
      * rewrite Hzero. lia.
      * specialize (Honce doc_id days'). lia.
      * specialize (Honce doc_id' days'). lia.
    + intros doc_id' days'. rewrite in_ledger_mark, Hled, deliveries_app.
      unfold deliveries at 3. simpl.
      destruct (in_ledger d0 doc_id' days'); simpl; [done|].
      destruct ((doc_id =? doc_id') && (days =? days')); simpl.
      * rewrite orb_true_r. symmetry. apply Nat.ltb_lt. lia.
      * rewrite orb_false_r, Nat.add_0_r. done.
    + intros doc_id' days' Hin. rewrite deliveries_app, (Hold _ _ Hin).
      unfold deliveries. simpl.
      destruct (Z.eqb_spec doc_id doc_id') as [<-|]; simpl; [|done].
      destruct (Z.eqb_spec days days') as [<-|]; simpl; [|done].
      rewrite Hled, Hin in Hnew. discriminate.
    + intros i doc_id' days' Hi.
      destruct (decide (i < length (trace st))%nat) as [Hlt|Hge].
      * rewrite lookup_app_l in Hi by done.
        destruct (Hord _ _ _ Hi) as (j & chat' & m' & -> & Hj).
        exists j, chat', m'. split; [done|].
        rewrite lookup_app_l by lia. done.
      * rewrite lookup_app_r in Hi by lia.
        destruct (i - length (trace st))%nat as [|[|k]] eqn:Hk; simpl in Hi;
          [discriminate| |discriminate].
        injection Hi as <- <-.
        exists (length (trace st)), chat, m. split; [lia|].
        rewrite lookup_app_r by lia. by rewrite Nat.sub_diag.
    + split; [lia|]. rewrite omap_app, Hcalls, seq_snoc_calls, Hok by done. done.
  - (* failed *)
    set (doc_id := d_id (doc row)) in *.
    split; simpl; try done.
    + intros doc_id' days'. rewrite deliveries_app.
      unfold deliveries at 2. simpl. specialize (Honce doc_id' days'). lia.
    + intros doc_id' days'. rewrite Hled, deliveries_app.
      unfold deliveries at 3. simpl. by rewrite Nat.add_0_r.
    + intros doc_id' days' Hin. rewrite deliveries_app, (Hold _ _ Hin). done.
    + intros i doc_id' days' Hi.
      destruct (decide (i < length (trace st))%nat) as [Hlt|Hge].
      * rewrite lookup_app_l in Hi by done.
        destruct (Hord _ _ _ Hi) as (j & chat' & m' & -> & Hj).
        exists j, chat', m'. split; [done|].
        rewrite lookup_app_l by lia. done.
      * rewrite lookup_app_r in Hi by lia.
        destruct (i - length (trace st))%nat as [|k]; simpl in Hi; discriminate.
    + split; [lia|]. rewrite omap_app, Hcalls, seq_snoc_calls, Hfail by done. done.
Qed.

Lemma run_inv_rows delivers d0 n days rows st :
  run_inv delivers d0 n st ->
  run_inv delivers d0 n (fold_left (remind delivers days) rows st).
Proof.
  revert st. induction rows as [|row rows IH]; intros st Hst; simpl; [done|].
  apply IH. by apply run_inv_remind.
Qed.

Lemma run_inv_threshold delivers d0 n today st days :
  run_inv delivers d0 n st ->
  run_inv delivers d0 n (remind_threshold delivers today st days).
Proof. intros Hst. unfold remind_threshold. by apply run_inv_rows. Qed.

Lemma run_inv_thresholds delivers d0 n today thresholds st :
  run_inv delivers d0 n st ->
  run_inv delivers d0 n (fold_left (remind_threshold delivers today) thresholds st).
Proof.
  revert st. induction thresholds as [|days l IH]; intros st Hst; simpl; [done|].
  apply IH. by apply run_inv_threshold.
Qed.

Lemma run_inv_send_reminders cfg delivers today d n :
  run_inv delivers d n (send_reminders cfg delivers today d n).
Proof. apply run_inv_thresholds, run_inv_start. Qed.

(** The rows a threshold matches depend on the documents and users only. *)
Lemma expiring_same today days d d' :
  documents d = documents d' -> users d = users d' ->
  expiring today days d = expiring today days d'.
Proof.
  intros Hd Hu. unfold expiring, get_expiring_documents, with_connection, result_of.
  cbv [select store]. simpl. by rewrite Hd, Hu.
Qed.

Lemma handled_remind_mono delivers days s row doc_id days' :
  handled s doc_id days' -> handled (remind delivers days s row) doc_id days'.
Proof.
  intros [Hin|Hf];
    destruct (remind_cases delivers days s row)
      as [[_ ->]|[(_ & _ & chat & m & ->)|(_ & _ & chat & ->)]]; simpl.
  - by left.
  - left. simpl. rewrite in_ledger_mark, Hin. done.
  - by left.
  - by right.
  - right. simpl. rewrite failures_app. lia.
  - right. simpl. rewrite failures_app. lia.
Qed.

Lemma handled_remind_self delivers days s row :
  handled (remind delivers days s row) (d_id (doc row)) days.
Proof.
  destruct (remind_cases delivers days s row)
    as [[Hin ->]|[(_ & _ & chat & m & ->)|(_ & _ & chat & ->)]].
  - by left.
  - left. simpl. rewrite in_ledger_mark, !Z.eqb_refl. apply orb_true_r.
  - right. simpl. rewrite failures_app. unfold failures at 2. simpl.
    rewrite !Z.eqb_refl. simpl. lia.
Qed.

Lemma handled_rows_mono delivers days rows s doc_id days' :
  handled s doc_id days' ->
  handled (fold_left (remind delivers days) rows s) doc_id days'.
Proof.
  revert s. induction rows as [|r rows IH]; intros s Hs; simpl; [done|].
  by apply IH, handled_remind_mono.
Qed.

Lemma handled_rows delivers days rows s row :
  row ∈ rows ->
  handled (fold_left (remind delivers days) rows s) (d_id (doc row)) days.
Proof.
  revert s. induction rows as [|r rows IH]; intros s Hrow; [by apply elem_of_nil in Hrow|].
  simpl. apply elem_of_cons in Hrow as [->|Hrow].
  - apply handled_rows_mono, handled_remind_self.
  - by apply IH.
Qed.

Lemma handled_thresholds_mono delivers today thresholds s doc_id days :
  handled s doc_id days ->
  handled (fold_left (remind_threshold delivers today) thresholds s) doc_id days.
Proof.
  revert s. induction thresholds as [|k l IH]; intros s Hs; simpl; [done|].
  apply IH. unfold remind_threshold. by apply handled_rows_mono.
Qed.

Lemma handled_thresholds delivers d0 n today thresholds s days row :
  run_inv delivers d0 n s ->
  days ∈ thresholds ->
  row ∈ expiring today days d0 ->
  handled (fold_left (remind_threshold delivers today) thresholds s)
          (d_id (doc row)) days.
Proof.
  revert s. induction thresholds as [|k l IH]; intros s Hs Hdays Hrow;
    [by apply elem_of_nil in Hdays|].
  simpl. apply elem_of_cons in Hdays as [->|Hdays].
  - apply handled_thresholds_mono. unfold remind_threshold.
    apply handled_rows.
    change (row ∈ expiring today k (db s)).
    rewrite (expiring_same today k (db s) d0); [done|apply Hs..].
  - apply IH; [by apply run_inv_threshold|done..].
Qed.

Lemma handled_send_reminders cfg delivers today d n days row :
  days ∈ REMINDER_DAYS_BEFORE cfg ->
  row ∈ expiring today days d ->
  handled (send_reminders cfg delivers today d n) (d_id (doc row)) days.
Proof. intros. eapply handled_thresholds; eauto using run_inv_start. Qed.

(** With a transport that always delivers, the trace holds no failure. *)
Lemma no_failures (delivers : nat -> bool) tr l doc_id days :
  (forall k, delivers k = true) ->
  omap outcome tr = map delivers l ->
  failures doc_id days tr = 0%nat.
Proof.
  intros Hall. revert l. induction tr as [|e tr IH]; intros l Heq; [done|].
  destruct e as [? ? ? ?|? ?|? ? ?]; simpl in Heq.
  - destruct l as [|k l]; [discriminate|]. simpl in Heq.
    injection Heq as _ Heq. unfold failures. simpl. by apply (IH l).
  - unfold failures. simpl. by apply (IH l).
  - destruct l as [|k l]; [discriminate|]. simpl in Heq.
    injection Heq as Hk _. rewrite Hall in Hk. discriminate.
Qed.

(** C1: two runs in succession on the same day.  No (document, threshold)
    pair is delivered twice, whatever the transport does; the second run
    delivers nothing for a pair the ledger holds after the first; a matched
    pair not yet in the ledger is delivered exactly once (by the first run)
    when the transport delivers; and inserting a pair the ledger already
    holds leaves the database as it is. *)
Theorem send_reminders_idempotent cfg delivers today d n doc_id days :
  let s1 := send_reminders cfg delivers today d n in
  let s2 := send_reminders cfg delivers today (db s1) (calls s1) in
  (deliveries doc_id days (trace s1 ++ trace s2) <= 1)%nat
  /\ (in_ledger (db s1) doc_id days = true ->
      deliveries doc_id days (trace s2) = 0%nat)
  /\ ((forall k, delivers k = true) ->
      days ∈ REMINDER_DAYS_BEFORE cfg ->
      (exists row, row ∈ expiring today days d /\ d_id (doc row) = doc_id) ->
      in_ledger d doc_id days = false ->
      deliveries doc_id days (trace s1) = 1%nat
      /\ deliveries doc_id days (trace s2) = 0%nat
      /\ deliveries doc_id days (trace s1 ++ trace s2) = 1%nat)
  /\ mark (mark d doc_id days) doc_id days = mark d doc_id days
  /\ (in_ledger d doc_id days = true -> mark d doc_id days = d).
Proof.
  intros s1 s2.
  pose proof (run_inv_send_reminders cfg delivers today d n) as H1.
  pose proof (run_inv_send_reminders cfg delivers today (db s1) (calls s1)) as H2.
  fold s1 in H1. fold s2 in H2.
  assert (Hsecond : in_ledger (db s1) doc_id days = true ->
                    deliveries doc_id days (trace s2) = 0%nat)
    by apply (inv_old _ _ _ _ H2).
  split; [|split; [done|split; [|split]]].
  - rewrite deliveries_app.
    pose proof (inv_once _ _ _ _ H1 doc_id days) as Ho1.
    pose proof (inv_once _ _ _ _ H2 doc_id days) as Ho2.
    destruct (deliveries doc_id days (trace s1)) as [|k] eqn:Hk; [lia|].
    rewrite Hsecond; [lia|].
    rewrite (inv_ledger _ _ _ _ H1), Hk. apply orb_true_r.
  - intros Hall Hdays (row & Hrow & <-) Hnew.
    assert (Hin : in_ledger (db s1) (d_id (doc row)) days = true).
    { destruct (handled_send_reminders cfg delivers today d n days row Hdays Hrow)
        as [Hin|Hf]; [done|].
      fold s1 in Hf. destruct (inv_calls _ _ _ _ H1) as [_ Hcalls].
      rewrite (no_failures delivers _ _ _ _ Hall Hcalls) in Hf. lia. }
    assert (Hone : deliveries (d_id (doc row)) days (trace s1) = 1%nat).
    { pose proof (inv_once _ _ _ _ H1 (d_id (doc row)) days) as Ho1.
      rewrite (inv_ledger _ _ _ _ H1), Hnew in Hin. simpl in Hin.
      apply Nat.ltb_lt in Hin. lia. }
    rewrite deliveries_app, Hone, (Hsecond Hin). done.
  - apply mark_twice.
  - apply mark_present.
Qed.

(** C3: in a run, a ledger write comes directly after the delivery it
    records; a pair the ledger holds at the end was there before or was
    delivered in this run, so a pair whose deliveries all failed is not
    recorded; every matched pair not yet recorded is attempted whatever
    happened to the pairs before it; and every call of the transport is in
    the trace with its outcome, a failure as the line logged for it. *)
Theorem ledger_after_delivery cfg delivers today d n :
  let s := send_reminders cfg delivers today d n in
  (forall i doc_id days,
     trace s !! i = Some (Marked doc_id days) ->
     exists j chat m, i = S j /\ trace s !! j = Some (Delivered doc_id days chat m))
  /\ (forall doc_id days,
        in_ledger (db s) doc_id days = true ->
        in_ledger d doc_id days = true \/ (0 < deliveries doc_id days (trace s))%nat)
  /\ (forall doc_id days,
        in_ledger d doc_id days = false ->
        deliveries doc_id days (trace s) = 0%nat ->
        in_ledger (db s) doc_id days = false)
  /\ (forall days row,
        days ∈ REMINDER_DAYS_BEFORE cfg ->
        row ∈ expiring today days d ->
        in_ledger d (d_id (doc row)) days = false ->
        (0 < deliveries (d_id (doc row)) days (trace s))%nat
        \/ (0 < failures (d_id (doc row)) days (trace s))%nat)
  /\ omap outcome (trace s) = map delivers (seq n (calls s - n)).
Proof.
  intros s.
  pose proof (run_inv_send_reminders cfg delivers today d n) as H. fold s in H.
  split; [apply H|]. split; [|split; [|split; [|apply H]]].
  - intros doc_id days Hin. rewrite (inv_ledger _ _ _ _ H) in Hin.
    apply orb_true_iff in Hin as [Hin|Hin]; [by left|right]. by apply Nat.ltb_lt.
  - intros doc_id days Hnew Hzero.
    rewrite (inv_ledger _ _ _ _ H), Hnew, Hzero. done.
  - intros days row Hdays Hrow Hnew.
    destruct (handled_send_reminders cfg delivers today d n days row Hdays Hrow)
      as [Hin|Hf]; [left|by right].
    fold s in Hin. rewrite (inv_ledger _ _ _ _ H), Hnew in Hin. by apply Nat.ltb_lt.
Qed.

Lemma send_reminders_idempotent_witness :
  deliveries 1 7
    (trace (send_reminders Examples.sample_config (fun _ => true)
              Examples.sample_today Examples.sample_db 0)) = 1%nat.
Proof.
  destruct (send_reminders_idempotent Examples.sample_config (fun _ => true)
              Examples.sample_today Examples.sample_db 0 1 7) as (_ & _ & H & _).
  apply H; [done | | | reflexivity].
  - apply list_elem_of_In. simpl. tauto.
  - eexists. split; [apply list_elem_of_In; left; reflexivity | reflexivity].
Defined.

Lemma ledger_after_delivery_witness :
  (0 < deliveries 1 7
         (trace (send_reminders Examples.sample_config (fun n => negb (n =? 0)%nat)
                   Examples.sample_today Examples.sample_db 0)))%nat
  \/ (0 < failures 1 7
            (trace (send_reminders Examples.sample_config (fun n => negb (n =? 0)%nat)
                      Examples.sample_today Examples.sample_db 0)))%nat.
Proof.
  destruct (ledger_after_delivery Examples.sample_config (fun n => negb (n =? 0)%nat)
              Examples.sample_today Examples.sample_db 0) as (_ & _ & _ & H & _).
  apply (H 7 {| doc := Examples.sample_document 1 (VDate (Examples.sample_today + 7));
                user_telegram_id := 100; user_first_name := VNone |});
    [ | | reflexivity].
  - apply list_elem_of_In. simpl. tauto.
  - apply list_elem_of_In. left. reflexivity.
Defined.

(** A run in which the only delivery fails: the failure is logged, nothing
    is written to the ledger, and the next run delivers. *)
Example failed_delivery_is_retried :
  let s1 := send_reminders Examples.sample_config (fun n => negb (n =? 0)%nat)
              Examples.sample_today Examples.sample_db 0 in
  let s2 := send_reminders Examples.sample_config (fun n => negb (n =? 0)%nat)
              Examples.sample_today (db s1) (calls s1) in
  trace s1 = [Failed 1 7 100]
  /\ reminders_sent (db s1) = []
  /\ deliveries 1 7 (trace s2) = 1%nat
  /\ reminders_sent (db s2) = [{| document_id := 1; days_before := 7 |}].
Proof. vm_compute. done. Qed.

End JobsSpec.

(** ** Parsing dates *)

Module DatetimeSpec.
Import Datetime Notions.

Lemma int_of_group_raises dec s e : int_of_group dec s = Raise e -> e = ValueError.
Proof.
  unfold int_of_group. destruct (strip s); [congruence|].
  destruct (digits_value dec 0 _); congruence.
Qed.

Lemma make_date_raises y m d e : make_date y m d = Raise e -> e = ValueError.
Proof. unfold make_date. destruct (_ && _); congruence. Qed.

Lemma found_fields_raises dec ds caps ymd e :
  found_fields dec ds caps ymd = Raise e -> e = ValueError.
Proof.
  revert caps ymd. induction ds as [|d ds IH]; intros caps ymd; simpl; [congruence|].
  destruct caps as [|cap caps]; [congruence|]. destruct ymd as [[y m] dd].
  destruct d; try apply IH;
    (destruct (int_of_group dec cap) as [v|e'] eqn:Hv; simpl;
     [apply IH | intros [= <-]; by apply int_of_group_raises in Hv]).
Qed.

Lemma strptime_raises dec s f e : strptime dec s f = Raise e -> e = ValueError.
Proof.
  unfold strptime. destruct (directives_of f) as [ds|]; [|congruence].
  destruct (match_groups dec _ s) as [[caps rest]|]; [|congruence].
  destruct (negb (eqb rest [])); [congruence|].
  destruct (found_fields dec ds caps (1900, 1, 1)) as [[[y m] d]|e'] eqn:Hf; simpl.
  - apply make_date_raises.
  - intros [= <-]. by apply found_fields_raises in Hf.
Qed.

Lemma first_parse_cons dec t f fs :
  first_parse dec t (f :: fs)
  = match strptime dec t f with
    | Ok d => Ok (Some d)
    | Raise _ => first_parse dec t fs
    end.
Proof.
  unfold first_parse at 1. fold (first_parse dec t fs).
  destruct (strptime dec t f) as [d|e] eqn:H; [done|].
  by rewrite (strptime_raises _ _ _ _ H).
Qed.

(** The loop never raises. *)
Lemma first_parse_total dec t fs :
  first_parse dec t fs = Ok None \/ exists d, first_parse dec t fs = Ok (Some d).
Proof.
  induction fs as [|f fs IH]; [by left|].
  rewrite first_parse_cons. destruct (strptime dec t f); eauto.
Qed.

(** The loop returns the date of the first format of the list that parses. *)
Lemma first_parse_some dec t fs date :
  first_parse dec t fs = Ok (Some date) <->
  exists i fmt,
    fs !! i = Some fmt /\ strptime dec t fmt = Ok date
    /\ forall j fmt', (j < i)%nat -> fs !! j = Some fmt' ->
                      strptime dec t fmt' = Raise ValueError.
Proof.
  induction fs as [|f fs IH].
  - split; [discriminate|]. intros (i & fmt & H & _). by destruct i.
  - rewrite first_parse_cons. destruct (strptime dec t f) as [d|e] eqn:Hf.
    + split.
      * intros [= ->]. exists 0%nat, f. repeat split; [done|]. intros; lia.
      * intros ([|i] & fmt & Hi & Hp & Hbefore).
        -- injection Hi as <-. congruence.
        -- specialize (Hbefore 0%nat f ltac:(lia) eq_refl). congruence.
    + rewrite IH. pose proof (strptime_raises _ _ _ _ Hf) as ->. split.
      * intros (i & fmt & Hi & Hp & Hbefore). exists (S i), fmt.
        repeat split; [done..|]. intros [|j] fmt' Hj Hl.
        -- injection Hl as <-. done.
        -- apply (Hbefore j); [lia|done].
      * intros ([|i] & fmt & Hi & Hp & Hbefore).
        -- injection Hi as <-. congruence.
        -- exists i, fmt. repeat split; [done..|]. intros j fmt' Hj Hl.
           apply (Hbefore (S j)); [lia|done].
Qed.

(** The loop finds nothing exactly when every format fails. *)
Lemma first_parse_none dec t fs :
  first_parse dec t fs = Ok None <->
  forall fmt, fmt ∈ fs -> strptime dec t fmt = Raise ValueError.
Proof.
  induction fs as [|f fs IH].
  - split; [|done]. intros _ fmt H. by apply elem_of_nil in H.
  - rewrite first_parse_cons. destruct (strptime dec t f) as [d|e] eqn:Hf.
    + split; [discriminate|]. intros H. specialize (H f ltac:(left)). congruence.
    + rewrite IH. pose proof (strptime_raises _ _ _ _ Hf) as ->. split.
      * intros H fmt [->|Hin]%elem_of_cons; auto.
      * intros H fmt Hin. apply H. by right.
Qed.

(** *** Two digit tables that agree on the characters of a text parse it
    alike *)

Section Agreement.
Variables dec dec' : char -> option Z.

Local Abbreviation agree := (Notions.agree dec dec').

Lemma cls_matches_agree k c : dec c = dec' c -> cls_matches dec k c = cls_matches dec' k c.
Proof. intros H. destruct k; simpl; [done..|]. by rewrite H. Qed.

Lemma match_seq_agree ks s : agree s -> match_seq dec ks s = match_seq dec' ks s.
Proof.
  revert s. induction ks as [|k ks IH]; intros s Hs; simpl; [done|].
  destruct Hs as [|c s Hc Hs]; [done|].
  rewrite (cls_matches_agree k c Hc), (IH s Hs). done.
Qed.

Lemma match_seq_parts d ks s cap r : match_seq d ks s = Some (cap, r) -> s = cap ++ r.
Proof.
  revert s cap. induction ks as [|k ks IH]; intros s cap; simpl.
  - by intros [= <- <-].
  - destruct s as [|c s]; [done|]. destruct (cls_matches d k c); [|done].
    destruct (match_seq d ks s) as [[cap' r']|] eqn:Hm; [|done].
    intros [= <- <-]. simpl. f_equal. by apply IH.
Qed.

Lemma match_groups_parts d gs s caps r :
  match_groups d gs s = Some (caps, r) -> s = concat caps ++ r.
Proof.
  revert s caps. induction gs as [|g gs IH]; intros s caps; simpl.
  - by intros [= <- <-].
  - induction g as [|a g IHg]; [done|].
    destruct (match_seq d a s) as [[cap r1]|] eqn:Ha; [|exact IHg].
    destruct (match_groups d gs r1) as [[caps' r']|] eqn:Hg; [|exact IHg].
    intros [= <- <-]. simpl. rewrite <- app_assoc.
    rewrite <- (IH _ _ Hg). by apply match_seq_parts in Ha.
Qed.

Lemma match_groups_agree gs s : agree s -> match_groups dec gs s = match_groups dec' gs s.
Proof.
  revert s. induction gs as [|g gs IH]; intros s Hs; simpl; [done|].
  induction g as [|a g IHg]; [done|].
  rewrite <- (match_seq_agree a s Hs).
  destruct (match_seq dec a s) as [[cap r1]|] eqn:Ha; [|exact IHg].
  assert (Hr1 : agree r1).
  { apply match_seq_parts in Ha. subst s. by apply Forall_app in Hs as [_ ?]. }
  rewrite <- (IH r1 Hr1).
  destruct (match_groups dec gs r1) as [[caps r']|]; [done|exact IHg].
Qed.

Lemma digits_value_agree acc s : agree s -> digits_value dec acc s = digits_value dec' acc s.
Proof.
  intros Hs. revert acc. induction Hs as [|c s Hc Hs IH]; intros acc; simpl; [done|].
  rewrite <- Hc. destruct (dec c); [apply IH|done].
Qed.

Lemma agree_lstrip s : agree s -> agree (lstrip s).
Proof.
  induction 1 as [|c s Hc Hs IH]; simpl; [constructor|].
  destruct (isspace c); [done|by constructor].
Qed.

Lemma agree_strip s : agree s -> agree (strip s).
Proof.
  intros Hs. unfold strip, rstrip.
  apply Forall_rev, agree_lstrip, Forall_rev, agree_lstrip, Hs.
Qed.

Lemma int_of_group_agree s : agree s -> int_of_group dec s = int_of_group dec' s.
Proof.
  intros Hs. unfold int_of_group.
  destruct (strip s) as [|c t] eqn:Ht; [done|].
  rewrite (digits_value_agree 0 (c :: t)); [done|].
  rewrite <- Ht. by apply agree_strip.
Qed.

Lemma found_fields_agree ds caps ymd :
  Forall agree caps -> found_fields dec ds caps ymd = found_fields dec' ds caps ymd.
Proof.
  intros Hcaps. revert ds ymd.
  induction Hcaps as [|cap caps Hcap Hcaps IH]; intros ds ymd;
    destruct ds as [|d ds]; simpl; try done.
  destruct ymd as [[y m] dd].
  destruct d; rewrite <- ?(int_of_group_agree cap Hcap);
    try (destruct (int_of_group dec cap); simpl); try done; apply IH.
Qed.

Lemma strptime_agree s f : agree s -> strptime dec s f = strptime dec' s f.
Proof.
  intros Hs. unfold strptime. destruct (directives_of f) as [ds|]; [|done].
  rewrite <- (match_groups_agree _ s Hs).
  destruct (match_groups dec _ s) as [[caps rest]|] eqn:Hm; [|done].
  destruct (negb (eqb rest [])); [done|].
  rewrite (found_fields_agree ds caps); [done|].
  apply match_groups_parts in Hm. subst s.
  apply Forall_app in Hs as [Hs _]. by apply Forall_concat.
Qed.

Lemma first_parse_agree s fs : agree s -> first_parse dec s fs = first_parse dec' s fs.
Proof.
  intros Hs. induction fs as [|f fs IH]; [done|].
  by rewrite !first_parse_cons, (strptime_agree s f Hs), IH.
Qed.

End Agreement.

(** A table that is right on ASCII parses an ASCII text as the ASCII table
    does. *)
Lemma first_parse_ascii dec s fs :
  (forall c, (c < 128)%N -> dec c = ascii_decimal c) ->
  Forall (fun c => (c < 128)%N) s ->
  first_parse dec s fs = first_parse ascii_decimal s fs.
Proof.
  intros Hdec Hs. apply first_parse_agree.
  unfold agree. eapply Forall_impl; [exact Hs|]. exact Hdec.
Qed.

(** *** What a format accepts *)

Lemma eqb_eq (a b : str) : eqb a b = true <-> a = b.
Proof.
  revert b. induction a as [|x a IH]; intros [|y b]; simpl; try done.
  rewrite andb_true_iff, N.eqb_eq, IH. split; [by intros [-> ->]|by intros [= -> ->]].
Qed.

Lemma match_seq_field dec ks s cap r :
  match_seq dec ks s = Some (cap, r) ->
  Forall2 (fun k c => cls_matches dec k c = true) ks cap.
Proof.
  revert s cap. induction ks as [|k ks IH]; intros s cap; simpl.
  - intros [= <- <-]. constructor.
  - destruct s as [|c s]; [done|]. destruct (cls_matches dec k c) eqn:Hk; [|done].
    destruct (match_seq dec ks s) as [[cap' r']|] eqn:Hm; [|done].
    intros [= <- <-]. constructor; [done|]. by eapply IH.
Qed.

Lemma match_groups_cons_inv dec g gs s caps r :
  match_groups dec (g :: gs) s = Some (caps, r) ->
  exists a cap r1 caps',
    a ∈ g /\ match_seq dec a s = Some (cap, r1)
    /\ match_groups dec gs r1 = Some (caps', r) /\ caps = cap :: caps'.
Proof.
  simpl. induction g as [|a g IH]; [done|].
  assert (Hrest : (fix try_alts (alts : list (list cls)) : option (list str * str) :=
                     match alts with
                     | [] => None
                     | a :: alts' =>
                         match match_seq dec a s with
                         | Some (cap, r) =>
                             match match_groups dec gs r with
                             | Some (caps, r') => Some (cap :: caps, r')
                             | None => try_alts alts'
                             end
                         | None => try_alts alts'
                         end
                     end) g = Some (caps, r) ->
                  exists a0 cap r1 caps',
                    a0 ∈ a :: g /\ match_seq dec a0 s = Some (cap, r1)
                    /\ match_groups dec gs r1 = Some (caps', r) /\ caps = cap :: caps').
  { intros (a0 & cap & r1 & caps' & Hin & H)%IH. exists a0, cap, r1, caps'.
    split; [by right|done]. }
  destruct (match_seq dec a s) as [[cap r1]|] eqn:Ha; [|exact Hrest].
  destruct (match_groups dec gs r1) as [[caps' r']|] eqn:Hg; [|exact Hrest].
  intros [= <- <-]. exists a, cap, r1, caps'. split; [by left|done].
Qed.

Lemma match_groups_fields dec ds s caps r :
  match_groups dec (map regex_of ds) s = Some (caps, r) ->
  Forall2 (field dec) ds caps.
Proof.
  revert s caps. induction ds as [|d ds IH]; intros s caps.
  - simpl. intros [= <- <-]. constructor.
  - rewrite map_cons.
    intros (a & cap & r1 & caps' & Hin & Ha & Hg & ->)%match_groups_cons_inv.
    constructor; [|by eapply IH].
    exists a. split; [done|]. by eapply match_seq_field.
Qed.

(** A text a format parses is the texts of the format's directives one
    after the other, and the date is the one their values make. *)
Lemma strptime_shape dec text fmt date :
  strptime dec text fmt = Ok date ->
  exists ds caps y m d,
    directives_of fmt = Some ds
    /\ text = concat caps
    /\ Forall2 (field dec) ds caps
    /\ found_fields dec ds caps (1900, 1, 1) = Ok (y, m, d)
    /\ make_date y m d = Ok date.
Proof.
  unfold strptime. destruct (directives_of fmt) as [ds|]; [|done].
  destruct (match_groups dec _ text) as [[caps rest]|] eqn:Hm; [|done].
  destruct (eqb rest []) eqn:Hrest; simpl; [|done]. apply eqb_eq in Hrest as ->.
  destruct (found_fields dec ds caps (1900, 1, 1)) as [[[y m] d]|] eqn:Hf; [|done].
  simpl. intros Hdate. exists ds, caps, y, m, d. repeat split; try done.
  - apply match_groups_parts in Hm. by rewrite app_nil_r in Hm.
  - by eapply match_groups_fields.
Qed.

Lemma field_lit dec c cap : field dec (D_lit c) cap -> cap = [c].
Proof.
  intros (alt & Halt & Hcap). simpl in Halt. apply list_elem_of_singleton in Halt as ->.
  inversion Hcap as [|k x ks xs Hx Hxs]; subst. inversion Hxs; subst.
  simpl in Hx. by apply N.eqb_eq in Hx as ->.
Qed.

Ltac fields H :=
  repeat match type of H with
         | Forall2 _ (_ :: _) _ =>
             let c := fresh "cap" in let caps := fresh "caps" in
             let Hc := fresh "Hcap" in
             apply Forall2_cons_inv_l in H as (c & caps & Hc & H & ->)
         | Forall2 _ [] _ => apply Forall2_nil_inv_l in H as ->
         end.

Ltac values H :=
  simpl in H;
  repeat match type of H with
         | context [int_of_group ?dec ?cap] =>
             let v := fresh "v" in let Hv := fresh "Hv" in
             destruct (int_of_group dec cap) as [v|] eqn:Hv; simpl in H; [|discriminate]
         end.

Lemma first_parse_layout dec text date :
  first_parse dec text MANUAL_FORMATS = Ok (Some date) -> layout dec text date.
Proof.
  intros (i & fmt & Hi & Hp & _)%first_parse_some.
  apply strptime_shape in Hp as (ds & caps & y & m & d & Hds & -> & Hcaps & Hf & Hdate).
  destruct i as [|[|[|i]]]; [..|done]; injection Hi as <-;
    vm_compute in Hds; injection Hds as <-; fields Hcaps;
    repeat match goal with
           | H : field _ (D_lit _) _ |- _ => apply field_lit in H as ->
           end;
    values Hf; injection Hf as <- <- <-.
  - exists cap, cap1, cap3, v1, v0, v. repeat split; try done. left.
    simpl. by rewrite app_nil_r.
  - exists cap, cap1, cap3, v1, v0, v. repeat split; try done. right; left.
    simpl. by rewrite app_nil_r.
  - exists cap3, cap1, cap, v, v0, v1. repeat split; try done. right; right.
    simpl. by rewrite app_nil_r.
Qed.

End DatetimeSpec.

(** ** The texts of a date and what [strptime] makes of them *)

Module FormattingSpec.
Import Datetime Formatting Notions.

(** Case analysis on an integer between two bounds. *)
Ltac enum d n k :=
  match n with
  | O => exfalso; lia
  | S ?n' =>
      let H := fresh in
      destruct (Z.eq_dec d k) as [->|H];
      [|let k' := eval cbv in (k + 1) in enum d n' k']
  end.

Lemma digit_char_facts v :
  0 <= v <= 9 ->
  ascii_decimal (digit_char v) = Some v
  /\ isspace (digit_char v) = false
  /\ (digit_char v < 128)%N
  /\ digit_char v <> 46%N /\ digit_char v <> 47%N.
Proof. intros Hv. enum v 10%nat 0; vm_compute; repeat split; discriminate. Qed.

Lemma pad2_digits n :
  0 <= n <= 99 ->
  exists a b, 0 <= a <= 9 /\ 0 <= b <= 9 /\ n = a * 10 + b
              /\ pad2 n = [digit_char a; digit_char b].
Proof.
  intros Hn. exists (n / 10), (n mod 10).
  repeat split; try done; Z.to_euclidean_division_equations; lia.
Qed.

Lemma pad4_digits n :
  0 <= n <= 9999 ->
  exists a b c e,
    0 <= a <= 9 /\ 0 <= b <= 9 /\ 0 <= c <= 9 /\ 0 <= e <= 9
    /\ n = ((a * 10 + b) * 10 + c) * 10 + e
    /\ pad4 n = [digit_char a; digit_char b; digit_char c; digit_char e].
Proof.
  intros Hn. exists (n / 1000), (n / 100 mod 10), (n / 10 mod 10), (n mod 10).
  repeat split; try done; Z.to_euclidean_division_equations; lia.
Qed.

Lemma digit_matches v : 0 <= v <= 9 -> cls_matches ascii_decimal Digit (digit_char v) = true.
Proof.
  intros Hv. destruct (digit_char_facts v Hv) as (Hd & _). simpl. by rewrite Hd.
Qed.

Lemma L_nil dec rest : match_groups dec [] rest = Some ([], rest).
Proof. reflexivity. Qed.

Lemma L_lit dec c gs rest caps r :
  match_groups dec gs rest = Some (caps, r) ->
  match_groups dec (regex_of (D_lit c) :: gs) (c :: rest) = Some ([c] :: caps, r).
Proof. intros H. simpl. rewrite N.eqb_refl. by rewrite H. Qed.

Lemma L_day gs d rest caps r :
  1 <= d <= 31 ->
  match_groups ascii_decimal gs rest = Some (caps, r) ->
  match_groups ascii_decimal (regex_of D_d :: gs) (pad2 d ++ rest)
  = Some (pad2 d :: caps, r).
Proof. intros Hd H. enum d 31%nat 1; simpl; by rewrite H. Qed.

Lemma L_month gs m rest caps r :
  1 <= m <= 12 ->
  match_groups ascii_decimal gs rest = Some (caps, r) ->
  match_groups ascii_decimal (regex_of D_m :: gs) (pad2 m ++ rest)
  = Some (pad2 m :: caps, r).
Proof. intros Hm H. enum m 12%nat 1; simpl; by rewrite H. Qed.

Lemma L_year gs y rest caps r :
  0 <= y <= 9999 ->
  match_groups ascii_decimal gs rest = Some (caps, r) ->
  match_groups ascii_decimal (regex_of D_Y :: gs) (pad4 y ++ rest)
  = Some (pad4 y :: caps, r).
Proof.
  intros Hy H.
  destruct (pad4_digits y Hy) as (a & b & c & e & Ha & Hb & Hc & He & _ & ->).
  cbn [regex_of match_groups app match_seq].
  rewrite !digit_matches by done. by rewrite H.
Qed.

Lemma int_of_pad2 n : 1 <= n <= 31 -> int_of_group ascii_decimal (pad2 n) = Ok n.
Proof. intros Hn. enum n 31%nat 1; reflexivity. Qed.

Lemma int_of_pad4 n : 0 <= n <= 9999 -> int_of_group ascii_decimal (pad4 n) = Ok n.
Proof.
  intros Hn.
  destruct (pad4_digits n Hn) as (a & b & c & e & Ha & Hb & Hc & He & Hval & ->).
  destruct (digit_char_facts a Ha) as (Da & Sa & _).
  destruct (digit_char_facts b Hb) as (Db & _).
  destruct (digit_char_facts c Hc) as (Dc & _).
  destruct (digit_char_facts e He) as (De & Se & _).
  unfold int_of_group, strip, rstrip.
  cbn [lstrip]. rewrite Sa. cbn [rev app lstrip]. rewrite Se. cbn [rev app].
  cbn [digits_value]. rewrite Da, Db, Dc, De. f_equal. lia.
Qed.

(** A day cannot be followed by a separator the text does not have. *)
Lemma day_sep_fails dec sep c1 c2 c3 rest gs :
  c2 <> sep -> c3 <> sep ->
  match_groups dec (regex_of D_d :: regex_of (D_lit sep) :: gs) (c1 :: c2 :: c3 :: rest)
  = None.
Proof.
  intros H2 H3. apply N.eqb_neq in H2, H3.
  cbn [regex_of match_groups match_seq cls_matches].
  repeat match goal with
         | |- context [if ?b then _ else _] =>
             destruct b; cbn [andb]; rewrite ?H2, ?H3
         end; done.
Qed.

Lemma valid_fields y m d date :
  make_date y m d = Ok date -> 1 <= y <= 9999 /\ 1 <= m <= 12 /\ 1 <= d <= 31.
Proof.
  unfold make_date, MINYEAR, MAXYEAR.
  destruct (Z.leb_spec 1 y), (Z.leb_spec y 9999), (Z.leb_spec 1 m), (Z.leb_spec m 12),
    (Z.leb_spec 1 d), (Z.leb_spec d (days_in_month y m)); try done.
  intros _. repeat split; try done.
  assert (days_in_month y m <= 31); [|lia].
  unfold days_in_month. enum m 12%nat 1; simpl; try lia.
  destruct (is_leap y); simpl; lia.
Qed.

Ltac directives fmt :=
  let ds := eval vm_compute in (directives_of (lit fmt)) in
  change (directives_of (lit fmt)) with ds.

Lemma strptime_iso y m d date :
  make_date y m d = Ok date ->
  strptime ascii_decimal (isoformat y m d) (lit "%Y-%m-%d") = Ok date.
Proof.
  intros Hdate. destruct (valid_fields y m d date Hdate) as (Hy & Hm & Hd).
  unfold strptime. directives "%Y-%m-%d". cbn [map].
  change (isoformat y m d) with (pad4 y ++ 45%N :: pad2 m ++ 45%N :: pad2 d ++ []).
  rewrite (L_year _ y _ [[45%N]; pad2 m; [45%N]; pad2 d] []); [|lia|].
  - cbn [eqb negb found_fields].
    rewrite int_of_pad4 by lia. cbn [mbind result_bind].
    rewrite int_of_pad2 by lia. cbn [mbind result_bind].
    rewrite int_of_pad2 by lia. cbn [mbind result_bind]. exact Hdate.
  - apply L_lit, L_month; [lia|]. apply L_lit, L_day; [lia|]. apply L_nil.
Qed.

Lemma strptime_separated sep fmt y m d date :
  directives_of fmt = Some [D_d; D_lit sep; D_m; D_lit sep; D_Y] ->
  make_date y m d = Ok date ->
  strptime ascii_decimal (pad2 d ++ sep :: pad2 m ++ sep :: pad4 y ++ []) fmt = Ok date.
Proof.
  intros Hfmt Hdate. destruct (valid_fields y m d date Hdate) as (Hy & Hm & Hd).
  unfold strptime. rewrite Hfmt. cbn [map].
  rewrite (L_day _ d _ [[sep]; pad2 m; [sep]; pad4 y] []); [|lia|].
  - cbn [eqb negb found_fields].
    rewrite int_of_pad2 by lia. cbn [mbind result_bind].
    rewrite int_of_pad2 by lia. cbn [mbind result_bind].
    rewrite int_of_pad4 by lia. cbn [mbind result_bind]. exact Hdate.
  - apply L_lit, L_month; [lia|]. apply L_lit, L_year; [lia|]. apply L_nil.
Qed.

(** A text whose second and third characters are not the separator of a
    day-first format is refused by it. *)
Lemma strptime_day_first_fails dec sep fmt ds c1 c2 c3 rest :
  directives_of fmt = Some (D_d :: D_lit sep :: ds) ->
  c2 <> sep -> c3 <> sep ->
  strptime dec (c1 :: c2 :: c3 :: rest) fmt = Raise ValueError.
Proof.
  intros Hfmt H2 H3. unfold strptime. rewrite Hfmt. cbn [map].
  by rewrite day_sep_fails.
Qed.

Lemma pad2_ascii n : 0 <= n <= 99 -> Forall (fun c => (c < 128)%N) (pad2 n).
Proof.
  intros Hn. destruct (pad2_digits n Hn) as (a & b & Ha & Hb & _ & ->).
  repeat constructor; by apply digit_char_facts.
Qed.

Lemma pad4_ascii n : 0 <= n <= 9999 -> Forall (fun c => (c < 128)%N) (pad4 n).
Proof.
  intros Hn. destruct (pad4_digits n Hn) as (a & b & c & e & Ha & Hb & Hc & He & _ & ->).
  repeat constructor; by apply digit_char_facts.
Qed.

(** *** Every way to write a date is read *)

Ltac texts H :=
  apply list_elem_of_In in H; cbv in H;
  repeat match type of H with
         | _ \/ _ => destruct H as [<-|H]
         end;
  [..|destruct H].

Lemma int_of_day d dd :
  1 <= d <= 31 -> dd ∈ day_texts d -> int_of_group ascii_decimal dd = Ok d.
Proof. intros Hd Hdd. enum d 31%nat 1; texts Hdd; reflexivity. Qed.

Lemma int_of_month m mm :
  1 <= m <= 12 -> mm ∈ month_texts m -> int_of_group ascii_decimal mm = Ok m.
Proof. intros Hm Hmm. enum m 12%nat 1; texts Hmm; reflexivity. Qed.

(** A day before a separator, and at the end of the text. *)
Lemma G_day gs d dd sep rest caps r :
  1 <= d <= 31 -> dd ∈ day_texts d -> sep ∈ [45%N; 46%N; 47%N] ->
  match_groups ascii_decimal gs (sep :: rest) = Some (caps, r) ->
  match_groups ascii_decimal (regex_of D_d :: gs) (dd ++ sep :: rest)
  = Some (dd :: caps, r).
Proof.
  intros Hd Hdd Hsep H. texts Hsep; enum d 31%nat 1; texts Hdd; simpl; by rewrite H.
Qed.

Lemma G_day_last d dd :
  1 <= d <= 31 -> dd ∈ day_texts d ->
  match_groups ascii_decimal [regex_of D_d] (dd ++ []) = Some ([dd], []).
Proof. intros Hd Hdd. enum d 31%nat 1; texts Hdd; reflexivity. Qed.

Lemma G_month gs m mm sep rest caps r :
  1 <= m <= 12 -> mm ∈ month_texts m -> sep ∈ [45%N; 46%N; 47%N] ->
  match_groups ascii_decimal gs (sep :: rest) = Some (caps, r) ->
  match_groups ascii_decimal (regex_of D_m :: gs) (mm ++ sep :: rest)
  = Some (mm :: caps, r).
Proof.
  intros Hm Hmm Hsep H. texts Hsep; enum m 12%nat 1; texts Hmm; simpl; by rewrite H.
Qed.

Lemma strptime_day_first sep fmt y m d dd mm date :
  directives_of fmt = Some [D_d; D_lit sep; D_m; D_lit sep; D_Y] ->
  sep ∈ [45%N; 46%N; 47%N] ->
  make_date y m d = Ok date ->
  dd ∈ day_texts d -> mm ∈ month_texts m ->
  strptime ascii_decimal (dd ++ sep :: mm ++ sep :: pad4 y ++ []) fmt = Ok date.
Proof.
  intros Hfmt Hsep Hdate Hdd Hmm.
  destruct (valid_fields y m d date Hdate) as (Hy & Hm & Hd).
  unfold strptime. rewrite Hfmt. cbn [map].
  rewrite (G_day _ d dd sep _ [[sep]; mm; [sep]; pad4 y] []); [|lia|done|done|].
  - cbn [eqb negb found_fields].
    rewrite (int_of_day d dd) by (assumption || lia). cbn [mbind result_bind].
    rewrite (int_of_month m mm) by (assumption || lia). cbn [mbind result_bind].
    rewrite int_of_pad4 by lia. cbn [mbind result_bind]. exact Hdate.
  - apply L_lit, (G_month _ m); [lia|done|done|]. apply L_lit, L_year; [lia|]. apply L_nil.
Qed.

Lemma strptime_year_first y m d dd mm date :
  make_date y m d = Ok date ->
  dd ∈ day_texts d -> mm ∈ month_texts m ->
  strptime ascii_decimal (pad4 y ++ 45%N :: mm ++ 45%N :: dd ++ []) (lit "%Y-%m-%d")
  = Ok date.
Proof.
  intros Hdate Hdd Hmm.
  destruct (valid_fields y m d date Hdate) as (Hy & Hm & Hd).
  unfold strptime. directives "%Y-%m-%d". cbn [map].
  rewrite (L_year _ y _ [[45%N]; mm; [45%N]; dd] []); [|lia|].
  - cbn [eqb negb found_fields].
    rewrite int_of_pad4 by lia. cbn [mbind result_bind].
    rewrite (int_of_month m mm) by (assumption || lia). cbn [mbind result_bind].
    rewrite (int_of_day d dd) by (assumption || lia). cbn [mbind result_bind]. exact Hdate.
  - apply L_lit, (G_month _ m); [lia|done|by repeat constructor|].
    apply L_lit. by apply (G_day_last d).
Qed.

(** A day-first format refuses a text that lacks its separator. *)
Lemma strptime_without_separator dec sep fmt ds t :
  directives_of fmt = Some (D_d :: D_lit sep :: ds) ->
  sep ∉ t ->
  strptime dec t fmt = Raise ValueError.
Proof.
  intros Hfmt Hsep. unfold strptime. rewrite Hfmt. cbn [map].
  destruct (match_groups dec _ t) as [[caps r]|] eqn:Hm; [|done].
  exfalso. apply Hsep.
  apply DatetimeSpec.match_groups_cons_inv in Hm
    as (a & cap & r1 & caps' & _ & Ha & Hg & _).
  apply DatetimeSpec.match_seq_parts in Ha as ->.
  apply DatetimeSpec.match_groups_cons_inv in Hg
    as (a' & cap' & r2 & caps'' & Ha' & Hsepm & _ & _).
  simpl in Ha'. apply list_elem_of_singleton in Ha' as ->.
  destruct r1 as [|c r1]; [done|]. simpl in Hsepm.
  destruct (N.eqb_spec c sep) as [->|]; [|done].
  apply elem_of_app. right. by left.
Qed.

Lemma day_texts_chars d dd :
  1 <= d <= 31 -> dd ∈ day_texts d -> Forall (fun c => c <> 46%N /\ c <> 47%N) dd.
Proof.
  intros Hd Hdd. enum d 31%nat 1; texts Hdd;
    repeat (apply List.Forall_cons; [by split|]); apply List.Forall_nil.
Qed.

Lemma month_texts_chars m mm :
  1 <= m <= 12 -> mm ∈ month_texts m -> Forall (fun c => c <> 46%N /\ c <> 47%N) mm.
Proof.
  intros Hm Hmm. enum m 12%nat 1; texts Hmm;
    repeat (apply List.Forall_cons; [by split|]); apply List.Forall_nil.
Qed.

Lemma pad4_chars y : 0 <= y <= 9999 -> Forall (fun c => c <> 46%N /\ c <> 47%N) (pad4 y).
Proof.
  intros Hy. destruct (pad4_digits y Hy) as (a & b & c & e & Ha & Hb & Hc & He & _ & ->).
  repeat (apply List.Forall_cons; [split; by apply digit_char_facts|]).
  apply List.Forall_nil.
Qed.

Lemma not_in_text (sep : char) (P : char -> Prop) t :
  (forall c, P c -> c <> sep) -> Forall P t -> sep ∉ t.
Proof.
  intros HP Ht Hin. rewrite Forall_forall in Ht. by apply (HP sep (Ht _ Hin)).
Qed.

(** Every way to write a date is read as that date. *)
Lemma written_parsed t date :
  written t date -> first_parse ascii_decimal t MANUAL_FORMATS = Ok (Some date).
Proof.
  intros (y & m & d & dd & mm & Hdate & Hdd & Hmm & Ht).
  destruct (valid_fields y m d date Hdate) as (Hy & Hm & Hd).
  pose proof (day_texts_chars d dd Hd Hdd) as Cd.
  pose proof (month_texts_chars m mm Hm Hmm) as Cm.
  pose proof (pad4_chars y ltac:(lia)) as Cy.
  assert (Cdash : Forall (fun c => c <> 46%N /\ c <> 47%N) [45%N])
    by (by repeat constructor).
  assert (Cslash : Forall (fun c : char => c <> 46%N) [47%N])
    by (by repeat constructor).
  assert (Cdot : forall t', Forall (fun c => c <> 46%N /\ c <> 47%N) t' ->
                            Forall (fun c : char => c <> 46%N) t')
    by (intros t' Ht'; eapply Forall_impl; [exact Ht'|]; by intros c [? _]).
  unfold MANUAL_FORMATS. destruct Ht as [-> | [-> | ->]].
  - rewrite DatetimeSpec.first_parse_cons.
    assert (Hp : strptime ascii_decimal (dd ++ lit "." ++ mm ++ lit "." ++ pad4 y)
                   (lit "%d.%m.%Y") = Ok date)
      by exact (strptime_day_first 46%N (lit "%d.%m.%Y") y m d dd mm date
                  eq_refl ltac:(by repeat constructor) Hdate Hdd Hmm).
    by rewrite Hp.
  - rewrite !DatetimeSpec.first_parse_cons.
    rewrite (strptime_without_separator _ 46%N (lit "%d.%m.%Y") [D_m; D_lit 46%N; D_Y]);
      [|done|].
    + assert (Hp : strptime ascii_decimal (dd ++ lit "/" ++ mm ++ lit "/" ++ pad4 y)
                     (lit "%d/%m/%Y") = Ok date)
        by exact (strptime_day_first 47%N (lit "%d/%m/%Y") y m d dd mm date
                    eq_refl ltac:(by repeat constructor) Hdate Hdd Hmm).
      by rewrite Hp.
    + apply (not_in_text _ (fun c => c <> 46%N)); [done|].
      repeat (apply Forall_app; split); auto.
  - rewrite !DatetimeSpec.first_parse_cons.
    assert (Hall : Forall (fun c => c <> 46%N /\ c <> 47%N)
                     (pad4 y ++ lit "-" ++ mm ++ lit "-" ++ dd))
      by (repeat (apply Forall_app; split); auto).
    rewrite (strptime_without_separator _ 46%N (lit "%d.%m.%Y") [D_m; D_lit 46%N; D_Y]);
      [|done|apply (not_in_text _ _ _ (fun c H => proj1 H) Hall)].
    rewrite (strptime_without_separator _ 47%N (lit "%d/%m/%Y") [D_m; D_lit 47%N; D_Y]);
      [|done|apply (not_in_text _ _ _ (fun c H => proj2 H) Hall)].
    assert (Hp : strptime ascii_decimal (pad4 y ++ lit "-" ++ mm ++ lit "-" ++ dd)
                   (lit "%Y-%m-%d") = Ok date).
    { rewrite <- (app_nil_r dd). exact (strptime_year_first y m d dd mm date Hdate Hdd Hmm). }
    by rewrite Hp.
Qed.

(** *** What is read was written

    The other direction: a text a directive's group matches is one of the
    ways to write its value. *)

Lemma range_chars lo hi c :
  cls_matches ascii_decimal (Range lo hi) c = true ->
  In c (map N.of_nat (seq (N.to_nat lo) (S (N.to_nat hi) - N.to_nat lo))).
Proof.
  cbn [cls_matches]. intros [Hlo Hhi]%andb_true_iff.
  apply N.leb_le in Hlo. apply N.leb_le in Hhi.
  apply in_map_iff. exists (N.to_nat c). split; [apply N2Nat.id|].
  apply in_seq. lia.
Qed.

Lemma digit_range c :
  cls_matches ascii_decimal Digit c = true ->
  cls_matches ascii_decimal (Range 48%N 57%N) c = true.
Proof.
  cbn [cls_matches]. unfold ascii_decimal. intros H%bool_decide_eq_true.
  destruct ((48 <=? c)%N && (c <=? 57)%N); [done|]. by destruct H.
Qed.

Lemma digit_chars c :
  cls_matches ascii_decimal Digit c = true -> exists v, 0 <= v <= 9 /\ c = digit_char v.
Proof.
  intros H%digit_range. cbn [cls_matches] in H. apply andb_true_iff in H as [Hlo Hhi].
  apply N.leb_le in Hlo. apply N.leb_le in Hhi.
  exists (Z.of_N c - 48). split; [lia|]. unfold digit_char. lia.
Qed.

(** The texts an alternative matches, character by character. *)
Ltac captured H :=
  repeat match type of H with
         | Forall2 _ (_ :: _) _ =>
             let c := fresh "c" in let Hc := fresh "Hc" in
             apply Forall2_cons_inv_l in H as (c & ? & Hc & H & ->)
         | Forall2 _ [] _ => apply Forall2_nil_inv_l in H as ->
         end.

Ltac chars :=
  repeat match goal with
         | H : cls_matches _ (Exactly _) _ = true |- _ =>
             cbn [cls_matches] in H; apply N.eqb_eq in H; subst
         | H : cls_matches _ Digit _ = true |- _ => apply digit_range in H
         | H : cls_matches _ (Range _ _) _ = true |- _ =>
             apply range_chars in H; cbv in H;
             repeat match type of H with
                    | _ \/ _ => destruct H as [<-|H]
                    end;
             [..|destruct H]
         end.

Ltac alternatives H :=
  apply list_elem_of_In in H; cbv in H;
  repeat match type of H with
         | _ \/ _ => destruct H as [<-|H]
         end;
  [..|destruct H].

Lemma field_day dd d :
  field ascii_decimal D_d dd -> int_of_group ascii_decimal dd = Ok d ->
  dd ∈ day_texts d.
Proof.
  intros (alt & Halt & Hcap) Hint.
  alternatives Halt; captured Hcap; chars;
    vm_compute in Hint; injection Hint as <-;
    apply list_elem_of_In; vm_compute; auto.
Qed.

Lemma field_month mm m :
  field ascii_decimal D_m mm -> int_of_group ascii_decimal mm = Ok m ->
  mm ∈ month_texts m.
Proof.
  intros (alt & Halt & Hcap) Hint.
  alternatives Halt; captured Hcap; chars;
    vm_compute in Hint; injection Hint as <-;
    apply list_elem_of_In; vm_compute; auto.
Qed.

Lemma field_year yyyy y :
  field ascii_decimal D_Y yyyy -> int_of_group ascii_decimal yyyy = Ok y ->
  yyyy = pad4 y.
Proof.
  intros (alt & Halt & Hcap) Hint.
  alternatives Halt; captured Hcap.
  repeat match goal with
         | H : cls_matches _ Digit _ = true |- _ =>
             apply digit_chars in H as (? & ? & ->)
         end.
  match goal with
  | |- [digit_char ?a; digit_char ?b; digit_char ?c; digit_char ?e] = _ =>
      assert (Hn : 0 <= ((a * 10 + b) * 10 + c) * 10 + e <= 9999) by lia;
      assert (Hpad : pad4 (((a * 10 + b) * 10 + c) * 10 + e)
                     = [digit_char a; digit_char b; digit_char c; digit_char e])
        by (unfold pad4; repeat f_equal; Z.to_euclidean_division_equations; lia)
  end.
  rewrite <- Hpad in Hint |- *. rewrite (int_of_pad4 _ Hn) in Hint.
  by injection Hint as <-.
Qed.

(** Every date read was written in one of the ways. *)
Lemma parsed_written t date :
  first_parse ascii_decimal t MANUAL_FORMATS = Ok (Some date) -> written t date.
Proof.
  intros (dd & mm & yyyy & y & m & d & Fd & Fm & Fy & Id & Im & Iy & Hdate & Ht)
    %DatetimeSpec.first_parse_layout.
  exists y, m, d, dd, mm. rewrite <- (field_year yyyy y Fy Iy).
  repeat split; [done|by apply field_day|by apply field_month|done].
Qed.

(** The dates the loop over the three formats reads are the written ones. *)
Lemma first_parse_written t date :
  first_parse ascii_decimal t MANUAL_FORMATS = Ok (Some date) <-> written t date.
Proof. split; [apply parsed_written|apply written_parsed]. Qed.

End FormattingSpec.

(** ** The date keyboard *)

Module DateKeyboardFacts.
Import Utils Datetime Keyboards DateKeyboard.

Lemma add_days_ok today n :
  0 < today + n <= MAXORDINAL -> add_days today n = Ok (today + n).
Proof.
  intros [H1 H2]. unfold add_days.
  destruct (Z.ltb_spec 0 (today + n)); [|lia].
  destruct (Z.leb_spec (today + n) MAXORDINAL); [done|lia].
Qed.

Lemma add_days_overflow today n :
  MAXORDINAL < today + n -> add_days today n = Raise OverflowError.
Proof.
  intros H. unfold add_days.
  destruct (Z.leb_spec (today + n) MAXORDINAL); [lia|]. by rewrite andb_false_r.
Qed.

Lemma quick_rows_pair prefix today c1 l1 d1 c2 l2 d2 options keyboard :
  0 < today + d1 <= MAXORDINAL -> 0 < today + d2 <= MAXORDINAL ->
  quick_rows prefix today ((c1, l1, d1) :: (c2, l2, d2) :: options) [] keyboard
  = quick_rows prefix today options []
      (keyboard ++ [[{| Utils.text := l1; callback_data := prefix ++ bar ++ lit c1 |};
                     {| Utils.text := l2; callback_data := prefix ++ bar ++ lit c2 |}]]).
Proof.
  intros H1 H2. cbn [quick_rows].
  rewrite !add_days_ok by done. reflexivity.
Qed.

Lemma quick_rows_built prefix today keyboard :
  0 < today -> today + 1825 <= MAXORDINAL ->
  exists rows,
    quick_rows prefix today quick_dates [] keyboard = Ok ([], keyboard ++ rows)
    /\ map (map callback_data) rows
       = [[prefix ++ bar ++ lit "+1m"; prefix ++ bar ++ lit "+3m"];
          [prefix ++ bar ++ lit "+6m"; prefix ++ bar ++ lit "+1y"];
          [prefix ++ bar ++ lit "+2y"; prefix ++ bar ++ lit "+5y"]].
Proof.
  intros Hlo Hhi. eexists. split.
  - unfold quick_dates.
    rewrite !quick_rows_pair by lia. cbn [quick_rows].
    rewrite <- !app_assoc. reflexivity.
  - reflexivity.
Qed.

(** The loop raises as soon as one of the days is past [date.max]. *)
Lemma quick_rows_cases prefix today options row keyboard :
  (exists r, quick_rows prefix today options row keyboard = Ok r
             /\ Forall (fun o => today + o.2 <= MAXORDINAL) options)
  \/ quick_rows prefix today options row keyboard = Raise OverflowError.
Proof.
  revert row keyboard. induction options as [|[[code label] days] options IH];
    intros row keyboard; [left; by eexists|].
  cbn [quick_rows].
  destruct (add_days today days) as [target|e] eqn:Hadd; cbn [mbind result_bind].
  2: { right. revert Hadd. unfold add_days. by destruct (_ && _); intros [= <-]. }
  assert (today + days <= MAXORDINAL).
  { revert Hadd. unfold add_days.
    destruct (Z.ltb_spec 0 (today + days)), (Z.leb_spec (today + days) MAXORDINAL);
      (done || lia). }
  destruct (len _ =? 2);
    match goal with
    | |- context [quick_rows prefix today options ?r ?k] =>
        destruct (IH r k) as [(res & Hres & Hall)|Hres]; rewrite Hres;
        [left|by right]
    end; (eexists; split; [reflexivity|]); by apply List.Forall_cons.
Qed.

Lemma quick_rows_overflow prefix today keyboard :
  MAXORDINAL < today + 1825 ->
  quick_rows prefix today quick_dates [] keyboard = Raise OverflowError.
Proof.
  intros Hhi.
  destruct (quick_rows_cases prefix today quick_dates [] keyboard)
    as [(res & _ & Hall)|H]; [|done].
  exfalso. rewrite Forall_forall in Hall.
  assert (today + 1825 <= MAXORDINAL); [|lia].
  apply (Hall ("+5y", [1063; 1077; 1088; 1077; 1079; 32; 53; 32; 1083; 1077; 1090]%N,
               1825)).
  apply list_elem_of_In. unfold quick_dates. cbn [In]. tauto.
Qed.

(** The keyboard is built when the day is more than 1825 days before
    [date.max]: the buttons of today, of the six quick dates in rows of
    two, of the manual entry and of the skip. *)
Lemma build_date_keyboard_built cfg prefix today include_today include_skip :
  0 < today -> today + 1825 <= MAXORDINAL ->
  exists keyboard,
    build_date_keyboard cfg today prefix include_today include_skip true
    = Ok keyboard
    /\ tokens keyboard
       = (if include_today then [prefix ++ lit "|today"] else [])
         ++ [prefix ++ bar ++ lit "+1m"; prefix ++ bar ++ lit "+3m";
             prefix ++ bar ++ lit "+6m"; prefix ++ bar ++ lit "+1y";
             prefix ++ bar ++ lit "+2y"; prefix ++ bar ++ lit "+5y";
             prefix ++ lit "|manual"]
         ++ (if include_skip then [prefix ++ lit "|skip"] else [])
    /\ map length keyboard
       = ((if include_today then [1] else []) ++ [2; 2; 2; 1]
          ++ (if include_skip then [1] else []))%nat.
Proof.
  intros Hlo Hhi. unfold build_date_keyboard. cbv zeta.
  change (Status.format_date cfg (VDate today)) with (Ok (strftime_date cfg today)).
  assert (Hrows : forall kb, exists rows,
             quick_rows prefix today quick_dates [] kb = Ok ([], kb ++ rows)
             /\ tokens rows
                = [prefix ++ bar ++ lit "+1m"; prefix ++ bar ++ lit "+3m";
                   prefix ++ bar ++ lit "+6m"; prefix ++ bar ++ lit "+1y";
                   prefix ++ bar ++ lit "+2y"; prefix ++ bar ++ lit "+5y"]
             /\ map length rows = [2; 2; 2]%nat).
  { intros kb. destruct (quick_rows_built prefix today kb Hlo Hhi) as (rows & Hq & Hrows).
    exists rows. split; [done|]. split.
    - unfold tokens. by rewrite concat_map, Hrows.
    - transitivity (map length (map (map callback_data) rows)); [|by rewrite Hrows].
      rewrite map_map. apply map_ext. intros row. by rewrite length_map. }
  assert (Happ : forall a b, tokens (a ++ b) = tokens a ++ tokens b).
  { intros a b. unfold tokens. by rewrite concat_app, map_app. }
  destruct include_today; cbn [mbind result_bind];
    match goal with
    | |- context [quick_rows _ _ _ _ ?kb] =>
        destruct (Hrows kb) as (rows & -> & Htokens & Hlengths)
    end;
    cbn [mbind result_bind]; eexists; (split; [reflexivity|]);
    destruct include_skip;
    rewrite ?Happ, ?map_app, Htokens, Hlengths; split; reflexivity.
Qed.

(** Within 1825 days of [date.max] it raises. *)
Lemma build_date_keyboard_overflow cfg prefix today include_today include_skip :
  MAXORDINAL < today + 1825 ->
  build_date_keyboard cfg today prefix include_today include_skip true
  = Raise OverflowError.
Proof.
  intros Hhi. unfold build_date_keyboard. cbv zeta.
  change (Status.format_date cfg (VDate today)) with (Ok (strftime_date cfg today)).
  destruct include_today; cbn [mbind result_bind];
    by rewrite quick_rows_overflow.
Qed.

End DateKeyboardFacts.

(** ** The upload conversation *)

Module DocumentsSpec.
Import Database Documents Notions DocumentsNotions.

Lemma upload_setitem_ok key v ctx d :
  upload (user_data ctx) = Some d ->
  upload_setitem key v ctx = Ok (set_upload (Some (<[key := v]> d)) ctx).
Proof. intros H. unfold upload_setitem. by rewrite H. Qed.

Lemma upload_pop_ok key ctx d :
  upload (user_data ctx) = Some d ->
  upload_pop key ctx = Ok (set_upload (Some (delete key d)) ctx).
Proof. intros H. unfold upload_pop. by rewrite H. Qed.

(** *** The limit on documents *)

Lemma get_or_create_user_documents tid uname fname d :
  documents (db_of (with_connection (get_or_create_user tid uname fname) d))
  = documents d.
Proof.
  unfold with_connection, get_or_create_user, db_of.
  cbv [mbind Sql_bind select exec mret Sql_ret store journal].
  by destruct (head (List.filter _ (users d))).
Qed.

Lemma documents_count_same user_id d d' :
  documents d = documents d' -> documents_count user_id d = documents_count user_id d'.
Proof.
  intros H. unfold documents_count, get_documents_count, with_connection, result_of.
  cbv [select store]. simpl. by rewrite H.
Qed.

(** C6: a user whose document count has reached the maximum and sends a
    file gets the limit message and the end of the conversation; the session
    store is left as it was, so no draft is created, and the documents are
    untouched. *)
Theorem upload_start_limit cfg user message ctx :
  MAX_DOCUMENTS_PER_USER cfg <= documents_count (id user) (db ctx) ->
  exists ctx',
    upload_start cfg user message ctx = Ok (END, ctx')
    /\ user_data ctx' = user_data ctx
    /\ sent ctx' = sent ctx ++
         [reply_text (MESSAGES_format "limit_reached_documents"
                        (VInt (MAX_DOCUMENTS_PER_USER cfg))) None]
    /\ documents (db ctx') = documents (db ctx).
Proof.
  intros Hmax. unfold upload_start, call. cbv zeta.
  set (d1 := db_of (with_connection (get_or_create_user _ _ _) (db ctx))).
  assert (Hd1 : documents d1 = documents (db ctx))
    by apply get_or_create_user_documents.
  assert (Hcount : result_of (with_connection (get_documents_count (id user)) d1)
                   = documents_count (id user) (db ctx))
    by apply (documents_count_same _ _ _ Hd1).
  simpl. rewrite Hcount.
  destruct (Z.leb_spec (MAX_DOCUMENTS_PER_USER cfg) (documents_count (id user) (db ctx)));
    [|lia].
  eexists. split; [reflexivity|]. simpl. done.
Qed.

Lemma upload_start_limit_witness :
  exists ctx',
    upload_start Examples.sample_config Examples.sample_user
      {| document := Some {| file_id := lit "file-9"; file_unique_id := lit "u9";
                             file_name := Some (lit "visa.pdf");
                             file_size := Some 1000 |};
         photo := [] |}
      (Examples.sample_context ∅) = Ok (END, ctx')
    /\ user_data ctx' = user_data (Examples.sample_context ∅)
    /\ sent ctx' = sent (Examples.sample_context ∅) ++
         [reply_text (MESSAGES_format "limit_reached_documents"
                        (VInt (MAX_DOCUMENTS_PER_USER Examples.sample_config))) None]
    /\ documents (db ctx') = documents (db (Examples.sample_context ∅)).
Proof. apply upload_start_limit. vm_compute. discriminate. Defined.

(** *** Long names *)

Lemma slice_to_take {A} (l : list A) (n : Z) :
  0 <= n <= len l -> slice_to l n = take (Z.to_nat n) l.
Proof.
  intros Hn. unfold slice_to, slice, clamp_index.
  destruct (Z.ltb_spec 0 0); [lia|].
  destruct (Z.ltb_spec n 0); [lia|].
  rewrite Z.min_l, Z.min_l by lia. simpl. f_equal. lia.
Qed.

(** C10: a name of more than 100 characters (after [strip]) is not
    refused: its first 100 characters are stored in the draft under "name",
    everything else in the session and the database stays, the start-date
    keyboard is sent and the conversation moves to the start date.  The
    keyboard is built on the way: within 1825 days of [date.max] building
    it raises OverflowError. *)
Theorem upload_name_truncates cfg built text ctx d :
  upload (user_data ctx) = Some d ->
  100 < len (strip text) ->
  0 < built ->
  (built + 1825 <= Datetime.MAXORDINAL ->
   exists keyboard ctx',
     DateKeyboard.build_date_keyboard cfg built (lit "start") true false true
     = Ok keyboard
     /\ upload_name cfg built text ctx = Ok (WAITING_START_DATE, ctx')
     /\ upload (user_data ctx') = Some (<["name" := VStr (take 100 (strip text))]> d)
     /\ creating_template (user_data ctx') = creating_template (user_data ctx)
     /\ db ctx' = db ctx
     /\ sent ctx' = sent ctx ++ [reply_text (MESSAGES "upload_select_start_date")
                                   (Some (InlineKeyboard keyboard))])
  /\ (Datetime.MAXORDINAL < built + 1825 ->
      upload_name cfg built text ctx = Raise OverflowError)
  /\ len (take 100 (strip text)) = 100.
Proof.
  intros Hd Hlen Hlo.
  assert (Hname : forall k : result Utils.InlineKeyboardMarkup,
            DateKeyboard.build_date_keyboard cfg built (lit "start") true false true = k ->
            upload_name cfg built text ctx
            = (keyboard ← k;
               Ok (WAITING_START_DATE,
                   send (reply_text (MESSAGES "upload_select_start_date")
                           (Some (InlineKeyboard keyboard)))
                     (set_upload (Some (<["name" := VStr (take 100 (strip text))]> d))
                                 ctx)))).
  { intros k <-. unfold upload_name. cbv zeta.
    destruct (Z.ltb_spec (len (strip text)) 2); [lia|].
    destruct (Z.ltb_spec 100 (len (strip text))); [|lia].
    rewrite slice_to_take by lia.
    by rewrite (upload_setitem_ok _ _ _ d Hd). }
  split; [|split].
  - intros Hhi.
    destruct (DateKeyboardFacts.build_date_keyboard_built cfg (lit "start") built
                true false Hlo Hhi) as (keyboard & Hkeyboard & _).
    exists keyboard. eexists. split; [exact Hkeyboard|].
    split; [by rewrite (Hname _ Hkeyboard)|]. by repeat split.
  - intros Hhi. rewrite (Hname _ eq_refl).
    by rewrite DateKeyboardFacts.build_date_keyboard_overflow.
  - unfold len in *. rewrite length_take. lia.
Qed.

Lemma upload_name_truncates_witness :
  exists keyboard ctx',
    DateKeyboard.build_date_keyboard Examples.sample_config Examples.sample_today
      (lit "start") true false true = Ok keyboard
    /\ upload_name Examples.sample_config Examples.sample_today (replicate 120 97%N)
         (Examples.sample_context Examples.sample_draft)
       = Ok (WAITING_START_DATE, ctx')
    /\ upload (user_data ctx')
       = Some (<["name" := VStr (take 100 (strip (replicate 120 97%N)))]>
                 Examples.sample_draft)
    /\ creating_template (user_data ctx') = None
    /\ db ctx' = Examples.sample_db
    /\ sent ctx' = [reply_text (MESSAGES "upload_select_start_date")
                      (Some (InlineKeyboard keyboard))].
Proof.
  destruct (upload_name_truncates Examples.sample_config Examples.sample_today
              (replicate 120 97%N) (Examples.sample_context Examples.sample_draft)
              Examples.sample_draft) as (H & _).
  - reflexivity.
  - vm_compute. reflexivity.
  - reflexivity.
  - apply H. vm_compute. discriminate.
Defined.

(** *** Quick dates *)

Ltac quick_option H :=
  repeat (apply elem_of_cons in H as [H|H]; [injection H as -> ->|]);
  [..|by apply elem_of_nil in H].

Lemma quick_dates_are_day_offsets_end today user_id ctx d opt n :
  (opt, n) ∈ QUICK_OPTIONS ->
  0 < today -> today + n <= Datetime.MAXORDINAL ->
  upload (user_data ctx) = Some d ->
  upload_end_date_callback today user_id (lit "end|" ++ lit opt) ctx
  = show_template_selection user_id
      (set_upload (Some (<["end_date" := VDate (today + n)]> d)) (send answer ctx)).
Proof.
  intros Hopt Hlo Hhi Hd.
  assert (Hd' : upload (user_data (send answer ctx)) = Some d) by done.
  quick_option Hopt;
    cbv -[Datetime.add_days upload_setitem send show_template_selection
          set_upload Z.add insert];
    rewrite ?DateKeyboardFacts.add_days_ok by lia;
    rewrite ?Z.add_0_r;
    rewrite (upload_setitem_ok _ _ _ d Hd'); reflexivity.
Qed.

(** C4: for each quick option the start-date handler stores the day of the
    press plus the listed number of days under "start_date", leaves the
    rest of the session and the database as they were, sends the end-date
    keyboard and moves to the end date; the end-date handler stores the
    same date under "end_date" and goes on to the template selection.  The
    offsets are day counts added to the date. *)
Theorem quick_dates_are_day_offsets cfg today built user_id ctx d opt n :
  (opt, n) ∈ QUICK_OPTIONS ->
  0 < today -> today + n <= Datetime.MAXORDINAL ->
  0 < built -> built + 1825 <= Datetime.MAXORDINAL ->
  upload (user_data ctx) = Some d ->
  (exists keyboard ctx',
     DateKeyboard.build_date_keyboard cfg built (lit "end") false true true = Ok keyboard
     /\ upload_start_date_callback cfg today built (lit "start|" ++ lit opt) ctx
        = Ok (WAITING_END_DATE, ctx')
     /\ upload (user_data ctx') = Some (<["start_date" := VDate (today + n)]> d)
     /\ creating_template (user_data ctx') = creating_template (user_data ctx)
     /\ db ctx' = db ctx
     /\ sent ctx' = sent ctx ++ [answer;
                                 edit_message_text (START_DATE_SELECTED (today + n))
                                   (Some (InlineKeyboard keyboard))])
  /\ (exists ctx1,
        upload_end_date_callback today user_id (lit "end|" ++ lit opt) ctx
        = show_template_selection user_id ctx1
        /\ upload (user_data ctx1) = Some (<["end_date" := VDate (today + n)]> d)
        /\ creating_template (user_data ctx1) = creating_template (user_data ctx)
        /\ db ctx1 = db ctx
        /\ sent ctx1 = sent ctx ++ [answer]).
Proof.
  intros Hopt Hlo Hhi Hlo' Hhi' Hd.
  assert (Hd' : upload (user_data (send answer ctx)) = Some d) by done.
  destruct (DateKeyboardFacts.build_date_keyboard_built cfg (lit "end") built
              false true Hlo' Hhi') as (keyboard & Hkeyboard & _).
  assert (Hstart :
            upload_start_date_callback cfg today built (lit "start|" ++ lit opt) ctx
            = Ok (WAITING_END_DATE,
                  send (edit_message_text (START_DATE_SELECTED (today + n))
                          (Some (InlineKeyboard keyboard)))
                    (set_upload (Some (<["start_date" := VDate (today + n)]> d))
                                (send answer ctx)))).
  { clear Hhi'. change (lit "end") with [101%N; 110%N; 100%N] in Hkeyboard.
    quick_option Hopt;
      cbv -[Datetime.add_days upload_setitem send set_upload Z.add insert
            DateKeyboard.build_date_keyboard];
      rewrite ?DateKeyboardFacts.add_days_ok by lia;
      rewrite ?Z.add_0_r;
      cbn [mbind result_bind];
      rewrite (upload_setitem_ok _ _ _ d Hd'); cbn [mbind result_bind];
      rewrite Hkeyboard; reflexivity. }
  assert (Hend :
            upload_end_date_callback today user_id (lit "end|" ++ lit opt) ctx
            = show_template_selection user_id
                (set_upload (Some (<["end_date" := VDate (today + n)]> d))
                            (send answer ctx))).
  { by apply quick_dates_are_day_offsets_end. }
  split.
  - exists keyboard. eexists. split; [exact Hkeyboard|].
    split; [exact Hstart|]. repeat split.
    cbn [sent send set_upload]. by rewrite <- app_assoc.
  - eexists. split; [exact Hend|]. by repeat split.
Qed.

Lemma quick_dates_are_day_offsets_witness :
  exists keyboard ctx',
    DateKeyboard.build_date_keyboard Examples.sample_config Examples.sample_today
      (lit "end") false true true = Ok keyboard
    /\ upload_start_date_callback Examples.sample_config Examples.sample_today
         Examples.sample_today (lit "start|" ++ lit "+1m")
         (Examples.sample_context Examples.sample_draft)
       = Ok (WAITING_END_DATE, ctx')
    /\ upload (user_data ctx')
       = Some (<["start_date" := VDate (Examples.sample_today + 30)]>
                 Examples.sample_draft)
    /\ creating_template (user_data ctx') = None
    /\ db ctx' = Examples.sample_db
    /\ sent ctx' = [answer;
                    edit_message_text
                      (START_DATE_SELECTED (Examples.sample_today + 30))
                      (Some (InlineKeyboard keyboard))].
Proof.
  destruct (quick_dates_are_day_offsets Examples.sample_config Examples.sample_today
              Examples.sample_today 100
              (Examples.sample_context Examples.sample_draft) Examples.sample_draft
              "+1m" 30) as (H & _).
  - apply list_elem_of_In. simpl. tauto.
  - reflexivity.
  - vm_compute. discriminate.
  - reflexivity.
  - vm_compute. discriminate.
  - reflexivity.
  - exact H.
Defined.

(** The example of the specification: +1m on 2024-01-15 is 2024-02-14. *)
Example one_month_from_jan_15 :
  Datetime.add_days (Datetime.ymd2ord 2024 1 15) 30 = Ok (Datetime.ymd2ord 2024 2 14).
Proof. reflexivity. Qed.

(** *** No templates *)

Lemma save_document_from_callback_saves user_id ctx d :
  upload (user_data ctx) = Some d ->
  truthy (get d "file_id") = true ->
  bind_int (get d "template_id") = Ok () ->
  exists ctx',
    save_document_from_callback user_id ctx = Ok (END, ctx')
    /\ upload (user_data ctx') = None
    /\ documents (db ctx')
       = documents (db ctx) ++ [row_of_draft (documents_seq (db ctx) + 1) user_id d].
Proof.
  intros Hd Hfile Hbind. unfold save_document_from_callback, upload_data.
  rewrite Hd. simpl. rewrite Hfile, Hbind. simpl.
  eexists. split; [reflexivity|]. split; [done|].
  by destruct (negb _).
Qed.

Lemma save_document_saves user_id ctx d :
  upload (user_data ctx) = Some d ->
  truthy (get d "file_id") = true ->
  bind_int (get d "template_id") = Ok () ->
  exists ctx',
    save_document user_id ctx = Ok (END, ctx')
    /\ upload (user_data ctx') = None
    /\ documents (db ctx')
       = documents (db ctx) ++ [row_of_draft (documents_seq (db ctx) + 1) user_id d].
Proof.
  intros Hd Hfile Hbind. unfold save_document, upload_data.
  rewrite Hd. simpl. rewrite Hfile, Hbind. simpl.
  eexists. split; [reflexivity|]. split; [done|].
  by destruct (negb _).
Qed.

Lemma get_insert_ne (d : draft) key key' v :
  key <> key' -> get (<[key := v]> d) key' = get d key'.
Proof. intros H. unfold get. by rewrite lookup_insert_ne. Qed.

Lemma get_insert_eq (d : draft) key v : get (<[key := v]> d) key = v.
Proof. unfold get. by rewrite lookup_insert_eq. Qed.

Lemma get_delete_ne (d : draft) key key' :
  key <> key' -> get (delete key d) key' = get d key'.
Proof. intros H. unfold get. by rewrite lookup_delete_ne. Qed.

Lemma get_default_insert_ne (d : draft) key key' v dflt :
  key <> key' -> get_default (<[key := v]> d) key' dflt = get_default d key' dflt.
Proof. intros H. unfold get_default. by rewrite lookup_insert_ne. Qed.

Lemma get_default_delete_ne (d : draft) key key' dflt :
  key <> key' -> get_default (delete key d) key' dflt = get_default d key' dflt.
Proof. intros H. unfold get_default. by rewrite lookup_delete_ne. Qed.

Lemma show_template_selection_saves user_id ctx d v :
  upload (user_data ctx) = Some d ->
  truthy (get d "file_id") = true ->
  d !! "template_id" = None ->
  user_templates user_id (db ctx) = [] ->
  persisted_without_template user_id d v ctx
    (show_template_selection user_id
       (set_upload (Some (<["end_date" := v]> d)) ctx)).
Proof.
  intros Hd Hfile Htmpl Hnone.
  unfold show_template_selection, call.
  change (result_of (with_connection (get_user_templates user_id)
                       (db (set_upload (Some (<["end_date" := v]> d)) ctx))))
    with (user_templates user_id (db ctx)).
  rewrite Hnone. simpl.
  destruct (save_document_from_callback_saves user_id
              (set_upload (Some (<["end_date" := v]> d)) ctx)
              (<["end_date" := v]> d)) as (ctx' & Hsave & Hup & Hdocs).
  { done. }
  { by rewrite get_insert_ne. }
  { rewrite get_insert_ne by done. unfold get. by rewrite Htmpl. }
  exists ctx'. split; [|split; [done|]].
  - by rewrite <- Hsave.
  - eexists. split; [exact Hdocs|]. simpl.
    rewrite get_insert_eq, !get_insert_ne, get_default_insert_ne by done.
    unfold get at 1. rewrite Htmpl. done.
Qed.

(** The draft the end-date state finds is the one [upload_start] made: the
    handlers before the template selection keep its file and set no
    template. *)
Lemma kept_refl ctx : kept ctx ctx.
Proof. intros d Hd. eauto. Qed.

Lemma kept_send a ctx : kept ctx (send a ctx).
Proof. intros d Hd. eauto. Qed.

Lemma kept_trans ctx1 ctx2 ctx3 : kept ctx1 ctx2 -> kept ctx2 ctx3 -> kept ctx1 ctx3.
Proof.
  intros H12 H23 d Hd. destruct (H12 d Hd) as (d2 & Hd2 & Hf & Ht).
  destruct (H23 d2 Hd2) as (d3 & Hd3 & Hf' & Ht'). exists d3. split; [done|].
  split; congruence.
Qed.

Lemma kept_setitem key v ctx ctx' :
  key <> "file_id" -> key <> "template_id" ->
  upload_setitem key v ctx = Ok ctx' -> kept ctx ctx'.
Proof.
  intros Hf Ht. unfold upload_setitem.
  destruct (upload (user_data ctx)) as [d0|] eqn:Hd0; [|done].
  intros [= <-] d Hd. simplify_eq. eexists. split; [reflexivity|].
  by rewrite !lookup_insert_ne.
Qed.

Lemma kept_pop key ctx ctx' :
  key <> "file_id" -> key <> "template_id" ->
  upload_pop key ctx = Ok ctx' -> kept ctx ctx'.
Proof.
  intros Hf Ht. unfold upload_pop.
  destruct (upload (user_data ctx)) as [d0|] eqn:Hd0; [|done].
  intros [= <-] d Hd. simplify_eq. eexists. split; [reflexivity|].
  by rewrite !lookup_delete_ne.
Qed.

Lemma upload_start_draft cfg user message ctx ctx' :
  upload_start cfg user message ctx = Ok (WAITING_NAME, ctx') ->
  exists d fid,
    upload (user_data ctx') = Some d
    /\ d !! "file_id" = Some (VStr fid)
    /\ d !! "template_id" = None
    /\ (document message = None -> exists f, last (photo message) = Some f /\ fid = file_id f)
    /\ (forall f, document message = Some f -> fid = file_id f).
Proof.
  unfold upload_start, call. cbv zeta.
  destruct (_ <=? _); [done|].
  destruct (document message) as [f|] eqn:Hdoc.
  - destruct (Utils.validate_file cfg (file_name f) (file_size f)) as [[[] msg]|]; [|done..].
    simpl. intros [= <-]. eexists. exists (file_id f).
    split; [reflexivity|]. split; [by simplify_map_eq|]. split; [by simplify_map_eq|].
    split; [done|]. by intros f' [= <-].
  - destruct (last (photo message)) as [f|] eqn:Hlast; [|done].
    destruct (Utils.validate_file cfg _ _) as [[[] msg]|]; [|done..].
    simpl. intros [= <-]. eexists. exists (file_id f).
    split; [reflexivity|]. split; [by simplify_map_eq|]. split; [by simplify_map_eq|].
    split; [|done]. intros _. by exists f.
Qed.

Lemma upload_name_kept cfg built text ctx st ctx' :
  upload_name cfg built text ctx = Ok (st, ctx') -> kept ctx ctx'.
Proof.
  unfold upload_name. cbv zeta. destruct (_ <? 2).
  - intros [= _ <-]. apply kept_send.
  - destruct (upload_setitem _ _ ctx) as [ctx1|] eqn:Hset; [|done]. simpl.
    destruct (DateKeyboard.build_date_keyboard _ _ _ _ _ _) as [keyboard|]; [|done].
    simpl. intros [= _ <-]. eapply kept_trans; [|apply kept_send].
    refine (kept_setitem _ _ _ _ _ _ Hset); done.
Qed.

Lemma upload_start_date_callback_kept cfg today built data ctx st ctx' :
  upload_start_date_callback cfg today built data ctx = Ok (st, ctx') -> kept ctx ctx'.
Proof.
  unfold upload_start_date_callback. cbv zeta.
  assert (Hfinish : forall date,
            (ctx0 ← upload_setitem "start_date" (VDate date) (send answer ctx);
             keyboard ← DateKeyboard.build_date_keyboard cfg built (lit "end")
                          false true true;
             Ok (WAITING_END_DATE,
                 send (edit_message_text (START_DATE_SELECTED date)
                         (Some (InlineKeyboard keyboard))) ctx0))
            = Ok (st, ctx') -> kept ctx ctx').
  { intros date.
    destruct (upload_setitem _ _ (send answer ctx)) as [ctx1|] eqn:Hset; [|done].
    simpl.
    destruct (DateKeyboard.build_date_keyboard _ _ _ _ _ _) as [keyboard|]; [|done].
    simpl. intros [= _ <-].
    eapply kept_trans; [apply (kept_send answer)|].
    eapply kept_trans; [|apply kept_send].
    refine (kept_setitem _ _ _ _ _ _ Hset); done. }
  assert (Hplus : forall n,
            (Datetime.add_days today n ≫= fun date =>
             ctx0 ← upload_setitem "start_date" (VDate date) (send answer ctx);
             keyboard ← DateKeyboard.build_date_keyboard cfg built (lit "end")
                          false true true;
             Ok (WAITING_END_DATE,
                 send (edit_message_text (START_DATE_SELECTED date)
                         (Some (InlineKeyboard keyboard))) ctx0))
            = Ok (st, ctx') -> kept ctx ctx').
  { intros n. destruct (Datetime.add_days today n); [apply Hfinish|done]. }
  assert (Hmanual :
            (ctx0 ← upload_setitem "waiting_manual_start" (VBool true)
                      (send (edit_message_text ENTER_START_DATE None) (send answer ctx));
             Ok (WAITING_START_DATE, ctx0))
            = Ok (st, ctx') -> kept ctx ctx').
  { destruct (upload_setitem _ _ _) as [ctx1|] eqn:Hset; [|done]. simpl.
    intros [= _ <-].
    eapply kept_trans; [apply (kept_send answer)|].
    eapply kept_trans; [apply (kept_send (edit_message_text ENTER_START_DATE None))|].
    refine (kept_setitem _ _ _ _ _ _ Hset); done. }
  assert (Hstay : forall s0, Ok (s0, send answer ctx) = Ok (st, ctx') -> kept ctx ctx').
  { intros s0 [= _ <-]. apply kept_send. }
  repeat match goal with
         | |- (if ?c then _ else _) = _ -> _ =>
             destruct c; [first [exact (Hstay _) | exact (Hfinish _)
                                | exact (Hplus _) | exact Hmanual]|]
         end.
  exact (Hstay _).
Qed.

Lemma upload_start_date_manual_kept cfg built text ctx st ctx' :
  upload_start_date_manual cfg built text ctx = Ok (st, ctx') -> kept ctx ctx'.
Proof.
  unfold upload_start_date_manual.
  destruct (negb _); [intros [= _ <-]; apply kept_refl|].
  destruct (Datetime.first_parse _ _ _) as [[date|]|]; simpl; [| |done].
  - destruct (upload_setitem _ _ ctx) as [ctx1|] eqn:Hset; [|done]. simpl.
    destruct (upload_pop _ ctx1) as [ctx2|] eqn:Hpop; [|done]. simpl.
    destruct (DateKeyboard.build_date_keyboard _ _ _ _ _ _) as [keyboard|]; [|done].
    simpl. intros [= _ <-].
    eapply kept_trans; [refine (kept_setitem _ _ _ _ _ _ Hset); done|].
    eapply kept_trans; [refine (kept_pop _ _ _ _ _ Hpop); done|].
    apply kept_send.
  - intros [= _ <-]. apply kept_send.
Qed.

(** So the draft of a conversation that reaches the end date holds the file
    of the message and no template. *)
Lemma end_date_state_draft cfg user message text today built built' data
    ctx0 ctx1 ctx2 ctx3 :
  upload_start cfg user message ctx0 = Ok (WAITING_NAME, ctx1) ->
  upload_name cfg built text ctx1 = Ok (WAITING_START_DATE, ctx2) ->
  upload_start_date_callback cfg today built' data ctx2 = Ok (WAITING_END_DATE, ctx3) ->
  exists d fid,
    upload (user_data ctx3) = Some d
    /\ d !! "file_id" = Some (VStr fid)
    /\ d !! "template_id" = None.
Proof.
  intros (d1 & fid & Hd1 & Hf & Ht & _)%upload_start_draft
         Hname%upload_name_kept Hstart%upload_start_date_callback_kept.
  destruct (kept_trans _ _ _ Hname Hstart d1 Hd1) as (d3 & Hd3 & Hf3 & Ht3).
  exists d3, fid. split; [done|]. split; congruence.
Qed.

(** C8: for a user with no template, a draft with a file and no template
    chosen is saved at once, with a null template, by each way of choosing
    the end date: skip, a quick option, or a date typed in. *)
Theorem no_templates_skips_selection cfg today user_id ctx d :
  upload (user_data ctx) = Some d ->
  truthy (get d "file_id") = true ->
  d !! "template_id" = None ->
  user_templates user_id (db ctx) = [] ->
  persisted_without_template user_id d VNone ctx
    (upload_end_date_callback today user_id (lit "end|skip") ctx)
  /\ (forall opt n,
        (opt, n) ∈ QUICK_OPTIONS ->
        0 < today -> today + n <= Datetime.MAXORDINAL ->
        persisted_without_template user_id d (VDate (today + n)) ctx
          (upload_end_date_callback today user_id (lit "end|" ++ lit opt) ctx))
  /\ (forall text date,
        truthy (get d "waiting_manual_end") = true ->
        Datetime.first_parse (unicode_decimal cfg) (strip text) Datetime.MANUAL_FORMATS
          = Ok (Some date) ->
        persisted_without_template user_id d (VDate date) ctx
          (upload_end_date_manual cfg user_id text ctx)).
Proof.
  intros Hd Hfile Htmpl Hnone.
  assert (Hsent : forall v a,
            persisted_without_template user_id d v (send a ctx)
              (show_template_selection user_id
                 (set_upload (Some (<["end_date" := v]> d)) (send a ctx))) ->
            persisted_without_template user_id d v ctx
              (show_template_selection user_id
                 (set_upload (Some (<["end_date" := v]> d)) (send a ctx)))).
  { intros v a (ctx' & Hr & Hup & row & Hrow). exists ctx'. eauto. }
  split; [|split].
  - replace (upload_end_date_callback today user_id (lit "end|skip") ctx)
      with (show_template_selection user_id
              (set_upload (Some (<["end_date" := VNone]> d)) (send answer ctx))).
    + apply Hsent. by apply show_template_selection_saves.
    + symmetry.
      cbv -[Datetime.add_days upload_setitem send show_template_selection
            set_upload Z.add insert].
      by rewrite (upload_setitem_ok _ _ _ d).
  - intros opt n Hopt Hlo Hhi.
    rewrite (quick_dates_are_day_offsets_end today user_id ctx d opt n) by done.
    apply Hsent. by apply show_template_selection_saves.
  - intros text date Hflag Hparse.
    unfold upload_end_date_manual, upload_data. rewrite Hd. simpl.
    rewrite Hflag. simpl. rewrite Hparse. simpl.
    rewrite (upload_setitem_ok _ _ _ d Hd). simpl.
    unfold call.
    change (result_of (with_connection (get_user_templates user_id) (db ctx)))
      with (user_templates user_id (db ctx)).
    rewrite Hnone. simpl.
    destruct (save_document_saves user_id
                (set_upload (Some (delete "waiting_manual_end"
                                     (<["end_date" := VDate date]> d))) ctx)
                (delete "waiting_manual_end" (<["end_date" := VDate date]> d)))
      as (ctx' & Hsave & Hup & Hdocs).
    { done. }
    { by rewrite get_delete_ne, get_insert_ne. }
    { rewrite get_delete_ne, get_insert_ne by done. unfold get. by rewrite Htmpl. }
    exists ctx'. split; [|split; [done|]].
    + by rewrite <- Hsave.
    + eexists. split; [exact Hdocs|]. simpl.
      rewrite !get_delete_ne, get_default_delete_ne by done.
      rewrite get_insert_eq, !get_insert_ne, get_default_insert_ne by done.
      unfold get at 1. rewrite Htmpl. done.
Qed.

Lemma no_templates_skips_selection_witness :
  persisted_without_template 100 Examples.sample_draft VNone
    (Examples.sample_context Examples.sample_draft)
    (upload_end_date_callback Examples.sample_today 100 (lit "end|skip")
       (Examples.sample_context Examples.sample_draft)).
Proof.
  apply (no_templates_skips_selection Examples.sample_config Examples.sample_today 100
           (Examples.sample_context Examples.sample_draft) Examples.sample_draft);
    reflexivity.
Defined.

(** *** Dates typed in *)

Lemma ascii_literal (s : string) :
  forallb (fun c => (c <? 128)%N) (lit s) = true ->
  Forall (fun c => (c < 128)%N) (lit s).
Proof.
  intros H. apply Forall_forall. intros c Hc.
  rewrite forallb_forall in H. apply N.ltb_lt, H. by apply list_elem_of_In.
Qed.

(** C7, as stated, fails: 1.1.2024 is none of DD.MM.YYYY, DD/MM/YYYY and
    YYYY-MM-DD to the letter, and it is accepted: the start date handler
    stores 1 January 2024 and moves on to the end date. *)
Lemma manual_date_entry_not_literal :
  is_literal_format (strip (lit "1.1.2024")) = false
  /\ exists ctx',
       upload_start_date_manual Examples.sample_config Examples.sample_today
         (lit "1.1.2024")
         (Examples.sample_context
            (<["waiting_manual_start" := VBool true]> Examples.sample_draft))
       = Ok (WAITING_END_DATE, ctx')
       /\ upload (user_data ctx')
          = Some (delete "waiting_manual_start"
                    (<["start_date" := VDate (Datetime.ymd2ord 2024 1 1)]>
                       (<["waiting_manual_start" := VBool true]>
                          Examples.sample_draft))).
Proof. split; [reflexivity|]. eexists. split; reflexivity. Qed.

(** C7 (amended): a typed date is parsed with the three formats in their
    order and the first that parses gives the date.  Among ASCII texts the
    ones that parse are exactly the ways to write a calendar date as
    day.month.year, day/month/year or year-month-day with a year of four
    digits, a month of two digits or of the one digit 1 to 9, and a day of
    two digits, of the one digit 1 to 9, or of a blank and that digit; any
    text that parses is a day, a month and a year field laid out as one of
    the formats.  01.01.2024, 01/01/2024, 2024-01-01 and 1.1.2024 give the
    same date.  A text that none of the formats parses is answered with the
    prompt again, and the state, the session and the database stay as they
    were; a text that parses is stored as the date it gives. *)
Theorem manual_date_entry cfg built user_id text ctx d :
  (forall c, (c < 128)%N -> unicode_decimal cfg c = Datetime.ascii_decimal c) ->
  upload (user_data ctx) = Some d ->
  let dec := unicode_decimal cfg in
  let parse t := Datetime.first_parse dec t Datetime.MANUAL_FORMATS in
  (forall t date,
     parse t = Ok (Some date) <->
     exists i fmt,
       Datetime.MANUAL_FORMATS !! i = Some fmt
       /\ Datetime.strptime dec t fmt = Ok date
       /\ forall j fmt', (j < i)%nat -> Datetime.MANUAL_FORMATS !! j = Some fmt' ->
                         Datetime.strptime dec t fmt' = Raise ValueError)
  /\ (forall t date,
        Forall (fun c => (c < 128)%N) t ->
        parse t = Ok (Some date) <-> written t date)
  /\ (forall t date, parse t = Ok (Some date) -> layout dec t date)
  /\ (parse (lit "01.01.2024") = Ok (Some (Datetime.ymd2ord 2024 1 1))
      /\ parse (lit "01/01/2024") = Ok (Some (Datetime.ymd2ord 2024 1 1))
      /\ parse (lit "2024-01-01") = Ok (Some (Datetime.ymd2ord 2024 1 1))
      /\ parse (lit "1.1.2024") = Ok (Some (Datetime.ymd2ord 2024 1 1))
      /\ parse (lit "Jan 1 2024") = Ok None)
  /\ (parse (strip text) = Ok None \/ exists date, parse (strip text) = Ok (Some date))
  /\ (parse (strip text) = Ok None ->
      (truthy (get d "waiting_manual_start") = true ->
       exists ctx',
         upload_start_date_manual cfg built text ctx = Ok (WAITING_START_DATE, ctx')
         /\ user_data ctx' = user_data ctx
         /\ db ctx' = db ctx
         /\ sent ctx' = sent ctx ++ [reply_text BAD_START_DATE None])
      /\ (truthy (get d "waiting_manual_end") = true ->
          exists ctx',
            upload_end_date_manual cfg user_id text ctx = Ok (WAITING_END_DATE, ctx')
            /\ user_data ctx' = user_data ctx
            /\ db ctx' = db ctx
            /\ sent ctx' = sent ctx ++ [reply_text BAD_END_DATE None]))
  /\ (forall date,
        parse (strip text) = Ok (Some date) ->
        (truthy (get d "waiting_manual_start") = true ->
         (0 < built -> built + 1825 <= Datetime.MAXORDINAL ->
          exists keyboard ctx',
            DateKeyboard.build_date_keyboard cfg built (lit "end") false true true
            = Ok keyboard
            /\ upload_start_date_manual cfg built text ctx = Ok (WAITING_END_DATE, ctx')
            /\ upload (user_data ctx')
               = Some (delete "waiting_manual_start" (<["start_date" := VDate date]> d))
            /\ creating_template (user_data ctx') = creating_template (user_data ctx)
            /\ db ctx' = db ctx
            /\ sent ctx' = sent ctx ++ [reply_text (START_DATE_SELECTED date)
                                          (Some (InlineKeyboard keyboard))])
         /\ (Datetime.MAXORDINAL < built + 1825 ->
             upload_start_date_manual cfg built text ctx = Raise OverflowError))
        /\ (truthy (get d "waiting_manual_end") = true ->
            exists ctx1,
              upload (user_data ctx1)
              = Some (delete "waiting_manual_end" (<["end_date" := VDate date]> d))
              /\ creating_template (user_data ctx1) = creating_template (user_data ctx)
              /\ db ctx1 = db ctx
              /\ sent ctx1 = sent ctx
              /\ upload_end_date_manual cfg user_id text ctx
                 = match user_templates user_id (db ctx) with
                   | [] => save_document user_id ctx1
                   | templates =>
                       keyboard ← Utils.build_templates_keyboard templates 0 8 true;
                       Ok (WAITING_TEMPLATE,
                           send (reply_text (MESSAGES "upload_select_template")
                                   (Some (InlineKeyboard keyboard))) ctx1)
                   end)).
Proof.
  intros Hascii Hd dec parse.
  split; [intros; apply DatetimeSpec.first_parse_some|].
  split.
  { intros t date Ht. unfold parse, dec.
    rewrite (DatetimeSpec.first_parse_ascii _ _ _ Hascii Ht).
    apply FormattingSpec.first_parse_written. }
  split; [intros t date; apply DatetimeSpec.first_parse_layout|].
  split.
  { unfold parse, dec.
    rewrite !(DatetimeSpec.first_parse_ascii _ _ _ Hascii)
      by (by apply ascii_literal).
    by vm_compute. }
  split; [apply DatetimeSpec.first_parse_total|].
  split.
  - intros Hnone. split; intros Hflag; eexists.
    + unfold upload_start_date_manual, upload_data. rewrite Hd. simpl.
      rewrite Hflag. simpl. fold dec. fold (parse (strip text)). rewrite Hnone.
      by repeat split.
    + unfold upload_end_date_manual, upload_data. rewrite Hd. simpl.
      rewrite Hflag. simpl. fold dec. fold (parse (strip text)). rewrite Hnone.
      by repeat split.
  - intros date Hsome. split; intros Hflag.
    + assert (Hstart : forall k : result Utils.InlineKeyboardMarkup,
                DateKeyboard.build_date_keyboard cfg built (lit "end") false true true = k ->
                upload_start_date_manual cfg built text ctx
                = (keyboard ← k;
                   Ok (WAITING_END_DATE,
                       send (reply_text (START_DATE_SELECTED date)
                               (Some (InlineKeyboard keyboard)))
                         (set_upload
                            (Some (delete "waiting_manual_start"
                                     (<["start_date" := VDate date]> d))) ctx)))).
      { intros k <-. unfold upload_start_date_manual, upload_data. rewrite Hd.
        change (default ∅ (Some d)) with d. rewrite Hflag. cbn [negb]. cbv zeta.
        fold dec. fold (parse (strip text)). rewrite Hsome. cbn [mbind result_bind].
        by rewrite (upload_setitem_ok _ _ _ d Hd). }
      split.
      * intros Hlo Hhi.
        destruct (DateKeyboardFacts.build_date_keyboard_built cfg (lit "end") built
                    false true Hlo Hhi) as (keyboard & Hkeyboard & _).
        exists keyboard. eexists. split; [exact Hkeyboard|].
        split; [by rewrite (Hstart _ Hkeyboard)|]. by repeat split.
      * intros Hhi. rewrite (Hstart _ eq_refl).
        by rewrite DateKeyboardFacts.build_date_keyboard_overflow.
    + exists (set_upload
                (Some (delete "waiting_manual_end" (<["end_date" := VDate date]> d))) ctx).
      repeat split.
      unfold upload_end_date_manual, upload_data. rewrite Hd. simpl.
      rewrite Hflag. simpl. fold dec. fold (parse (strip text)). rewrite Hsome. simpl.
      rewrite (upload_setitem_ok _ _ _ d Hd). simpl. unfold call.
      change (result_of (with_connection (get_user_templates user_id) (db ctx)))
        with (user_templates user_id (db ctx)).
      by destruct (user_templates user_id (db ctx)).
Qed.

Lemma manual_date_entry_witness :
  (exists ctx',
     upload_start_date_manual Examples.sample_config Examples.sample_today
       (lit "Jan 1 2024")
       (Examples.sample_context
          (<["waiting_manual_start" := VBool true]> Examples.sample_draft))
     = Ok (WAITING_START_DATE, ctx')
     /\ user_data ctx'
        = user_data (Examples.sample_context
                       (<["waiting_manual_start" := VBool true]> Examples.sample_draft))
     /\ db ctx' = Examples.sample_db
     /\ sent ctx' = [reply_text BAD_START_DATE None])
  /\ written (lit "1.1.2024") (Datetime.ymd2ord 2024 1 1).
Proof.
  destruct (manual_date_entry Examples.sample_config Examples.sample_today 100
              (lit "Jan 1 2024")
              (Examples.sample_context
                 (<["waiting_manual_start" := VBool true]> Examples.sample_draft))
              (<["waiting_manual_start" := VBool true]> Examples.sample_draft))
    as (_ & Hw & _ & (_ & _ & _ & Hs & _) & _ & H & _).
  - intros c _. reflexivity.
  - reflexivity.
  - split.
    + apply H; reflexivity.
    + apply Hw; [by apply ascii_literal|exact Hs].
Defined.

(** *** The whole conversation *)

(** A file, the name Passport, the start date today, the end date +1y, no
    template owned: the document is saved with start today, end today + 365
    and a null template, and the conversation ends. *)
Example upload_end_to_end :
  let cfg := {| MAX_DOCUMENTS_PER_USER := 10;
                ALLOWED_EXTENSIONS := ALLOWED_EXTENSIONS Examples.sample_config;
                MAX_FILE_SIZE := MAX_FILE_SIZE Examples.sample_config;
                REMINDER_DAYS_BEFORE := REMINDER_DAYS_BEFORE Examples.sample_config;
                unicode_decimal := Datetime.ascii_decimal;
                unicode_lower := Examples.ascii_lower;
                strftime_date := strftime_date Examples.sample_config |} in
  let today := Examples.sample_today in
  let file := {| file_id := lit "file-9"; file_unique_id := lit "u9";
                 file_name := Some (lit "Passport.PDF"); file_size := Some 1000 |} in
  let ctx0 := {| user_data := {| upload := None; creating_template := None |};
                 db := Examples.sample_db; sent := [] |} in
  exists ctx1 ctx2 ctx3 ctx4,
    upload_start cfg Examples.sample_user {| document := Some file; photo := [] |} ctx0
      = Ok (WAITING_NAME, ctx1)
    /\ upload_name cfg today (lit " Passport ") ctx1 = Ok (WAITING_START_DATE, ctx2)
    /\ upload_start_date_callback cfg today today (lit "start|today") ctx2
       = Ok (WAITING_END_DATE, ctx3)
    /\ upload_end_date_callback today 100 (lit "end|+1y") ctx3 = Ok (END, ctx4)
    /\ upload (user_data ctx4) = None
    /\ last (documents (db ctx4))
       = Some {| d_id := 3; d_user_id := 100; d_name := VStr (lit "Passport");
                 d_file_id := VStr (lit "file-9");
                 d_file_name := VStr (lit "Passport.PDF");
                 d_file_type := VStr (lit "pdf");
                 d_start_date := VDate today; d_end_date := VDate (today + 365);
                 d_template_id := VNone; d_notes := VNone |}.
Proof.
  intros cfg today file ctx0. do 4 eexists.
  split; [reflexivity|]. split; [reflexivity|]. split; [reflexivity|].
  split; [reflexivity|]. split; reflexivity.
Qed.

End DocumentsSpec.

(** * Further properties *)

(** ** The reminder job: what a run leaves behind *)

Module JobsMore.
Import Database Jobs JobsNotions JobsTrace.

(** Induction over the steps of a run: a property of the start that every
    loop body keeps, for a row its threshold matches in the database the run
    started on, holds when the run ends. *)
Lemma send_reminders_ind cfg delivers today d n (P : job_state -> Prop) :
  P {| db := d; calls := n; trace := []; sent_count := 0 |} ->
  (forall st days row,
     days ∈ REMINDER_DAYS_BEFORE cfg -> row ∈ expiring today days d ->
     run_inv delivers d n st -> P st -> P (remind delivers days st row)) ->
  P (send_reminders cfg delivers today d n).
Proof.
  intros Hstart Hstep. unfold send_reminders.
  assert (Hrows : forall days rows st,
            days ∈ REMINDER_DAYS_BEFORE cfg ->
            (forall row, row ∈ rows -> row ∈ expiring today days d) ->
            run_inv delivers d n st -> P st ->
            P (fold_left (remind delivers days) rows st)).
  { intros days rows. induction rows as [|row rows IH]; intros st Hdays Hrows Hinv HP;
      simpl; [done|].
    apply IH; [done| |by apply JobsSpec.run_inv_remind|].
    - intros r Hr. apply Hrows. by right.
    - apply Hstep; try done. apply Hrows. by left. }
  assert (Hall : forall thresholds st,
            (forall days, days ∈ thresholds -> days ∈ REMINDER_DAYS_BEFORE cfg) ->
            run_inv delivers d n st -> P st ->
            P (fold_left (remind_threshold delivers today) thresholds st)).
  { intros thresholds. induction thresholds as [|days l IH]; intros st Hsub Hinv HP;
      simpl; [done|].
    apply IH.
    - intros k Hk. apply Hsub. by right.
    - by apply JobsSpec.run_inv_threshold.
    - unfold remind_threshold. apply Hrows; try done.
      + apply Hsub. by left.
      + intros row Hrow.
        change (row ∈ expiring today days (db st)) in Hrow.
        by rewrite (JobsSpec.expiring_same today days (db st) d) in Hrow
          by apply Hinv. }
  apply Hall; [done|apply JobsSpec.run_inv_start|done].
Qed.

Lemma mark_absent d doc_id days :
  in_ledger d doc_id days = false ->
  mark d doc_id days
  = {| users := users d; templates := templates d; documents := documents d;
       reminders_sent := reminders_sent d ++
         [{| document_id := doc_id; days_before := days |}];
       documents_seq := documents_seq d |}.
Proof.
  rewrite JobsSpec.in_ledger_unfold, JobsSpec.mark_unfold. simpl. by intros ->.
Qed.

Lemma in_ledger_elem d doc_id days :
  {| document_id := doc_id; days_before := days |} ∈ reminders_sent d ->
  in_ledger d doc_id days = true.
Proof.
  rewrite JobsSpec.in_ledger_unfold. intros H%list_elem_of_In.
  apply existsb_exists. eexists. split; [exact H|].
  unfold is_reminder. simpl. by rewrite !Z.eqb_refl.
Qed.

(** X1: a run changes nothing but the ledger, and the ledger only by
    appending: the users, templates and documents stay as they were, the
    ledger is the old one followed by the rows the run wrote, their number
    is the count the run logs at its end (one per delivery), and no
    (document, threshold) pair comes to stand twice in it. *)
Theorem send_reminders_appends_to_ledger cfg delivers today d n :
  let s := send_reminders cfg delivers today d n in
  users (db s) = users d
  /\ templates (db s) = templates d
  /\ documents (db s) = documents d
  /\ documents_seq (db s) = documents_seq d
  /\ reminders_sent (db s) = reminders_sent d ++ omap marked (trace s)
  /\ sent_count s = Z.of_nat (length (omap marked (trace s)))
  /\ length (omap marked (trace s))
     = length (List.filter (fun e => bool_decide (outcome e = Some true)) (trace s))
  /\ (NoDup (reminders_sent d) -> NoDup (reminders_sent (db s))).
Proof.
  intros s. subst s.
  apply (send_reminders_ind cfg delivers today d n (fun s =>
    users (db s) = users d
    /\ templates (db s) = templates d
    /\ documents (db s) = documents d
    /\ documents_seq (db s) = documents_seq d
    /\ reminders_sent (db s) = reminders_sent d ++ omap marked (trace s)
    /\ sent_count s = Z.of_nat (length (omap marked (trace s)))
    /\ length (omap marked (trace s))
       = length (List.filter (fun e => bool_decide (outcome e = Some true)) (trace s))
    /\ (NoDup (reminders_sent d) -> NoDup (reminders_sent (db s))))).
  - simpl. rewrite app_nil_r. repeat split; done.
  - intros st days row _ _ _ (Hu & Ht & Hd & Hq & Hr & Hc & Hl & Hn).
    destruct (JobsSpec.remind_cases delivers days st row)
      as [[_ ->]|[(Hnew & _ & chat & m & ->)|(_ & _ & chat & ->)]]; [done| |].
    + rewrite (mark_absent _ _ _ Hnew). simpl.
      rewrite omap_app, List.filter_app, !length_app. simpl.
      repeat split; try done.
      * rewrite Hr. by rewrite <- app_assoc.
      * rewrite Hc. lia.
      * lia.
      * intros Hnd. apply NoDup_app. split; [by apply Hn|]. split.
        -- intros x Hx [->|[]%elem_of_nil]%elem_of_cons.
           apply in_ledger_elem in Hx. congruence.
        -- apply NoDup_singleton.
    + simpl. rewrite omap_app, List.filter_app, !length_app. simpl.
      rewrite app_nil_r, !Nat.add_0_r. repeat split; done.
Qed.

Lemma expires_in_true today days dr :
  expires_in today days dr = true <-> d_end_date dr = VDate (today + days).
Proof.
  unfold expires_in. destruct (d_end_date dr) as [| | | |e]; try (split; done).
  rewrite Z.eqb_eq. split; [intros <-; f_equal; lia|intros [= ->]; lia].
Qed.

(** The rows a threshold matches: a document that ends in [days] days,
    joined with the user who owns it. *)
Lemma expiring_elem today days d row :
  row ∈ expiring today days d <->
  doc row ∈ documents d
  /\ d_end_date (doc row) = VDate (today + days)
  /\ exists u, u ∈ users d /\ telegram_id u = d_user_id (doc row)
               /\ user_telegram_id row = telegram_id u
               /\ user_first_name row = first_name u.
Proof.
  unfold expiring, get_expiring_documents, with_connection, result_of.
  cbv [select store]. simpl.
  rewrite list_elem_of_In, in_flat_map. split.
  - intros (dr & [Hdr Hexp]%filter_In & (u & <- & [Hu Hown]%filter_In)%in_map_iff).
    simpl. apply expires_in_true in Hexp. apply Z.eqb_eq in Hown.
    split; [by apply list_elem_of_In|]. split; [done|].
    exists u. split; [by apply list_elem_of_In|done].
  - intros (Hdr & Hexp & u & Hu & Hown & Hchat & Hname).
    exists (doc row). split.
    + apply filter_In. split; [by apply list_elem_of_In|]. by apply expires_in_true.
    + apply in_map_iff. exists u. split.
      * destruct row; simpl in *. by subst.
      * apply filter_In. split; [by apply list_elem_of_In|].
        unfold is_user. by apply Z.eqb_eq.
Qed.

(** The loop body, with the chat and the message it sends. *)
Lemma remind_events delivers days st row :
  let doc_id := d_id (doc row) in
  let chat := user_telegram_id row in
  let m := {| m_name := d_name (doc row); m_end_date := d_end_date (doc row);
              m_urgency := urgency_of days |} in
  (in_ledger (db st) doc_id days = true /\ remind delivers days st row = st)
  \/ (in_ledger (db st) doc_id days = false
      /\ (trace (remind delivers days st row)
          = trace st ++ [Delivered doc_id days chat m; Marked doc_id days]
          \/ trace (remind delivers days st row)
             = trace st ++ [Failed doc_id days chat])).
Proof.
  intros doc_id chat m. unfold remind. fold doc_id.
  change (result_of (with_connection (is_reminder_sent doc_id days) (db st)))
    with (in_ledger (db st) doc_id days).
  destruct (in_ledger (db st) doc_id days); [by left|right].
  split; [done|]. destruct (delivers (calls st)); [by left|by right].
Qed.

Lemma run_justified cfg delivers today d n :
  Forall (justified cfg today d) (trace (send_reminders cfg delivers today d n)).
Proof.
  apply (send_reminders_ind cfg delivers today d n
           (fun s => Forall (justified cfg today d) (trace s))); [constructor|].
  intros st days row Hdays Hrow Hinv HP.
  destruct (remind_events delivers days st row) as [[_ ->]|[Hnew Hev]]; [done|].
  assert (Hold : in_ledger d (d_id (doc row)) days = false).
  { rewrite (inv_ledger _ _ _ _ Hinv) in Hnew.
    by apply orb_false_iff in Hnew as [? _]. }
  destruct Hev as [-> | ->]; apply Forall_app; (split; [done|]);
    repeat constructor; try done; exists days, row; repeat split; done.
Qed.

(** X2: a run delivers only what it should.  Every message delivered is
    for a configured threshold and a pair the ledger did not hold, about a
    document that ends exactly that many days after today, and it goes to
    the chat of the user who owns the document, who has a users row. *)
Theorem deliveries_are_matched cfg delivers today d n doc_id days chat m :
  Delivered doc_id days chat m ∈ trace (send_reminders cfg delivers today d n) ->
  days ∈ REMINDER_DAYS_BEFORE cfg
  /\ in_ledger d doc_id days = false
  /\ exists dr u,
       dr ∈ documents d /\ u ∈ users d
       /\ d_id dr = doc_id
       /\ d_end_date dr = VDate (today + days)
       /\ d_user_id dr = chat /\ telegram_id u = chat
       /\ m = {| m_name := d_name dr; m_end_date := d_end_date dr;
                 m_urgency := urgency_of days |}.
Proof.
  intros Hin.
  pose proof (run_justified cfg delivers today d n) as Hall.
  rewrite Forall_forall in Hall.
  destruct (Hall _ Hin) as [(k & row & Hk & Hrow & Hab) Hnew].
  simpl in Hab, Hnew. destruct Hab as (-> & -> & -> & ->).
  apply expiring_elem in Hrow as (Hdr & Hend & u & Hu & Hown & Hchat & _).
  split; [done|]. split; [done|].
  exists (doc row), u. repeat split; try done; congruence.
Qed.

Lemma deliveries_are_matched_witness :
  7 ∈ REMINDER_DAYS_BEFORE Examples.sample_config
  /\ in_ledger Examples.sample_db 1 7 = false
  /\ exists dr u,
       dr ∈ documents Examples.sample_db /\ u ∈ users Examples.sample_db
       /\ d_id dr = 1
       /\ d_end_date dr = VDate (Examples.sample_today + 7)
       /\ d_user_id dr = 100 /\ telegram_id u = 100
       /\ {| m_name := VStr (lit "Passport");
             m_end_date := VDate (Examples.sample_today + 7);
             m_urgency := WITHIN_WEEK 7 |}
          = {| m_name := d_name dr; m_end_date := d_end_date dr;
               m_urgency := urgency_of 7 |}.
Proof.
  apply (deliveries_are_matched Examples.sample_config (fun _ => true)
           Examples.sample_today Examples.sample_db 0 1 7 100).
  apply list_elem_of_In. left. reflexivity.
Defined.

Lemma NoDup_map_inj {A B} (f : A -> B) (l : list A) x y :
  NoDup (map f l) -> x ∈ l -> y ∈ l -> f x = f y -> x = y.
Proof.
  induction l as [|a l IH]; simpl; [by intros _ ?%elem_of_nil|].
  intros [Hnot Hnd]%NoDup_cons [->|Hx]%elem_of_cons [->|Hy]%elem_of_cons Heq; try done.
  - exfalso. apply Hnot. rewrite Heq. apply list_elem_of_In, in_map.
    by apply list_elem_of_In.
  - exfalso. apply Hnot. rewrite <- Heq. apply list_elem_of_In, in_map.
    by apply list_elem_of_In.
  - by apply IH.
Qed.

Lemma delivered_document cfg delivers today d n doc_id days chat m :
  In (Delivered doc_id days chat m) (trace (send_reminders cfg delivers today d n)) ->
  exists dr, dr ∈ documents d /\ d_id dr = doc_id
             /\ d_end_date dr = VDate (today + days).
Proof.
  intros Hin%list_elem_of_In.
  pose proof (run_justified cfg delivers today d n) as Hall.
  rewrite Forall_forall in Hall.
  destruct (Hall _ Hin) as [(k & row & _ & Hrow & Hab) _].
  simpl in Hab. destruct Hab as (-> & -> & _).
  apply expiring_elem in Hrow as (Hdr & Hend & _).
  by exists (doc row).
Qed.

(** A run all of whose readings of the clock give the same day. *)
Lemma remind_thresholds_same_day delivers clock today thresholds i st :
  (forall j, (i <= j < i + length thresholds)%nat -> clock j = today) ->
  remind_thresholds delivers clock i thresholds st
  = fold_left (remind_threshold delivers today) thresholds st.
Proof.
  revert i st. induction thresholds as [|days l IH]; intros i st Hclock; [done|].
  cbn [remind_thresholds fold_left length] in *.
  rewrite (Hclock i) by lia. apply IH. intros j Hj. apply Hclock. lia.
Qed.

Lemma send_reminders_same_day cfg delivers clock today d n :
  (forall i, (i < length (REMINDER_DAYS_BEFORE cfg))%nat -> clock i = today) ->
  send_reminders_clock cfg delivers clock d n = send_reminders cfg delivers today d n.
Proof.
  intros Hclock. apply remind_thresholds_same_day. intros j Hj. apply Hclock. lia.
Qed.

(** X3: when the document ids are unique (the primary key) and every
    [date.today()] of the run, one for each threshold, returns the same
    day, a run delivers at most one message about a document, all
    thresholds taken together: only one threshold can equal the days its
    end date is away. *)
Theorem one_reminder_per_document cfg delivers clock today d n doc_id :
  (forall i, (i < length (REMINDER_DAYS_BEFORE cfg))%nat -> clock i = today) ->
  NoDup (map d_id (documents d)) ->
  (length (List.filter (concerns doc_id)
             (trace (send_reminders_clock cfg delivers clock d n))) <= 1)%nat.
Proof.
  intros Hclock Hids. rewrite (send_reminders_same_day _ _ _ today) by done.
  set (s := send_reminders cfg delivers today d n).
  destruct (List.filter (concerns doc_id) (trace s)) as [|e0 rest] eqn:Hf;
    [simpl; lia|].
  assert (He0 : In e0 (List.filter (concerns doc_id) (trace s)))
    by (rewrite Hf; by left).
  apply filter_In in He0 as [He0 Hc0].
  destruct e0 as [d0 k chat0 m0| |]; [|done..].
  simpl in Hc0. apply Z.eqb_eq in Hc0 as ->.
  apply delivered_document in He0 as (dr0 & Hdr0 & Hid0 & Hend0).
  rewrite <- Hf.
  rewrite (List.filter_ext_in (concerns doc_id) (is_delivery doc_id k)).
  - apply (inv_once _ _ _ _ (JobsSpec.run_inv_send_reminders cfg delivers today d n)).
  - intros e He. destruct e as [d1 k1 chat1 m1| |]; [|done..]. simpl.
    destruct (Z.eqb_spec d1 doc_id) as [->|]; [|done]. simpl.
    apply delivered_document in He as (dr1 & Hdr1 & Hid1 & Hend1).
    assert (dr1 = dr0) as ->
      by (apply (NoDup_map_inj d_id (documents d)); [done..|congruence]).
    rewrite Hend0 in Hend1. injection Hend1 as Hk.
    symmetry. apply Z.eqb_eq. lia.
Qed.

Lemma one_reminder_per_document_witness :
  (length (List.filter (concerns 1)
             (trace (send_reminders_clock Examples.sample_config (fun _ => true)
                       (fun _ => Examples.sample_today) Examples.sample_db 0))) <= 1)%nat.
Proof.
  apply (one_reminder_per_document _ _ _ Examples.sample_today).
  - reflexivity.
  - simpl. apply NoDup_cons. split.
    + intros [H|H%elem_of_nil]%elem_of_cons; [discriminate|done].
    + apply NoDup_singleton.
Defined.

(** Without the same day the bound fails.  With the thresholds 1 and 0 in
    this order and a run that starts on the eve of the end date and reads
    the clock for the second threshold after midnight, the document is
    announced twice: as ending tomorrow and as ending today. *)
Example reminders_across_midnight :
  let cfg := {| MAX_DOCUMENTS_PER_USER := MAX_DOCUMENTS_PER_USER Examples.sample_config;
                ALLOWED_EXTENSIONS := ALLOWED_EXTENSIONS Examples.sample_config;
                MAX_FILE_SIZE := MAX_FILE_SIZE Examples.sample_config;
                REMINDER_DAYS_BEFORE := [1; 0];
                unicode_decimal := unicode_decimal Examples.sample_config;
                unicode_lower := unicode_lower Examples.sample_config;
                strftime_date := strftime_date Examples.sample_config |} in
  let clock i := match i with
                 | O => Examples.sample_today + 6
                 | S _ => Examples.sample_today + 7
                 end in
  omap (fun e => match e with
                 | Delivered doc_id days _ _ => Some (doc_id, days)
                 | _ => None
                 end)
    (trace (send_reminders_clock cfg (fun _ => true) clock Examples.sample_db 0))
  = [(1, 1); (1, 0)].
Proof. reflexivity. Qed.

Lemma no_failures_among (delivers : nat -> bool) tr l doc_id days :
  Forall (fun k => delivers k = true) l ->
  omap outcome tr = map delivers l ->
  failures doc_id days tr = 0%nat.
Proof.
  intros Hall. revert l Hall. induction tr as [|e tr IH]; intros l Hall Heq; [done|].
  destruct e as [? ? ? ?|? ?|? ? ?]; simpl in Heq.
  - destruct l as [|k l]; [discriminate|]. simpl in Heq.
    injection Heq as _ Heq. apply Forall_cons in Hall as [_ Hall].
    unfold failures. simpl. by apply (IH l).
  - unfold failures. simpl. by apply (IH l).
  - destruct l as [|k l]; [discriminate|]. simpl in Heq.
    injection Heq as Hk _. apply Forall_cons in Hall as [Hk' _]. congruence.
Qed.

(** X4: a delivery that failed is made up for by the next run.  If a run
    tried a pair, failed and delivered nothing for it, the pair is not in
    the ledger, and a following run on the same day whose calls of the
    transport succeed delivers it exactly once and records it. *)
Theorem failed_reminder_is_retried cfg delivers today d n doc_id days :
  let s1 := send_reminders cfg delivers today d n in
  let s2 := send_reminders cfg delivers today (db s1) (calls s1) in
  (0 < failures doc_id days (trace s1))%nat ->
  deliveries doc_id days (trace s1) = 0%nat ->
  (forall k, (calls s1 <= k)%nat -> delivers k = true) ->
  in_ledger (db s1) doc_id days = false
  /\ deliveries doc_id days (trace s2) = 1%nat
  /\ in_ledger (db s2) doc_id days = true.
Proof.
  intros s1 s2 Hfail Hnone Hlater.
  pose proof (JobsSpec.run_inv_send_reminders cfg delivers today d n) as H1.
  pose proof (JobsSpec.run_inv_send_reminders cfg delivers today (db s1) (calls s1)) as H2.
  fold s1 in H1. fold s2 in H2.
  (* the failed attempt was for a matched row *)
  unfold failures in Hfail.
  destruct (List.filter (is_failure doc_id days) (trace s1)) as [|e rest] eqn:Hf;
    [simpl in Hfail; lia|].
  assert (He : In e (List.filter (is_failure doc_id days) (trace s1)))
    by (rewrite Hf; by left).
  apply filter_In in He as [He Hise].
  destruct e as [| |d0 k0 chat0]; [done..|]. simpl in Hise.
  apply andb_true_iff in Hise as [->%Z.eqb_eq ->%Z.eqb_eq].
  pose proof (run_justified cfg delivers today d n) as Hall.
  rewrite Forall_forall in Hall. apply list_elem_of_In in He.
  destruct (Hall _ He) as [(k & row & Hk & Hrow & Hab) Hold].
  simpl in Hab, Hold. destruct Hab as (-> & -> & _).
  assert (Hnot1 : in_ledger (db s1) (d_id (doc row)) k = false).
  { rewrite (inv_ledger _ _ _ _ H1), Hold, Hnone. done. }
  split; [done|].
  assert (Hrow1 : row ∈ expiring today k (db s1)).
  { rewrite (JobsSpec.expiring_same today k (db s1) d); [done|apply H1..]. }
  assert (Hin2 : in_ledger (db s2) (d_id (doc row)) k = true).
  { destruct (JobsSpec.handled_send_reminders cfg delivers today (db s1) (calls s1)
                k row Hk Hrow1) as [Hin|Hf2]; [done|].
    fold s2 in Hf2. destruct (inv_calls _ _ _ _ H2) as [_ Hcalls].
    assert (Hok : Forall (fun j => delivers j = true)
                    (seq (calls s1) (calls s2 - calls s1))).
    { apply Forall_forall. intros j Hj%list_elem_of_In%in_seq. apply Hlater. lia. }
    rewrite (no_failures_among delivers _ _ (d_id (doc row)) k Hok Hcalls) in Hf2.
    lia. }
  split; [|done].
  pose proof (inv_once _ _ _ _ H2 (d_id (doc row)) k) as Honce.
  rewrite (inv_ledger _ _ _ _ H2), Hnot1 in Hin2. simpl in Hin2.
  apply Nat.ltb_lt in Hin2. lia.
Qed.

Lemma failed_reminder_is_retried_witness :
  let delivers := fun k => negb (k =? 0)%nat in
  let s1 := send_reminders Examples.sample_config delivers Examples.sample_today
              Examples.sample_db 0 in
  let s2 := send_reminders Examples.sample_config delivers Examples.sample_today
              (db s1) (calls s1) in
  in_ledger (db s1) 1 7 = false
  /\ deliveries 1 7 (trace s2) = 1%nat
  /\ in_ledger (db s2) 1 7 = true.
Proof.
  apply (failed_reminder_is_retried Examples.sample_config
           (fun k => negb (k =? 0)%nat) Examples.sample_today Examples.sample_db 0 1 7).
  - vm_compute. lia.
  - reflexivity.
  - intros [|k] Hk; [vm_compute in Hk; lia|reflexivity].
Defined.

End JobsMore.

(** ** database.py: users, documents and templates *)

Module DatabaseMoreSpec.
Import Database DatabaseMore DatabaseNotions.

Ltac run_sql :=
  unfold with_connection, result_of, db_of, journal_of;
  cbv [mbind Sql_bind select exec mret Sql_ret store journal].

Lemma filter_unique_key {A} (key : A -> Z) (k : Z) (l : list A) x :
  NoDup (map key l) ->
  head (List.filter (fun y => key y =? k) l) = Some x ->
  List.filter (fun y => key y =? k) l = [x].
Proof.
  induction l as [|a l IH]; simpl; [done|].
  intros [Hnot Hnd]%NoDup_cons. destruct (Z.eqb_spec (key a) k) as [Hk|Hk]; simpl.
  - intros [= ->]. f_equal.
    destruct (List.filter _ l) as [|b rest] eqn:Hf; [done|]. exfalso.
    assert (Hb : In b (List.filter (fun y => key y =? k) l)) by (rewrite Hf; by left).
    apply filter_In in Hb as [Hb Hkb%Z.eqb_eq].
    apply Hnot. rewrite Hk, <- Hkb. by apply list_elem_of_In, in_map.
  - by apply IH.
Qed.

Lemma filter_nil_key {A} (key : A -> Z) (k : Z) (l : list A) :
  head (List.filter (fun y => key y =? k) l) = None -> k ∉ map key l.
Proof.
  induction l as [|a l IH]; simpl; [intros _ ?%elem_of_nil; done|].
  destruct (Z.eqb_spec (key a) k) as [Hk|Hk]; simpl; [done|].
  intros Hh [?|?]%elem_of_cons; [congruence|by apply IH].
Qed.

Lemma filter_none {A} (f : A -> bool) (l : list A) :
  head (List.filter f l) = None -> List.filter f l = [].
Proof. by destruct (List.filter f l). Qed.

(** X5: get_or_create_user keeps one row per Telegram id.  On a table with
    unique ids, the table afterwards has unique ids and exactly one row for
    the id, holding the names passed; the other users' rows and the other
    tables are as before.  The row returned for a known user is the row as
    it was before the update, so it carries the old names. *)
Theorem get_or_create_user_upserts tid uname fname d :
  NoDup (map telegram_id (users d)) ->
  let r := with_connection (get_or_create_user tid uname fname) d in
  let row := {| telegram_id := tid; username := uname; first_name := fname |} in
  NoDup (map telegram_id (users (db_of r)))
  /\ List.filter (fun u => is_user tid u) (users (db_of r)) = [row]
  /\ List.filter (fun u => negb (is_user tid u)) (users (db_of r))
     = List.filter (fun u => negb (is_user tid u)) (users d)
  /\ templates (db_of r) = templates d /\ documents (db_of r) = documents d
  /\ reminders_sent (db_of r) = reminders_sent d
  /\ documents_seq (db_of r) = documents_seq d
  /\ result_of r
     = default row (head (List.filter (fun u => is_user tid u) (users d))).
Proof.
  intros Hnd r row. subst r. unfold get_or_create_user. run_sql.
  destruct (head (List.filter (fun u => is_user tid u) (users d))) as [u|] eqn:Hh.
  - simpl. pose proof (filter_unique_key telegram_id tid (users d) u Hnd Hh) as Hone.
    fold row.
    assert (Hids : map telegram_id
                     (map (fun u0 => if is_user tid u0 then row else u0) (users d))
                   = map telegram_id (users d)).
    { rewrite map_map. apply map_ext. intros a. unfold is_user.
      destruct (Z.eqb_spec (telegram_id a) tid); simpl; congruence. }
    repeat split; try done.
    + by rewrite Hids.
    + unfold is_user in *. clear Hids Hh Hnd.
      revert Hone. generalize (users d). intros l. revert u.
      induction l as [|a l IH]; intros u; simpl; [done|].
      destruct (Z.eqb_spec (telegram_id a) tid) as [Ha|Ha]; simpl.
      * rewrite Z.eqb_refl. intros [= -> Hrest]. f_equal.
        clear IH. induction l as [|b l IH]; simpl in *; [done|].
        destruct (Z.eqb_spec (telegram_id b) tid); simpl in *; [done|].
        destruct (Z.eqb_spec (telegram_id b) tid); [done|]. by apply IH.
      * destruct (Z.eqb_spec (telegram_id a) tid); [done|]. apply IH.
    + unfold is_user. clear. induction (users d) as [|a l IH]; simpl; [done|].
      destruct (Z.eqb_spec (telegram_id a) tid) as [Ha|Ha]; simpl.
      * by rewrite Z.eqb_refl.
      * destruct (Z.eqb_spec (telegram_id a) tid); [done|]. simpl. by f_equal.
  - simpl. fold row.
    pose proof (filter_nil_key telegram_id tid (users d) Hh) as Hnew.
    pose proof (filter_none _ _ Hh) as Hnil.
    assert (Hf : List.filter (fun u => is_user tid u) (users d ++ [row]) = [row]).
    { rewrite List.filter_app, Hnil. simpl. unfold is_user. simpl.
      by rewrite Z.eqb_refl. }
    repeat split; try done.
    + rewrite map_app. simpl. apply NoDup_app. repeat split; [done| |apply NoDup_singleton].
      intros x Hx ->%list_elem_of_singleton. done.
    + rewrite List.filter_app. simpl. unfold is_user at 2. simpl.
      rewrite Z.eqb_refl. simpl. apply app_nil_r.
    + by rewrite Hf.
Qed.

Lemma get_or_create_user_upserts_witness :
  let r := with_connection (get_or_create_user 100 (VStr (lit "anna")) VNone)
             Examples.sample_db in
  let row := {| telegram_id := 100; username := VStr (lit "anna");
                first_name := VNone |} in
  NoDup (map telegram_id (users (db_of r)))
  /\ List.filter (fun u => is_user 100 u) (users (db_of r)) = [row]
  /\ List.filter (fun u => negb (is_user 100 u)) (users (db_of r))
     = List.filter (fun u => negb (is_user 100 u)) (users Examples.sample_db)
  /\ templates (db_of r) = templates Examples.sample_db
  /\ documents (db_of r) = documents Examples.sample_db
  /\ reminders_sent (db_of r) = reminders_sent Examples.sample_db
  /\ documents_seq (db_of r) = documents_seq Examples.sample_db
  /\ result_of r
     = default row (head (List.filter (fun u => is_user 100 u)
                                      (users Examples.sample_db))).
Proof.
  apply (get_or_create_user_upserts 100 (VStr (lit "anna")) VNone Examples.sample_db).
  simpl. apply NoDup_singleton.
Defined.

Lemma template_names_cons db d : exists tn rest, template_names db d = tn :: rest.
Proof.
  unfold template_names.
  destruct (List.filter _ (templates db)) as [|t ts]; simpl; eauto.
Qed.

Lemma template_names_same db db' d :
  templates db = templates db' -> template_names db d = template_names db' d.
Proof. unfold template_names. by intros ->. Qed.

Lemma sample_ids_bounded : ids_bounded Examples.sample_db.
Proof.
  intros row Hrow. apply list_elem_of_In in Hrow. simpl in Hrow.
  destruct Hrow as [<-|[<-|[]]]; simpl; lia.
Qed.

Lemma sample_ids_unique : NoDup (map d_id (documents Examples.sample_db)).
Proof.
  simpl. apply NoDup_cons. split; [|apply NoDup_singleton].
  intros [H|H%elem_of_nil]%elem_of_cons; [discriminate|done].
Qed.

(** X6: what insert_document stores is what get_document_by_id reads back.
    When no id is above the AUTOINCREMENT sequence and ids are unique, the
    id returned is the next of the sequence and above every id in use, both
    properties hold afterwards, the owner reads back the row with the
    values passed, no other user can read it, every other lookup answers as
    before, and the owner's document count grows by one. *)
Theorem insert_document_round_trip user_id name file_id file_name file_type
    start_date end_date template_id notes d :
  ids_bounded d -> NoDup (map d_id (documents d)) ->
  let r := with_connection (insert_document user_id name file_id file_name file_type
                              start_date end_date template_id notes) d in
  let new := result_of r in
  let row := {| d_id := new; d_user_id := user_id; d_name := name;
                d_file_id := file_id; d_file_name := file_name;
                d_file_type := file_type; d_start_date := start_date;
                d_end_date := end_date; d_template_id := template_id;
                d_notes := notes |} in
  new = documents_seq d + 1
  /\ (forall old, old ∈ documents d -> d_id old < new)
  /\ ids_bounded (db_of r) /\ NoDup (map d_id (documents (db_of r)))
  /\ (exists template_name,
        result_of (with_connection (get_document_by_id new user_id) (db_of r))
        = Some (row, template_name))
  /\ (forall other, other <> user_id ->
        result_of (with_connection (get_document_by_id new other) (db_of r)) = None)
  /\ (forall doc_id u, doc_id <> new ->
        result_of (with_connection (get_document_by_id doc_id u) (db_of r))
        = result_of (with_connection (get_document_by_id doc_id u) d))
  /\ result_of (with_connection (get_documents_count user_id) (db_of r))
     = result_of (with_connection (get_documents_count user_id) d) + 1.
Proof.
  intros Hb Hnd r new row. subst new r. unfold insert_document, get_document_by_id,
    get_documents_count. run_sql. simpl.
  set (new := documents_seq d + 1). fold new in row.
  assert (Hold : forall old, old ∈ documents d -> d_id old < new).
  { intros old Hold. specialize (Hb old Hold). unfold new. lia. }
  assert (Hnone : forall u, List.filter (fun x => owned_document new u x) (documents d) = []).
  { intros u. apply filter_none. apply DatabaseSpec.head_filter_None.
    apply not_true_is_false. intros (x & Hx & Hown)%existsb_exists.
    apply list_elem_of_In, Hold in Hx. unfold owned_document in Hown.
    apply andb_true_iff in Hown as [?%Z.eqb_eq _]. lia. }
  repeat split; try done.
  - intros x [Hx| ->%list_elem_of_singleton]%elem_of_app; simpl; [|lia].
    specialize (Hb x Hx). lia.
  - rewrite map_app. simpl. apply NoDup_app. repeat split; [done| |apply NoDup_singleton].
    intros x Hx ->%list_elem_of_singleton.
    apply list_elem_of_In, in_map_iff in Hx as (old & Hid & Hin).
    apply list_elem_of_In, Hold in Hin. lia.
  - rewrite List.filter_app, Hnone. simpl. unfold owned_document. simpl.
    rewrite !Z.eqb_refl. simpl. rewrite app_nil_r.
    match goal with |- context [template_names ?db ?x] =>
      destruct (template_names_cons db x) as (tn & rest & ->) end.
    by exists tn.
  - intros other Hother. rewrite List.filter_app, Hnone. simpl.
    unfold owned_document. simpl. rewrite Z.eqb_refl.
    destruct (Z.eqb_spec user_id other); [congruence|]. done.
  - intros doc_id u Hne. rewrite List.filter_app. simpl.
    unfold owned_document at 2. simpl.
    destruct (Z.eqb_spec new doc_id); [congruence|]. simpl. rewrite app_nil_r.
    reflexivity.
  - rewrite List.filter_app. simpl. rewrite Z.eqb_refl. unfold len.
    rewrite length_app. simpl. lia.
Qed.

Lemma insert_document_round_trip_witness :
  let r := with_connection (insert_document 100 (VStr (lit "Visa")) (VStr (lit "file-9"))
                              VNone VNone VNone VNone VNone VNone)
             Examples.sample_db in
  result_of r = 3
  /\ exists template_name,
       result_of (with_connection (get_document_by_id 3 100) (db_of r))
       = Some ({| d_id := 3; d_user_id := 100; d_name := VStr (lit "Visa");
                  d_file_id := VStr (lit "file-9"); d_file_name := VNone;
                  d_file_type := VNone; d_start_date := VNone; d_end_date := VNone;
                  d_template_id := VNone; d_notes := VNone |}, template_name).
Proof.
  pose proof (insert_document_round_trip 100 (VStr (lit "Visa")) (VStr (lit "file-9"))
                VNone VNone VNone VNone VNone VNone Examples.sample_db
                sample_ids_bounded sample_ids_unique) as H.
  split; [apply H|]. apply H.
Defined.

Lemma in_template_unlink template_id row :
  in_template template_id (unlink template_id row) = false.
Proof.
  unfold unlink. destruct (in_template template_id row) eqn:H; [done|exact H].
Qed.

(** X7: delete_template deletes no document.  When the caller owns the
    template it returns True, the template is gone, the documents table has
    the same rows in the same order, each as before except that the rows of
    any user that pointed to the template now hold NULL there, so no
    document refers to it any more; users and ledger are untouched.
    Otherwise it returns False and leaves the database as it was. *)
Theorem delete_template_keeps_documents template_id user_id d :
  let r := delete_template template_id user_id d in
  if existsb (owned_template template_id user_id) (templates d)
  then
    r.1 = true
    /\ existsb (owned_template template_id user_id) (templates r.2) = false
    /\ (forall t, t ∈ templates r.2 <->
                  t ∈ templates d /\ owned_template template_id user_id t = false)
    /\ Forall2 (fun old new =>
                  d_id new = d_id old /\ d_user_id new = d_user_id old
                  /\ d_name new = d_name old /\ d_file_id new = d_file_id old
                  /\ d_file_name new = d_file_name old
                  /\ d_file_type new = d_file_type old
                  /\ d_start_date new = d_start_date old
                  /\ d_end_date new = d_end_date old /\ d_notes new = d_notes old
                  /\ d_template_id new
                     = if in_template template_id old then VNone
                       else d_template_id old)
               (documents d) (documents r.2)
    /\ (forall row, row ∈ documents r.2 -> in_template template_id row = false)
    /\ users r.2 = users d /\ reminders_sent r.2 = reminders_sent d
    /\ documents_seq r.2 = documents_seq d
  else r = (false, d).
Proof.
  intros r. subst r. unfold delete_template.
  destruct (existsb _ (templates d)) eqn:Hex.
  - destruct (head (List.filter _ (templates d))) eqn:Hh.
    + simpl. repeat split; try done.
      * apply Z.ltb_lt. by apply DatabaseSpec.len_filter_pos.
      * apply (DatabaseSpec.existsb_filter_negb (owned_template template_id user_id)).
      * apply list_elem_of_In, filter_In in H as [H _]. by apply list_elem_of_In.
      * apply list_elem_of_In, filter_In in H as [_ H]. by apply negb_true_iff.
      * intros [Hin Hown]. apply list_elem_of_In, filter_In.
        split; [by apply list_elem_of_In|by rewrite Hown].
      * induction (documents d) as [|row rows IH]; simpl; constructor; [|done].
        unfold unlink. destruct (in_template template_id row); simpl; done.
      * intros row (old & <- & _)%list_elem_of_In%in_map_iff.
        apply in_template_unlink.
    + apply DatabaseSpec.head_filter_None in Hh.
      change (existsb (owned_template template_id user_id) (templates d) = false) in Hh.
      congruence.
  - apply (DatabaseSpec.head_filter_None
             (fun t => owned_template template_id user_id t)) in Hex.
    by rewrite Hex.
Qed.

Lemma others_map user_id (f : document_row -> document_row) (p : document_row -> bool) l :
  (forall row, p row = true -> d_user_id row = user_id) ->
  (forall row, d_user_id (f row) = d_user_id row) ->
  List.filter (fun row => negb (d_user_id row =? user_id))
              (map (fun row => if p row then f row else row) l)
  = List.filter (fun row => negb (d_user_id row =? user_id)) l.
Proof.
  intros Hp Hf. induction l as [|row l IH]; simpl; [done|].
  destruct (p row) eqn:Hrow.
  - rewrite Hf, (Hp row Hrow), Z.eqb_refl. simpl. apply IH.
  - destruct (negb _); by rewrite IH.
Qed.

Lemma owned_document_owner doc_id user_id row :
  owned_document doc_id user_id row = true -> d_user_id row = user_id.
Proof. unfold owned_document. by intros [_ ?%Z.eqb_eq]%andb_true_iff. Qed.

(** X8: update_document changes the columns it is given, on the caller's
    row.  It returns True exactly when an argument is not None and the
    caller owns a document with the id; no row comes or goes; a row that is
    not the caller's document with that id is as before; in the caller's
    row a column whose argument is None keeps its value, the file columns,
    the id and the owner never change, the end date "NULL" and the template
    -1 store NULL. *)
Theorem update_document_sets_columns doc_id user_id name start_date end_date
    template_id notes d :
  let r := update_document doc_id user_id name start_date end_date template_id notes d in
  let given := negb (is_None name && is_None start_date && is_None end_date
                     && is_None template_id && is_None notes) in
  r.1 = given && existsb (owned_document doc_id user_id) (documents d)
  /\ Forall2 (fun old new =>
                d_id new = d_id old /\ d_user_id new = d_user_id old
                /\ d_file_id new = d_file_id old /\ d_file_name new = d_file_name old
                /\ d_file_type new = d_file_type old
                /\ (owned_document doc_id user_id old = false -> new = old)
                /\ (is_None name = true -> d_name new = d_name old)
                /\ (is_None start_date = true -> d_start_date new = d_start_date old)
                /\ (is_None end_date = true -> d_end_date new = d_end_date old)
                /\ (is_None template_id = true -> d_template_id new = d_template_id old)
                /\ (is_None notes = true -> d_notes new = d_notes old)
                /\ (owned_document doc_id user_id old = true ->
                    (end_date = VStr (lit "NULL") -> d_end_date new = VNone)
                    /\ (template_id = VInt (-1) -> d_template_id new = VNone)
                    /\ (is_None name = false -> d_name new = name)
                    /\ (is_None start_date = false -> d_start_date new = start_date)
                    /\ (is_None notes = false -> d_notes new = notes)))
             (documents d) (documents r.2)
  /\ users r.2 = users d /\ templates r.2 = templates d
  /\ reminders_sent r.2 = reminders_sent d /\ documents_seq r.2 = documents_seq d.
Proof.
  intros r given. subst r given. unfold update_document.
  destruct (is_None name && is_None start_date && is_None end_date
            && is_None template_id && is_None notes) eqn:Hnone; simpl.
  - destruct name; try done. destruct start_date; try done.
    destruct end_date; try done. destruct template_id; try done.
    destruct notes; try done.
    repeat split; try done.
    induction (documents d) as [|row rows IH]; constructor; [|done].
    repeat split; try done.
  - repeat split; try done.
    + destruct (existsb _ (documents d)) eqn:Hex.
      * apply Z.ltb_lt. by apply DatabaseSpec.len_filter_pos.
      * apply (DatabaseSpec.head_filter_None
                 (fun row => owned_document doc_id user_id row)) in Hex.
        apply filter_none in Hex. by rewrite Hex.
    + induction (documents d) as [|row rows IH]; simpl; constructor; [|done].
      destruct (owned_document doc_id user_id row) eqn:Hown; simpl;
        [|repeat split; (done || congruence)].
      repeat split; try done; try (by intros ->); try (by intros -> _).
Qed.

(** X9: the functions that take a user id keep to that user's rows.
    get_document_by_id and get_template_by_id answer only with a row the
    user owns and that has the id asked for; update_document and
    delete_document leave the rows of every other user as they were, in the
    same order; delete_template leaves them as they were when the caller
    does not own the template, and otherwise changes in them nothing but
    the link to the deleted template. *)
Theorem other_users_rows_untouched doc_id user_id name start_date end_date
    template_id notes d :
  (forall row template_name,
     result_of (with_connection (get_document_by_id doc_id user_id) d)
     = Some (row, template_name) ->
     row ∈ documents d /\ d_id row = doc_id /\ d_user_id row = user_id)
  /\ (forall t,
        result_of (with_connection (get_template_by_id doc_id user_id) d) = Some t ->
        t ∈ templates d /\ t_id t = doc_id /\ t_user_id t = user_id)
  /\ others user_id
       (update_document doc_id user_id name start_date end_date template_id notes d).2
     = others user_id d
  /\ others user_id (db_of (with_connection (delete_document doc_id user_id) d))
     = others user_id d
  /\ others user_id (delete_template doc_id user_id d).2
     = if existsb (owned_template doc_id user_id) (templates d)
       then map (unlink doc_id) (others user_id d)
       else others user_id d.
Proof.
  assert (Hdoc : forall row template_name,
            result_of (with_connection (get_document_by_id doc_id user_id) d)
            = Some (row, template_name) ->
            In row (List.filter (fun d0 => owned_document doc_id user_id d0)
                                (documents d))).
  { intros row tn. unfold get_document_by_id. run_sql. simpl.
    destruct (List.filter _ (documents d)) as [|x rest] eqn:Hf; [done|]. simpl.
    destruct (template_names_cons d x) as (tn' & more & ->). simpl. intros [= <- _].
    by left. }
  assert (Htmpl : forall t,
            result_of (with_connection (get_template_by_id doc_id user_id) d) = Some t ->
            In t (List.filter (fun t => owned_template doc_id user_id t)
                              (templates d))).
  { intros t. unfold get_template_by_id. run_sql. simpl.
    destruct (List.filter _ (templates d)) as [|x rest] eqn:Hf; [done|]. simpl.
    intros [= <-]. by left. }
  split; [|split; [|split; [|split]]].
  - intros row tn [Hin [Hid%Z.eqb_eq Hu%Z.eqb_eq]%andb_true_iff]%Hdoc%filter_In.
    by apply list_elem_of_In in Hin.
  - intros t [Hin [Hid%Z.eqb_eq Hu%Z.eqb_eq]%andb_true_iff]%Htmpl%filter_In.
    by apply list_elem_of_In in Hin.
  - unfold update_document, others.
    destruct (_ && _); simpl; [done|].
    apply others_map; [apply owned_document_owner|done].
  - clear Hdoc Htmpl. unfold delete_document, others. run_sql.
    destruct (head (List.filter _ (documents d))); simpl; [|done].
    induction (documents d) as [|row rows IH]; simpl; [done|].
    destruct (owned_document doc_id user_id row) eqn:Hown; simpl.
    + apply owned_document_owner in Hown. rewrite Hown, Z.eqb_refl. simpl. apply IH.
    + destruct (negb _); by rewrite IH.
  - clear Hdoc Htmpl. unfold delete_template, others.
    destruct (existsb _ (templates d)) eqn:Hex.
    + destruct (head (List.filter _ (templates d))) eqn:Hh.
      * simpl. induction (documents d) as [|row rows IH]; simpl; [done|].
        assert (Hu : d_user_id (unlink doc_id row) = d_user_id row)
          by (unfold unlink; by destruct (in_template doc_id row)).
        rewrite Hu. destruct (negb _); simpl; by rewrite IH.
      * apply DatabaseSpec.head_filter_None in Hh.
        change (existsb (owned_template doc_id user_id) (templates d) = false) in Hh.
        congruence.
    + apply (DatabaseSpec.head_filter_None
               (fun t => owned_template doc_id user_id t)) in Hex.
      by rewrite Hex.
Qed.

Lemma filter_filter_andb {A} (p q : A -> bool) l :
  List.filter p (List.filter q l) = List.filter (fun x => q x && p x) l.
Proof.
  induction l as [|x l IH]; simpl; [done|].
  destruct (q x); simpl; [destruct (p x); by rewrite IH|done].
Qed.

Lemma len_filter_cons {A} (p : A -> bool) x l :
  len (List.filter p (x :: l)) = (if p x then 1 else 0) + len (List.filter p l).
Proof. unfold len. simpl. destruct (p x); simpl; lia. Qed.

(** X10: the numbers of get_documents_statistics agree with the status
    emoji of get_status_emoji on the user's documents.  When every end date
    is a date or NULL and today is not in the last 30 days of year 9999,
    total counts the rows get_user_documents selects, no_end_date those
    shown with the page emoji, expired those shown red, expiring_soon those
    shown orange or yellow, and active is everything not red, so it
    includes the documents without an end date and those expiring soon; the
    four classes partition the total. *)
Theorem statistics_agree_with_status cfg today user_id d :
  end_dates_typed d -> today + 30 <= Datetime.MAXORDINAL ->
  let s := result_of (with_connection (get_documents_statistics today user_id) d) in
  let rows := user_documents user_id VNone d in
  let n emoji := Status.shown cfg today emoji rows in
  total s = len rows
  /\ no_end_date s = n Status.EMOJI_NO_END_DATE
  /\ expired s = n Status.EMOJI_EXPIRED
  /\ expiring_soon s = n Status.EMOJI_WEEK + n Status.EMOJI_MONTH
  /\ active s = n Status.EMOJI_NO_END_DATE + n Status.EMOJI_WEEK
                + n Status.EMOJI_MONTH + n Status.EMOJI_VALID
  /\ total s = expired s + expiring_soon s + no_end_date s + n Status.EMOJI_VALID.
Proof.
  intros Htyped Hmax s rows n. subst s rows n.
  unfold get_documents_statistics, count_documents, user_documents, Status.shown,
    plus_30_days.
  run_sql. simpl.
  destruct (Z.leb_spec (today + 30) Datetime.MAXORDINAL) as [_|?]; [|lia].
  rewrite !filter_filter_andb.
  unfold end_dates_typed in Htyped.
  induction (documents d) as [|row l IH].
  - unfold len. simpl. lia.
  - assert (Hrow := Htyped row ltac:(by left)).
    specialize (IH ltac:(by intros r Hr; apply Htyped; right)).
    rewrite !len_filter_cons. cbn beta.
    repeat match goal with
           | |- context [len (List.filter ?p l)] =>
               let k := fresh "k" in
               set (k := len (List.filter p l)) in *; clearbody k
           end.
    destruct (d_user_id row =? user_id); cbn [andb]; [|lia].
    destruct Hrow as [->|[e ->]]; simpl; [lia|].
    unfold Status.get_status_emoji, Status.get_days_until. simpl.
    destruct (Z.ltb_spec e today), (Z.leb_spec today e), (Z.leb_spec e (today + 30)),
      (Z.ltb_spec (e - today) 0), (Z.leb_spec (e - today) 7),
      (Z.leb_spec (e - today) 30); simpl; lia.
Qed.

Lemma statistics_agree_with_status_witness :
  let s := result_of (with_connection
                        (get_documents_statistics Examples.sample_today 100)
                        Examples.sample_db) in
  let rows := user_documents 100 VNone Examples.sample_db in
  let n emoji := Status.shown Examples.sample_config Examples.sample_today emoji rows in
  total s = len rows
  /\ no_end_date s = n Status.EMOJI_NO_END_DATE
  /\ expired s = n Status.EMOJI_EXPIRED
  /\ expiring_soon s = n Status.EMOJI_WEEK + n Status.EMOJI_MONTH
  /\ active s = n Status.EMOJI_NO_END_DATE + n Status.EMOJI_WEEK
                + n Status.EMOJI_MONTH + n Status.EMOJI_VALID
  /\ total s = expired s + expiring_soon s + no_end_date s + n Status.EMOJI_VALID.
Proof.
  apply (statistics_agree_with_status Examples.sample_config
           Examples.sample_today 100 Examples.sample_db).
  - intros row Hrow. apply list_elem_of_In in Hrow. simpl in Hrow.
    destruct Hrow as [<-|[<-|[]]]; simpl; eauto.
  - vm_compute. discriminate.
Defined.

End DatabaseMoreSpec.

(** ** int() and str() *)

Module BuiltinsSpec.
Import Builtins BuiltinsNotions.

Lemma lit_String c s : lit (String c s) = Ascii.N_of_ascii c :: lit s.
Proof. reflexivity. Qed.

Lemma uint_value_acc d acc :
  Z.pos (Pos.of_uint_acc d acc) = uint_value (Z.pos acc) d.
Proof.
  revert acc. induction d; intros acc; simpl; [done|..];
    rewrite IHd; f_equal; lia.
Qed.

Lemma uint_value_of_uint d : Z.of_N (Pos.of_uint d) = uint_value 0 d.
Proof.
  induction d; simpl; [done|done|..]; by rewrite uint_value_acc.
Qed.

Lemma scan_uint dec d acc n :
  scan_digits acc n (map (int_char_of dec) (lit (NilEmpty.string_of_uint d)))
  = (uint_value acc d, n + Z.of_nat (Decimal.nb_digits d), []).
Proof.
  revert acc n. induction d; intros acc n;
    cbn [NilEmpty.string_of_uint Decimal.nb_digits uint_value].
  1: { change (lit EmptyString) with (@nil char). simpl.
       repeat (apply pair_equal_spec; split); (done || lia). }
  all: rewrite lit_String; cbn [map];
    match goal with
    | |- context [int_char_of ?f ?c] =>
        let t := eval vm_compute in (int_char_of f c) in
        change (int_char_of f c) with t
    end;
    cbn [scan_digits]; rewrite IHd;
    repeat (apply pair_equal_spec; split); (done || lia).
Qed.

Lemma uint_chars d : Forall int_literal_char (lit (NilEmpty.string_of_uint d)).
Proof.
  induction d; [constructor|..];
    (cbn [NilEmpty.string_of_uint]; rewrite lit_String; constructor; [|done];
     right; vm_compute; split; discriminate).
Qed.

Lemma uint_length d :
  length (lit (NilEmpty.string_of_uint d)) = Decimal.nb_digits d.
Proof.
  induction d; [done|..];
    (cbn [NilEmpty.string_of_uint Decimal.nb_digits]; rewrite lit_String;
     simpl; by rewrite IHd).
Qed.

Lemma uint_head dec d :
  d <> Decimal.Nil ->
  exists v rest,
    map (int_char_of dec) (lit (NilEmpty.string_of_uint d)) = IDigit v :: rest.
Proof.
  destruct d; [done|..]; intros _;
    (cbn [NilEmpty.string_of_uint]; rewrite lit_String; cbn [map];
     match goal with
     | |- context [int_char_of ?f ?c] =>
         let t := eval vm_compute in (int_char_of f c) in
         change (int_char_of f c) with t
     end; eauto).
Qed.

Lemma nilzero_uint p :
  NilZero.string_of_uint (Pos.to_uint p) = NilEmpty.string_of_uint (Pos.to_uint p).
Proof.
  pose proof (DecimalPos.Unsigned.to_uint_nonnil p).
  by destruct (Pos.to_uint p).
Qed.

Lemma of_Z_pos p : of_Z (Z.pos p) = lit (NilEmpty.string_of_uint (Pos.to_uint p)).
Proof. unfold of_Z. simpl. by rewrite nilzero_uint. Qed.

Lemma of_Z_neg p :
  of_Z (Z.neg p) = 45%N :: lit (NilEmpty.string_of_uint (Pos.to_uint p)).
Proof. unfold of_Z. simpl. by rewrite nilzero_uint. Qed.

(** Every character of [str(n)] is a digit or the sign, and there is one. *)
Lemma of_Z_chars n : Forall int_literal_char (of_Z n) /\ of_Z n <> [].
Proof.
  destruct n as [|p|p].
  - change (of_Z 0) with [48%N]. split; [|done].
    constructor; [|constructor]. right. lia.
  - rewrite of_Z_pos. split; [apply uint_chars|].
    pose proof (uint_length (Pos.to_uint p)) as Hl.
    pose proof (DecimalPos.Unsigned.to_uint_nonnil p) as Hnn.
    intros Hnil. rewrite Hnil in Hl. destruct (Pos.to_uint p); done.
  - rewrite of_Z_neg. split; [|done]. constructor; [by left|apply uint_chars].
Qed.

Lemma int_uint dec p sign prefix :
  (Z.of_nat (Decimal.nb_digits (Pos.to_uint p)) <= MAX_STR_DIGITS) ->
  (prefix = [] /\ sign = 1 \/ prefix = [45%N] /\ sign = -1) ->
  int dec (prefix ++ lit (NilEmpty.string_of_uint (Pos.to_uint p))) = Ok (sign * Z.pos p).
Proof.
  intros Hlen Hsign. unfold int. rewrite map_app.
  destruct (uint_head dec (Pos.to_uint p) (DecimalPos.Unsigned.to_uint_nonnil p))
    as (v & rest & Hts).
  assert (Hscan := scan_uint dec (Pos.to_uint p) 0 0).
  assert (Hpos : (0 < Decimal.nb_digits (Pos.to_uint p))%nat).
  { pose proof (DecimalPos.Unsigned.to_uint_nonnil p).
    destruct (Pos.to_uint p); simpl; (done || lia). }
  assert (Hval : uint_value 0 (Pos.to_uint p) = Z.pos p).
  { by rewrite <- uint_value_of_uint, DecimalPos.Unsigned.of_to. }
  unfold char in *. rewrite Hts.
  destruct Hsign as [[-> ->]|[-> ->]]; cbn [map app];
    [|change (int_char_of dec 45%N) with IMinus];
    cbn [skip_blanks]; rewrite <- Hts, Hscan, Hval;
    (destruct (Z.eqb_spec (0 + Z.of_nat (Decimal.nb_digits (Pos.to_uint p))) 0);
     [lia|]);
    (destruct (Z.ltb_spec MAX_STR_DIGITS
                 (0 + Z.of_nat (Decimal.nb_digits (Pos.to_uint p)))); [lia|]);
    reflexivity.
Qed.

(** [int(str(n)) == n] for every [n] whose text is within the digit
    limit. *)
Lemma int_of_Z dec n : len (of_Z n) <= MAX_STR_DIGITS -> int dec (of_Z n) = Ok n.
Proof.
  destruct n as [|p|p]; intros Hlen.
  - reflexivity.
  - rewrite of_Z_pos in *. unfold len in Hlen. rewrite uint_length in Hlen.
    apply (int_uint dec p 1 []); [done|tauto].
  - rewrite of_Z_neg in *. unfold len in Hlen. simpl in Hlen.
    rewrite uint_length in Hlen.
    apply (int_uint dec p (-1) [45%N]); [lia|tauto].
Qed.


Lemma split_prefix sep p t :
  sep ∉ p -> split sep (p ++ sep :: t) = p :: split sep t.
Proof.
  induction p as [|c p IH]; intros Hp; simpl.
  - by rewrite N.eqb_refl.
  - destruct (N.eqb_spec c sep) as [->|_]; [exfalso; apply Hp; by left|].
    rewrite IH by (intros ?; apply Hp; by right). done.
Qed.

Lemma split_none sep s : sep ∉ s -> split sep s = [s].
Proof.
  induction s as [|c s IH]; intros Hs; simpl; [done|].
  destruct (N.eqb_spec c sep) as [->|_]; [exfalso; apply Hs; by left|].
  by rewrite IH by (intros ?; apply Hs; by right).
Qed.

Lemma of_Z_no_bar n : 124%N ∉ of_Z n.
Proof.
  intros Hin. destruct (of_Z_chars n) as [Hall _].
  rewrite Forall_forall in Hall. destruct (Hall _ Hin) as [?|[? ?]]; [done|lia].
Qed.

Lemma of_Z_not_yes n : startswith (lit "yes") (of_Z n) = false.
Proof.
  destruct (of_Z_chars n) as [Hall Hne].
  destruct (of_Z n) as [|c rest]; [done|].
  apply Forall_cons in Hall as [Hc _].
  change (lit "yes") with [121%N; 101%N; 115%N]. cbn [startswith].
  destruct (N.eqb_spec 121 c) as [<-|_]; [|done].
  destruct Hc as [?|[? ?]]; [done|lia].
Qed.

End BuiltinsSpec.

(** ** Keyboards, router and callbacks together *)

Module CallbacksSpec.
Import Utils Router Database DatabaseMore Builtins Keyboards DocumentCallbacks.
Import BuiltinsSpec.

Ltac no_bar :=
  let H := fresh in
  intros H%list_elem_of_In; vm_compute in H; intuition discriminate.

(** The id a handler reads from a token of two literal segments and
    [str(n)]. *)
Lemma callback_id_literal cfg a b n :
  124%N ∉ a -> 124%N ∉ b -> len (of_Z n) <= MAX_STR_DIGITS ->
  callback_id cfg (a ++ 124%N :: b ++ 124%N :: of_Z n) = Ok (Some n).
Proof.
  intros Ha Hb Hn. unfold callback_id.
  rewrite (split_prefix 124%N a) by done. rewrite (split_prefix 124%N b) by done.
  rewrite (split_none 124%N (of_Z n)) by apply of_Z_no_bar.
  change (len [a; b; of_Z n] <? 3) with false. cbn [nth].
  by rewrite int_of_Z.
Qed.

Ltac token_id :=
  match goal with
  | |- callback_id _ (lit ?s ++ of_Z ?n) = _ =>
      let l := eval vm_compute in (split 124%N (lit s)) in
      match l with
      | [?a; ?b; []] =>
          change (lit s ++ of_Z n) with (a ++ 124%N :: b ++ 124%N :: of_Z n);
          apply callback_id_literal; [no_bar|no_bar|done]
      end
  end.

(** The dispatch of a token whose literal head decides the handler. *)
Ltac routed state :=
  match goal with
  | |- dispatch _ (_ ++ ?t) = _ =>
      generalize t; intros ?; destruct state as [[]|]; reflexivity
  | |- dispatch _ _ = _ => destruct state as [[]|]; reflexivity
  end.

Lemma dispatch_delete state n :
  dispatch state (lit "doc|delete|" ++ of_Z n) = Some Router.delete_document_confirm.
Proof.
  pose proof (of_Z_not_yes n) as Hid. revert Hid. generalize (of_Z n).
  intros id Hid. vm_compute in Hid.
  destruct state as [[]|]; vm_compute; rewrite Hid; reflexivity.
Qed.

(** X11: the buttons of a document reach their handlers with its id.  For
    an id whose text is within the digit limit of int(), in every
    conversation state: the buttons of build_document_actions_keyboard go
    to download_document, edit_document_menu, delete_document_confirm and
    mydocs_list; the two buttons of the confirmation keyboard go to
    delete_document_execute and view_document; the last button of the edit
    keyboard goes to view_document; and the id each of these handlers reads
    with int(data.split("|")[2]) is the id the keyboard was built for. *)
Theorem document_buttons_reach_handlers cfg state doc_id :
  len (of_Z doc_id) <= MAX_STR_DIGITS ->
  Forall2 (fun data cb => dispatch state data = Some cb)
    (tokens (build_document_actions_keyboard doc_id true))
    [Router.download_document; Router.edit_document_menu;
     Router.delete_document_confirm; Router.mydocs_list]
  /\ Forall (fun data => callback_id cfg data = Ok (Some doc_id))
       (tokens (build_document_actions_keyboard doc_id false))
  /\ Forall2 (fun data cb => dispatch state data = Some cb
                             /\ callback_id cfg data = Ok (Some doc_id))
       (tokens (build_confirmation_keyboard
                  (lit "doc|delete_yes|" ++ of_Z doc_id)
                  (lit "doc|view|" ++ of_Z doc_id) CAPTION_DELETE CAPTION_CANCEL))
       [Router.delete_document_execute; Router.view_document]
  /\ exists back,
       last (tokens (build_edit_document_keyboard doc_id)) = Some back
       /\ dispatch state back = Some Router.view_document
       /\ callback_id cfg back = Ok (Some doc_id).
Proof.
  intros Hn. split; [|split; [|split]].
  - repeat constructor; cbn [callback_data]; first [apply dispatch_delete | routed state].
  - repeat constructor; cbn [callback_data]; token_id.
  - repeat constructor; cbn [callback_data]; first [token_id | routed state].
  - exists (lit "doc|view|" ++ of_Z doc_id).
    split; [reflexivity|]. split; [routed state | token_id].
Qed.

Lemma document_buttons_reach_handlers_witness :
  Forall2 (fun data cb => dispatch (Some WAITING_NAME) data = Some cb)
    (tokens (build_document_actions_keyboard 7 true))
    [Router.download_document; Router.edit_document_menu;
     Router.delete_document_confirm; Router.mydocs_list]
  /\ Forall (fun data => callback_id Examples.sample_config data = Ok (Some 7))
       (tokens (build_document_actions_keyboard 7 false)).
Proof.
  pose proof (document_buttons_reach_handlers Examples.sample_config
                (Some WAITING_NAME) 7) as H.
  split; apply H; vm_compute; discriminate.
Defined.

Lemma get_document_by_id_owned doc_id user_id d row template_name :
  result_of (with_connection (get_document_by_id doc_id user_id) d)
  = Some (row, template_name) ->
  existsb (owned_document doc_id user_id) (documents d) = true.
Proof.
  unfold get_document_by_id, with_connection, result_of.
  cbv [select Database.store]. simpl.
  destruct (existsb (owned_document doc_id user_id) (documents d)) eqn:Hex; [done|].
  apply (DatabaseSpec.head_filter_None
           (fun x => owned_document doc_id user_id x)) in Hex.
  apply DatabaseMoreSpec.filter_none in Hex. by rewrite Hex.
Qed.

(** X12: deleting a document through the chat deletes that document and
    nothing else.  For a document the user owns: the delete button shows the
    confirmation keyboard; its first button is routed, in every
    conversation state, to delete_document_execute, which removes the
    document and its ledger rows, keeps every other row of the four tables
    and reports success, after which the document cannot be read any more;
    its second button is routed to view_document, which shows the document
    with its action keyboard and writes nothing. *)
Theorem delete_through_the_chat cfg state user_id doc_id d row template_name :
  len (of_Z doc_id) <= MAX_STR_DIGITS ->
  result_of (with_connection (get_document_by_id doc_id user_id) d)
  = Some (row, template_name) ->
  exists confirm cancel d' shown,
    delete_document_confirm cfg (lit "doc|delete|" ++ of_Z doc_id) user_id d
    = Ok (d, [answer;
              edit_message_text (MESSAGES_format "delete_confirm" (d_name row))
                (Some [[{| Utils.text := CAPTION_DELETE; callback_data := confirm |};
                        {| Utils.text := CAPTION_CANCEL; callback_data := cancel |}]])])
    /\ dispatch state confirm = Some Router.delete_document_execute
    /\ dispatch state cancel = Some Router.view_document
    /\ delete_document_execute cfg confirm user_id d
       = Ok (d', [answer; edit_message_text (MESSAGES "delete_success") (Some shown)])
    /\ documents d'
       = List.filter (fun r => negb (owned_document doc_id user_id r)) (documents d)
    /\ reminders_sent d'
       = List.filter (fun r => negb (document_id r =? doc_id)) (reminders_sent d)
    /\ users d' = users d /\ templates d' = templates d
    /\ result_of (with_connection (get_document_by_id doc_id user_id) d') = None
    /\ view_document cfg cancel user_id d
       = Ok (d, [answer;
                 edit_message_text (DOCUMENT_INFO row template_name)
                   (Some (build_document_actions_keyboard doc_id true))]).
Proof.
  intros Hn Hrow.
  assert (Hdel : callback_id cfg (lit "doc|delete|" ++ of_Z doc_id) = Ok (Some doc_id))
    by token_id.
  assert (Hyes : callback_id cfg (lit "doc|delete_yes|" ++ of_Z doc_id)
                 = Ok (Some doc_id)) by token_id.
  assert (Hview : callback_id cfg (lit "doc|view|" ++ of_Z doc_id) = Ok (Some doc_id))
    by token_id.
  exists (lit "doc|delete_yes|" ++ of_Z doc_id), (lit "doc|view|" ++ of_Z doc_id).
  pose proof (get_document_by_id_owned _ _ _ _ _ Hrow) as Hown.
  eexists _, _.
  split; [|split; [|split; [|split; [|split; [|split; [|split; [|split; [|split]]]]]]]].
  - unfold delete_document_confirm.
    rewrite Hdel.
    cbn [mbind result_bind]. rewrite Hrow. reflexivity.
  - routed state.
  - routed state.
  - unfold delete_document_execute.
    rewrite Hyes.
    cbn [mbind result_bind].
    unfold delete_document, with_connection, result_of, db_of.
    cbv [mbind Sql_bind select exec mret Sql_ret Database.store Database.journal].
    destruct (head (List.filter _ (documents d))) eqn:Hh.
    + simpl.
      assert ((0 <? len (List.filter (fun x => owned_document doc_id user_id x)
                                     (documents d))) = true) as ->
        by (apply Z.ltb_lt; by apply DatabaseSpec.len_filter_pos).
      reflexivity.
    + apply DatabaseSpec.head_filter_None in Hh.
      change (existsb (owned_document doc_id user_id) (documents d) = false) in Hh.
      congruence.
  - reflexivity.
  - reflexivity.
  - reflexivity.
  - reflexivity.
  - unfold get_document_by_id, with_connection, result_of.
    cbv [select Database.store]. simpl.
    rewrite (DatabaseMoreSpec.filter_none
               (fun x => owned_document doc_id user_id x)); [done|].
    apply DatabaseSpec.head_filter_None.
    apply (DatabaseSpec.existsb_filter_negb (owned_document doc_id user_id)).
  - unfold view_document.
    rewrite Hview.
    cbn [mbind result_bind]. rewrite Hrow. reflexivity.
Qed.

Lemma delete_through_the_chat_witness :
  exists confirm d',
    dispatch None confirm = Some Router.delete_document_execute
    /\ (exists shown,
          delete_document_execute Examples.sample_config confirm 100 Examples.sample_db
          = Ok (d', [answer;
                     edit_message_text (MESSAGES "delete_success") (Some shown)]))
    /\ documents d' = [Examples.sample_document 2 VNone].
Proof.
  destruct (delete_through_the_chat Examples.sample_config None 100 1
              Examples.sample_db
              (Examples.sample_document 1 (VDate (Examples.sample_today + 7))) VNone)
    as (confirm & cancel & d' & shown & _ & Hroute & _ & Hrun & Hdocs & _).
  - vm_compute. discriminate.
  - reflexivity.
  - exists confirm, d'. split; [done|]. split; [by exists shown|].
    rewrite Hdocs. reflexivity.
Defined.

(** X13: buttons that do nothing.  In every conversation state no handler
    takes the callback data of: the name, dates and template buttons of
    build_edit_document_keyboard (every button but Back), the two filter
    buttons of the /mydocs list, and the previous and next page buttons
    build_templates_keyboard shows in select mode, whatever the page; the
    page counter between them carries noop. *)
Theorem dead_buttons state doc_id page total_pages :
  Forall (fun data => dispatch state data = None)
    (tokens (removelast (build_edit_document_keyboard doc_id)))
  /\ Forall (fun b => dispatch state (callback_data b) = None) cmd_mydocs_filters
  /\ Forall (fun b => callback_data b = lit "noop"
                      \/ dispatch state (callback_data b) = None)
       (templates_nav_row true page total_pages).
Proof.
  split; [|split].
  - repeat constructor; cbn [callback_data]; routed state.
  - repeat constructor; cbn [callback_data]; routed state.
  - unfold templates_nav_row.
    destruct (0 <? page), (page <? total_pages - 1); cbn [app];
      repeat match goal with
             | |- Forall _ (_ :: _) => apply List.Forall_cons
             | |- Forall _ [] => apply List.Forall_nil
             end;
      cbn [callback_data];
      first [by left | right; routed state].
Qed.







End CallbacksSpec.

(** ** Pages *)

Module PagesSpec.
Import Utils Notions PaginationNotions.

Lemma take_add {A} (l : list A) a b :
  take (a + b) l = take a l ++ take b (drop a l).
Proof.
  revert l. induction a as [|a IH]; intros l; simpl; [done|].
  destruct l as [|x l]; simpl; [by rewrite take_nil|]. by rewrite IH.
Qed.

Lemma page_items_take {A} (l : list A) p k :
  0 < k -> 0 <= p ->
  page_items l p k = take (Z.to_nat k) (drop (Z.to_nat (p * k)) l).
Proof.
  intros Hk Hp. unfold page_items, slice, clamp_index.
  pose proof (PaginationSpec.len_nonneg l) as Hn.
  destruct (Z.ltb_spec (p * k) 0); [nia|].
  destruct (Z.ltb_spec (Z.min (p * k + k) (len l)) 0); [nia|].
  unfold len in *.
  destruct (Z.le_gt_cases (p * k) (Z.of_nat (length l))) as [Hle|Hgt].
  - rewrite (Z.min_l (p * k)) by lia.
    destruct (Z.le_gt_cases (p * k + k) (Z.of_nat (length l))).
    + rewrite !Z.min_l by lia. f_equal. lia.
    + rewrite (Z.min_r (p * k + k)), Z.min_id by lia.
      rewrite !take_ge; [done|rewrite length_drop; lia..].
  - rewrite (Z.min_r (p * k)) by lia.
    rewrite (Z.min_r (p * k + k)), Z.min_id by lia.
    rewrite Z.sub_diag. simpl.
    rewrite (drop_ge l (Z.to_nat (p * k))) by lia. by rewrite take_nil.
Qed.

Lemma pages_concat {A} (l : list A) k m :
  concat (map (fun p => take k (drop (p * k) l)) (seq 0 m)) = take (m * k) l.
Proof.
  induction m as [|m IH]; [done|].
  rewrite seq_S, map_app, concat_app, IH. simpl. rewrite app_nil_r.
  by rewrite (Nat.add_comm k), take_add.
Qed.

Lemma pages_cover {A} (l : list A) k total :
  0 < k -> 0 <= total -> len l <= total * k ->
  concat (map (fun p => page_items l (Z.of_nat p) k) (seq 0 (Z.to_nat total))) = l.
Proof.
  intros Hk Ht Hcover.
  rewrite (map_ext _ (fun p => take (Z.to_nat k) (drop (p * Z.to_nat k) l))).
  - rewrite pages_concat. apply take_ge. unfold len in Hcover. nia.
  - intros p. rewrite page_items_take by lia. do 2 f_equal. nia.
Qed.

Lemma page_items_bounds {A} (l : list A) p k total :
  0 < k -> 0 <= p < total -> (total - 1) * k < len l ->
  len (page_items l p k) <= k /\ page_items l p k <> [].
Proof.
  intros Hk Hp Hlast. rewrite page_items_take by lia. unfold len in *. split.
  - rewrite length_take. lia.
  - intros Hnil. apply (f_equal length) in Hnil.
    rewrite length_take, length_drop in Hnil. simpl in Hnil. nia.
Qed.

Lemma page_items_short {A} (l : list A) p k :
  0 < k -> 0 <= p -> len (page_items l p k) <= k.
Proof.
  intros Hk Hp. rewrite page_items_take by lia. unfold len.
  rewrite length_take. lia.
Qed.

Lemma build_templates_keyboard_rows templates page page_size select_mode :
  0 < page_size ->
  build_templates_keyboard templates page page_size select_mode
  = Ok (map (template_button select_mode) (page_items templates page page_size)
        ++ (if 1 <? Z.max 1 (ceil_div (len templates) page_size)
            then [templates_nav_row select_mode page
                    (Z.max 1 (ceil_div (len templates) page_size))]
            else [])
        ++ [footer select_mode]).
Proof.
  intros Hk. unfold build_templates_keyboard, templates_total_pages.
  rewrite PaginationSpec.floordiv_ceil by done. cbn [mbind result_bind].
  fold (page_items templates page page_size). unfold template_button, footer.
  destruct (1 <? Z.max 1 (ceil_div (len templates) page_size));
    by rewrite <- ?app_assoc.
Qed.

(** X15: the pages of build_templates_keyboard partition the templates.
    For a positive page size there are max(1, ceil(n / page_size)) pages;
    the templates shown on pages 0, 1, ... put one after the other are the
    list of templates, so each template is on exactly one page, in order; a
    page holds at most page_size templates and, unless there is no template
    at all, at least one; the keyboard of a page is the rows of its
    templates, the navigation row when there is more than one page, and the
    last row; and every navigation button is the page counter or a step to
    the previous or next page, which exists. *)
Theorem templates_pages_partition templates page_size select_mode :
  0 < page_size ->
  exists total,
    templates_total_pages (len templates) page_size = Ok total /\ 1 <= total
    /\ concat (map (fun p => page_items templates (Z.of_nat p) page_size)
                   (seq 0 (Z.to_nat total))) = templates
    /\ forall page, 0 <= page < total ->
         len (page_items templates page page_size) <= page_size
         /\ (templates <> [] -> page_items templates page page_size <> [])
         /\ build_templates_keyboard templates page page_size select_mode
            = Ok (map (template_button select_mode)
                      (page_items templates page page_size)
                  ++ (if 1 <? total
                      then [templates_nav_row select_mode page total] else [])
                  ++ [footer select_mode])
         /\ Forall (steps_within select_mode page total)
              (templates_nav_row select_mode page total).
Proof.
  intros Hk. exists (Z.max 1 (ceil_div (len templates) page_size)).
  pose proof (PaginationSpec.ceil_div_bounds (len templates) page_size Hk) as Hc.
  pose proof (PaginationSpec.len_nonneg templates) as Hn.
  assert (Htotal : templates_total_pages (len templates) page_size
                   = Ok (Z.max 1 (ceil_div (len templates) page_size))).
  { unfold templates_total_pages. by rewrite PaginationSpec.floordiv_ceil. }
  split; [done|]. split; [lia|]. split; [apply pages_cover; nia|].
  intros page Hpage. split; [apply page_items_short; lia|]. split; [|split].
  - intros Hne.
    assert (0 < len templates).
    { pose proof (PaginationSpec.len_nil_iff templates). 
      destruct (Z.eq_dec (len templates) 0); [tauto|lia]. }
    apply (page_items_bounds templates page page_size
             (Z.max 1 (ceil_div (len templates) page_size))); [done|done|].
    pose proof (PaginationSpec.ceil_div_pos (len templates) page_size Hk ltac:(done)).
    rewrite Z.max_r by lia. lia.
  - by apply build_templates_keyboard_rows.
  - unfold templates_nav_row.
    destruct (Z.ltb_spec 0 page), (Z.ltb_spec page
      (Z.max 1 (ceil_div (len templates) page_size) - 1)); cbn [app];
      repeat match goal with
             | |- Forall _ (_ :: _) => apply List.Forall_cons
             | |- Forall _ [] => apply List.Forall_nil
             end;
      first [by left
            | right; exists (page - 1); split; [lia|]; split; [by left|done]
            | right; exists (page + 1); split; [lia|]; split; [by right|done]].
Qed.

Lemma templates_pages_partition_witness :
  let templates :=
    [{| tmpl_id := 1; tmpl_name := lit "a"; tmpl_documents_count := 0 |};
     {| tmpl_id := 2; tmpl_name := lit "b"; tmpl_documents_count := 1 |};
     {| tmpl_id := 3; tmpl_name := lit "c"; tmpl_documents_count := 0 |}] in
  exists total,
    templates_total_pages (len templates) 2 = Ok total /\ 1 <= total
    /\ concat (map (fun p => page_items templates (Z.of_nat p) 2)
                   (seq 0 (Z.to_nat total))) = templates.
Proof.
  intros templates.
  destruct (templates_pages_partition templates 2 false) as (total & H1 & H2 & H3 & _);
    [reflexivity|].
  by exists total.
Defined.

End PagesSpec.

(** ** Choosing a template *)

Module TemplateChoiceSpec.
Import Utils Router Database Documents DocumentsNotions Builtins TemplateChoice.
Import Notions PaginationNotions BuiltinsSpec.

(** X16: during an upload only the first eight templates can be chosen.
    For a user with more than eight templates, show_template_selection
    stays in the template state and shows a keyboard on which the only
    buttons the router gives to a handler in that state are the page
    counter, the button for no template and the buttons of the first eight
    templates in name order; the keyboard has a next-page button, and no
    handler takes it in any conversation state. *)
Theorem selection_offers_first_eight user_id ctx d :
  upload (user_data ctx) = Some d ->
  8 < len (user_templates user_id (db ctx)) ->
  exists keyboard ctx',
    show_template_selection user_id ctx = Ok (WAITING_TEMPLATE, ctx')
    /\ sent ctx'
       = sent ctx ++ [edit_message_text (END_DATE_SELECTED (get d "end_date"))
                        (Some (InlineKeyboard keyboard))]
    /\ user_data ctx' = user_data ctx /\ db ctx' = db ctx
    /\ (forall b cb,
          b ∈ concat keyboard ->
          dispatch (Some WAITING_TEMPLATE) (callback_data b) = Some cb ->
          cb = Router.noop_callback
          \/ cb = Router.upload_template_callback
             /\ (callback_data b = lit "upload|template|skip"
                 \/ exists t, t ∈ take 8 (user_templates user_id (db ctx))
                              /\ callback_data b
                                 = lit "upload|template|" ++ of_Z (tmpl_id t)))
    /\ exists b, b ∈ concat keyboard /\ Utils.text b = CAPTION_NEXT
                 /\ forall state, dispatch state (callback_data b) = None.
Proof.
  intros Hd Hmany. unfold show_template_selection, call.
  change (result_of (with_connection (get_user_templates user_id) (db ctx)))
    with (user_templates user_id (db ctx)).
  set (templates := user_templates user_id (db ctx)) in *.
  change (upload (user_data (set_db (db_of (with_connection
            (get_user_templates user_id) (db ctx))) ctx)))
    with (upload (user_data ctx)).
  rewrite Hd.
  destruct templates as [|t0 ts] eqn:Hts; [unfold len in Hmany; simpl in Hmany; lia|].
  rewrite <- Hts in *. clear Hts t0 ts.
  rewrite PagesSpec.build_templates_keyboard_rows by done.
  pose proof (PaginationSpec.ceil_div_bounds (len templates) 8 ltac:(done)) as Hc.
  assert (Htotal : 1 < Z.max 1 (ceil_div (len templates) 8)) by lia.
  set (total := Z.max 1 (ceil_div (len templates) 8)) in *.
  destruct (Z.ltb_spec 1 total); [|lia].
  assert (Hpage : page_items templates 0 8 = take 8 templates).
  { rewrite PagesSpec.page_items_take by lia. done. }
  rewrite Hpage.
  assert (Hnav : templates_nav_row true 0 total
                 = [{| Utils.text := of_Z (0 + 1) ++ lit "/" ++ of_Z total;
                       callback_data := lit "noop" |};
                    {| Utils.text := CAPTION_NEXT;
                       callback_data := lit "upload|tmplpage" ++ bar ++ of_Z (0 + 1) |}]).
  { unfold templates_nav_row. simpl (0 <? 0).
    destruct (Z.ltb_spec 0 (total - 1)); [done|lia]. }
  eexists _, _. cbn [mbind result_bind].
  split; [reflexivity|]. split; [reflexivity|]. split; [reflexivity|].
  split; [reflexivity|]. split.
  - intros b cb Hb Hroute.
    rewrite !concat_app, Hnav in Hb. unfold footer in Hb.
    cbn [concat app] in Hb.
    apply elem_of_app in Hb as [Hb|Hb].
    + right. apply list_elem_of_In, in_concat in Hb as (row & Hrow & Hb).
      apply in_map_iff in Hrow as (t & <- & Ht).
      destruct Hb as [<-|[]]. cbn [callback_data] in *.
      split.
      * revert Hroute. generalize (of_Z (tmpl_id t)). intros id. by intros [= <-].
      * right. exists t. split; [by apply list_elem_of_In|done].
    + apply list_elem_of_In in Hb. cbn [In] in Hb.
      destruct Hb as [<-|[<-|[<-|[]]]]; cbn [callback_data] in *.
      * left. by injection Hroute as <-.
      * exfalso. revert Hroute. generalize (bar ++ of_Z (0 + 1)). by intros tail.
      * right. split; [by injection Hroute as <-|by left].
  - exists {| Utils.text := CAPTION_NEXT;
              callback_data := lit "upload|tmplpage" ++ bar ++ of_Z (0 + 1) |}.
    split; [|split; [reflexivity|]].
    + rewrite !concat_app, Hnav. cbn [concat app].
      apply elem_of_app. right.
      apply list_elem_of_In. cbn [In]. right. by left.
    + intros state. cbn [callback_data]. generalize (bar ++ of_Z (0 + 1)).
      intros tail. destruct state as [[]|]; reflexivity.
Qed.

Lemma selection_offers_first_eight_witness :
  exists keyboard ctx',
    show_template_selection 100 MoreExamples.nine_templates_context
    = Ok (WAITING_TEMPLATE, ctx')
    /\ sent ctx'
       = [edit_message_text (END_DATE_SELECTED VNone) (Some (InlineKeyboard keyboard))]
    /\ exists b, b ∈ concat keyboard /\ Utils.text b = CAPTION_NEXT
                 /\ forall state, dispatch state (callback_data b) = None.
Proof.
  destruct (selection_offers_first_eight 100 MoreExamples.nine_templates_context
              Examples.sample_draft)
    as (keyboard & ctx' & Hshow & Hsent & _ & _ & _ & Hnext).
  - reflexivity.
  - vm_compute. reflexivity.
  - by exists keyboard, ctx'.
Defined.

Lemma int_raises dec s e : int dec s = Raise e -> e = ValueError.
Proof.
  unfold int. destruct (match skip_blanks _ with IPlus :: _ => _ | _ => _ end) as [sign ts].
  destruct ts as [|[] ts]; try (by intros [= <-]);
    destruct (scan_digits 0 0 _) as [[value count] rest];
    destruct (_ || _); by intros [= <-].
Qed.

Lemma bind_int_ok v :
  (forall n, v = VInt n -> - 2 ^ 63 <= n < 2 ^ 63) -> bind_int v = Ok ().
Proof.
  intros Hv. destruct v as [| |n| |]; try done. unfold bind_int.
  pose proof (Hv n eq_refl) as Hn.
  destruct (Z.leb_spec (- 2 ^ 63) n); [|lia].
  destruct (Z.ltb_spec n (2 ^ 63)); [done|lia].
Qed.

Lemma bind_int_overflow n :
  ~ (- 2 ^ 63 <= n < 2 ^ 63) -> bind_int (VInt n) = Raise OverflowError.
Proof.
  intros Hn. unfold bind_int.
  destruct (Z.leb_spec (- 2 ^ 63) n); [|done].
  destruct (Z.ltb_spec n (2 ^ 63)); [lia|done].
Qed.

(** X17: upload_template_callback saves the draft with the template the
    callback data names, whoever owns that template and whether or not it
    exists.  With a draft holding a file and data of at least three
    segments, the template chosen is NULL when the third segment is skip or
    is not a number for int(), and the number otherwise; in particular the
    id of the button the selection keyboard builds for a template.  When
    the number is one sqlite3 can bind, a 64-bit integer, the conversation
    ends, the draft is gone, and the documents have one more row, the
    draft's with this template; the templates table is not consulted and
    stays as it was.  For any other number the insert raises OverflowError
    and so does the handler. *)
Theorem upload_template_callback_saves cfg user_id data ctx d :
  upload (user_data ctx) = Some d ->
  truthy (get d "file_id") = true ->
  3 <= len (split 124%N data) ->
  let chosen :=
    let template_option := nth 2 (split 124%N data) [] in
    if eqb template_option (lit "skip") then VNone
    else match int (unicode_decimal cfg) template_option with
         | Ok n => VInt n
         | Raise _ => VNone
         end in
  ((forall n, chosen = VInt n -> - 2 ^ 63 <= n < 2 ^ 63) ->
   exists ctx',
     upload_template_callback cfg user_id data ctx = Ok (END, ctx')
     /\ upload (user_data ctx') = None
     /\ documents (db ctx')
        = documents (db ctx)
          ++ [row_of_draft (documents_seq (db ctx) + 1) user_id
                (<["template_id" := chosen]> d)]
     /\ templates (db ctx') = templates (db ctx))
  /\ (forall n, chosen = VInt n -> ~ (- 2 ^ 63 <= n < 2 ^ 63) ->
      upload_template_callback cfg user_id data ctx = Raise OverflowError)
  /\ d_template_id (row_of_draft (documents_seq (db ctx) + 1) user_id
                      (<["template_id" := chosen]> d)) = chosen
  /\ forall template_id,
       len (of_Z template_id) <= MAX_STR_DIGITS ->
       data = lit "upload|template|" ++ of_Z template_id ->
       chosen = VInt template_id.
Proof.
  intros Hd Hfile Hlen chosen.
  assert (Hset : (if eqb (nth 2 (split 124%N data) []) (lit "skip")
                  then upload_setitem "template_id" VNone (send answer ctx)
                  else match int (unicode_decimal cfg) (nth 2 (split 124%N data) []) with
                       | Ok n => upload_setitem "template_id" (VInt n) (send answer ctx)
                       | Raise ValueError =>
                           upload_setitem "template_id" VNone (send answer ctx)
                       | Raise e => Raise e
                       end)
                 = Ok (set_upload (Some (<["template_id" := chosen]> d))
                         (send answer ctx))).
  { subst chosen. cbv zeta. unfold upload_setitem. simpl. rewrite Hd.
    destruct (eqb _ (lit "skip")); [done|].
    destruct (int _ _) as [n|e] eqn:Hint; [done|].
    by rewrite (int_raises _ _ _ Hint). }
  assert (Hcall : upload_template_callback cfg user_id data ctx
                  = save_document_from_callback user_id
                      (set_upload (Some (<["template_id" := chosen]> d))
                         (send answer ctx))).
  { unfold upload_template_callback.
    destruct (Z.ltb_spec (len (split 124%N data)) 3); [lia|].
    by rewrite Hset. }
  split; [|split; [|split]].
  - intros Hrange. rewrite Hcall.
    destruct (DocumentsSpec.save_document_from_callback_saves user_id
                (set_upload (Some (<["template_id" := chosen]> d)) (send answer ctx))
                (<["template_id" := chosen]> d)) as (ctx' & Hsave & Hup & Hdocs).
    { done. }
    { by rewrite DocumentsSpec.get_insert_ne. }
    { rewrite DocumentsSpec.get_insert_eq. by apply bind_int_ok. }
    exists ctx'. split; [done|]. split; [done|]. split; [done|].
    revert Hsave. unfold save_document_from_callback, upload_data, call.
    cbn [user_data set_upload upload send default]. unfold Datatypes.id.
    rewrite DocumentsSpec.get_insert_ne, Hfile by done.
    rewrite DocumentsSpec.get_insert_eq, bind_int_ok by done.
    simpl. intros [= <-]. by destruct (negb _).
  - intros n Hn Hout. rewrite Hcall.
    unfold save_document_from_callback, upload_data.
    cbn [user_data set_upload upload send default]. unfold Datatypes.id.
    rewrite DocumentsSpec.get_insert_ne, Hfile by done.
    rewrite DocumentsSpec.get_insert_eq, Hn.
    by rewrite bind_int_overflow.
  - simpl. apply DocumentsSpec.get_insert_eq.
  - intros template_id Htid ->. subst chosen. cbv zeta.
    change (lit "upload|template|" ++ of_Z template_id)
      with (lit "upload" ++ 124%N :: lit "template" ++ 124%N :: of_Z template_id).
    rewrite (split_prefix 124%N (lit "upload")) by CallbacksSpec.no_bar.
    rewrite (split_prefix 124%N (lit "template")) by CallbacksSpec.no_bar.
    rewrite (split_none 124%N (of_Z template_id)) by apply of_Z_no_bar.
    cbn [nth]. rewrite int_of_Z by done.
    destruct (eqb (of_Z template_id) (lit "skip")) eqn:Hskip; [|done].
    exfalso. apply DatetimeSpec.eqb_eq in Hskip.
    destruct (of_Z_chars template_id) as [Hall _]. rewrite Hskip in Hall.
    apply Forall_cons in Hall as [[?|[? ?]] _]; [done|].
    vm_compute in H0. done.
Qed.

Lemma upload_template_callback_saves_witness :
  exists ctx',
    upload_template_callback Examples.sample_config 100 (lit "upload|template|42")
      (Examples.sample_context Examples.sample_draft) = Ok (END, ctx')
    /\ upload (user_data ctx') = None
    /\ documents (db ctx')
       = documents Examples.sample_db
         ++ [row_of_draft 3 100 (<["template_id" := VInt 42]> Examples.sample_draft)]
    /\ templates (db ctx') = [].
Proof.
  destruct (upload_template_callback_saves Examples.sample_config 100
              (lit "upload|template|42")
              (Examples.sample_context Examples.sample_draft) Examples.sample_draft)
    as [H _].
  - reflexivity.
  - reflexivity.
  - vm_compute. discriminate.
  - apply H. intros n [= <-]. vm_compute. split; [discriminate|reflexivity].
Defined.

(** The least number sqlite3 cannot bind: the handler raises and nothing is
    saved. *)
Example upload_template_callback_overflow :
  upload_template_callback Examples.sample_config 100
    (lit "upload|template|9223372036854775808")
    (Examples.sample_context Examples.sample_draft)
  = Raise OverflowError.
Proof. reflexivity. Qed.

End TemplateChoiceSpec.

(** ** Creating and deleting templates *)

Module TemplateHandlersSpec.
Import Database DatabaseMore TemplateHandlers.

Lemma templates_count_unfold user_id ctx :
  templates_count user_id ctx
  = len (List.filter (fun t => t_user_id t =? user_id) (templates (tables (store ctx)))).
Proof. reflexivity. Qed.

Lemma NoDup_map_filter {A B} (f : A -> B) (p : A -> bool) l :
  NoDup (map f l) -> NoDup (map f (List.filter p l)).
Proof.
  induction l as [|x l IH]; simpl; [done|].
  intros [Hx Hl]%NoDup_cons. destruct (p x); simpl; [|by apply IH].
  apply NoDup_cons. split; [|by apply IH].
  intros (y & Hy & Hin)%list_elem_of_In%in_map_iff. apply Hx.
  rewrite <- Hy. apply list_elem_of_In, in_map.
  by apply filter_In in Hin as [? _].
Qed.

Lemma len_filter_filter {A} (p q : A -> bool) l :
  len (List.filter p (List.filter q l)) <= len (List.filter p l).
Proof.
  unfold len. induction l as [|x l IH]; simpl; [done|].
  destruct (q x); simpl; destruct (p x); simpl; lia.
Qed.

(** The invariant looks at the flag and the store only. *)
Lemma template_inv_same max user_id ctx ctx' :
  store ctx' = store ctx ->
  (truthy (default VNone (Documents.creating_template (user_data ctx'))) = true ->
   truthy (default VNone (Documents.creating_template (user_data ctx))) = true) ->
  template_inv max user_id ctx -> template_inv max user_id ctx'.
Proof.
  intros Hs Hf [H1 H2 H3 H4 H5 H6].
  split; rewrite ?templates_count_unfold, ?Hs in *; auto.
Qed.

Lemma create_template_start_inv max user_id ctx :
  template_inv max user_id ctx ->
  template_inv max user_id (create_template_start max user_id ctx).
Proof.
  intros Hinv. unfold create_template_start.
  destruct (Z.leb_spec max (templates_count user_id (send answer ctx))) as [Hfull|Hroom].
  - by apply (template_inv_same max user_id ctx).
  - destruct Hinv as [H1 H2 H3 H4 H5 H6]. split; try done.
Qed.

Lemma create_template_name_inv max text user_id ctx :
  template_inv max user_id ctx ->
  template_inv max user_id (create_template_name text user_id ctx).
Proof.
  intros Hinv. unfold create_template_name.
  destruct (truthy (default VNone (Documents.creating_template (user_data ctx))))
    eqn:Hflag; simpl; [|done].
  destruct (Z.ltb_spec (len (strip text)) 2) as [Hshort|Hlong].
  { by apply (template_inv_same max user_id ctx). }
  set (name := if 50 <? len (strip text) then slice_to (strip text) 50 else strip text).
  assert (Hname : 2 <= len name <= 50).
  { subst name. destruct (Z.ltb_spec 50 (len (strip text))) as [Hcut|?]; [|lia].
    rewrite DocumentsSpec.slice_to_take by lia. unfold len in *.
    rewrite length_take. lia. }
  unfold insert_template.
  destruct (head (List.filter _ (templates (tables (store ctx))))) eqn:Hdup.
  { by apply (template_inv_same max user_id ctx). }
  destruct Hinv as [H1 H2 H3 H4 H5 H6].
  destruct (Z.eqb_spec (templates_seq (store ctx) + 1) 0) as [?|_]; [lia|].
  cbn [negb].
  assert (Hcount : templates_count user_id ctx < max) by auto.
  rewrite templates_count_unfold in Hcount.
  split; rewrite ?templates_count_unfold; simpl.
  - rewrite List.filter_app. simpl. rewrite Z.eqb_refl. unfold len in *.
    rewrite length_app. simpl. lia.
  - done.
  - lia.
  - intros t [Ht| ->%list_elem_of_singleton]%elem_of_app; simpl; [|lia].
    specialize (H4 t Ht). lia.
  - rewrite map_app. simpl. apply NoDup_app. split; [done|].
    split; [|apply NoDup_singleton].
    intros pair Hin ->%list_elem_of_singleton.
    apply list_elem_of_In, in_map_iff in Hin as (t & Heq & Hin).
    injection Heq as Hu Hn.
    apply DatabaseSpec.head_filter_None in Hdup.
    rewrite <- not_true_iff_false in Hdup. apply Hdup.
    apply existsb_exists. exists t. split; [done|].
    rewrite Hu, Z.eqb_refl. simpl. by apply DatetimeSpec.eqb_eq.
  - intros t [Ht| ->%list_elem_of_singleton]%elem_of_app Hu; simpl; [by apply H6|done].
Qed.

Lemma delete_template_execute_inv max cfg data user_id ctx ctx' :
  template_inv max user_id ctx ->
  delete_template_execute cfg data user_id ctx = Ok ctx' ->
  template_inv max user_id ctx'.
Proof.
  intros Hinv. unfold delete_template_execute.
  destruct (len (split 124%N data) <? 3).
  { intros [= <-]. by apply (template_inv_same max user_id ctx). }
  destruct (Builtins.int _ _) as [template_id|]; [|done]. cbn [mbind result_bind].
  unfold delete_template. simpl.
  destruct (head (List.filter _ (templates (tables (store ctx))))) as [found|] eqn:Hown.
  - destruct Hinv as [H1 H2 H3 H4 H5 H6].
    rewrite templates_count_unfold in *.
    pose proof (len_filter_filter (fun t => t_user_id t =? user_id)
                  (fun t => negb (owned_template template_id user_id t))
                  (templates (tables (store ctx)))) as Hless.
    assert (Hsub : forall x,
              x ∈ List.filter (fun t => negb (owned_template template_id user_id t))
                    (templates (tables (store ctx))) ->
              x ∈ templates (tables (store ctx))).
    { intros x Hx. apply list_elem_of_In, filter_In in Hx as [Hx _].
      by apply list_elem_of_In. }
    destruct (0 <? _); intros [= <-];
      (split; rewrite ?templates_count_unfold; simpl;
       [lia|intros Hf; specialize (H2 Hf); lia|done|auto|
        by apply NoDup_map_filter|auto]).
  - simpl. intros [= <-]. apply (template_inv_same max user_id ctx); try done.
    simpl. by destruct (store ctx).
Qed.

Lemma handle_inv max cfg user_id ctx u :
  template_inv max user_id ctx -> template_inv max user_id (handle max cfg user_id ctx u).
Proof.
  intros Hinv. destruct u as [|text|data|]; simpl.
  - by apply create_template_start_inv.
  - by apply create_template_name_inv.
  - destruct (delete_template_execute cfg data user_id ctx) as [ctx'|e] eqn:Hd.
    + by apply (delete_template_execute_inv max cfg data user_id ctx).
    + by apply (template_inv_same max user_id ctx).
  - by apply (template_inv_same max user_id ctx).
Qed.

(** X18: the template limit and the name rules hold whatever the user
    does.  From a state where the user has at most MAX_TEMPLATES_PER_USER
    templates, each with a name of 2 to 50 characters, no two templates of a
    user share a name, and the creation flag is set only below the limit,
    any sequence of presses of the create button, text messages, confirmed
    deletions and /cancel commands leaves a state of the same kind: the
    limit is never exceeded, names stay unique per user and within 2 to 50
    characters. *)
Theorem template_limit_holds max cfg user_id updates ctx :
  template_inv max user_id ctx ->
  template_inv max user_id (fold_left (handle max cfg user_id) updates ctx).
Proof.
  revert ctx. induction updates as [|u updates IH]; intros ctx Hinv; simpl; [done|].
  apply IH. by apply handle_inv.
Qed.

Lemma template_limit_holds_witness :
  let ctx := fold_left (handle 2 Examples.sample_config 100)
               MoreExamples.three_creations MoreExamples.no_templates_context in
  template_inv 2 100 ctx /\ templates_count 100 ctx = 2.
Proof.
  split; [|reflexivity].
  apply (template_limit_holds 2 Examples.sample_config 100
           MoreExamples.three_creations MoreExamples.no_templates_context).
  split; simpl; try done.
  - intros t Ht. by apply elem_of_nil in Ht.
  - constructor.
  - intros t Ht. by apply elem_of_nil in Ht.
Defined.

End TemplateHandlersSpec.

(** ** Dates as text *)

Module DatesSpec.

Import PyStr Config Datetime Formatting FormattingSpec.

(** X19: dates survive their three textual forms.  For every calendar date
    the [date] constructor accepts: the ISO text that the database hands
    back for it is read by [parse_date] as that date, so [get_days_until]
    and [get_status_emoji] answer the same for the stored text as for the
    date object; and the manual date entry of the upload conversation reads
    the date back from what [strftime("%d.%m.%Y")] prints for it (years of
    four digits), from the same digits typed with slashes, and from the ISO
    text. *)
Theorem dates_round_trip cfg today y m d date :
  (forall c, (c < 128)%N -> unicode_decimal cfg c = ascii_decimal c) ->
  make_date y m d = Ok date ->
  let dec := unicode_decimal cfg in
  Status.parse_date cfg (isoformat y m d) = Some date
  /\ Status.get_days_until cfg today (VStr (isoformat y m d))
     = Status.get_days_until cfg today (VDate date)
  /\ Status.get_status_emoji cfg today (VStr (isoformat y m d))
     = Status.get_status_emoji cfg today (VDate date)
  /\ (1000 <= y ->
      first_parse dec (strftime_dmY y m d) MANUAL_FORMATS = Ok (Some date))
  /\ first_parse dec (typed_with_slashes y m d) MANUAL_FORMATS = Ok (Some date)
  /\ first_parse dec (isoformat y m d) MANUAL_FORMATS = Ok (Some date).
Proof.
  intros Hdec Hdate dec.
  destruct (valid_fields y m d date Hdate) as (Hy & Hm & Hd).
  assert (Hsep : forall sep : char, (sep < 128)%N -> Forall (fun c => (c < 128)%N) [sep])
    by (intros; by repeat constructor).
  assert (Hiso : Forall (fun c => (c < 128)%N) (isoformat y m d)).
  { unfold isoformat. repeat (apply Forall_app; split);
      first [apply pad4_ascii; lia | apply pad2_ascii; lia | by apply Hsep]. }
  assert (Hdots : Forall (fun c => (c < 128)%N) (strftime_dmY y m d)).
  { unfold strftime_dmY. repeat (apply Forall_app; split);
      first [apply pad4_ascii; lia | apply pad2_ascii; lia | by apply Hsep]. }
  assert (Hslashes : Forall (fun c => (c < 128)%N) (typed_with_slashes y m d)).
  { unfold typed_with_slashes. repeat (apply Forall_app; split);
      first [apply pad4_ascii; lia | apply pad2_ascii; lia | by apply Hsep]. }
  assert (Hparse : Status.parse_date cfg (isoformat y m d) = Some date).
  { unfold Status.parse_date.
    rewrite (DatetimeSpec.strptime_agree dec ascii_decimal).
    - by rewrite (strptime_iso y m d date Hdate).
    - eapply Forall_impl; [exact Hiso|]. exact Hdec. }
  assert (Hdays : Status.get_days_until cfg today (VStr (isoformat y m d))
                  = Status.get_days_until cfg today (VDate date)).
  { unfold Status.get_days_until. rewrite Hparse.
    destruct (pad4_digits y ltac:(lia)) as (a & b & c & e & _ & _ & _ & _ & _ & Hp).
    unfold isoformat. rewrite Hp. reflexivity. }
  split; [done|]. split; [done|].
  split; [unfold Status.get_status_emoji; by rewrite Hdays|].
  destruct (pad2_digits d ltac:(lia)) as (d1 & d2 & Hd1 & Hd2 & _ & Hpd).
  destruct (pad4_digits y ltac:(lia)) as (a & b & c & e & Ha & Hb & Hc & He & _ & Hpy).
  assert (Hdotted : strptime ascii_decimal (strftime_dmY y m d) (lit "%d.%m.%Y")
                    = Ok date)
    by exact (strptime_separated 46%N (lit "%d.%m.%Y") y m d date eq_refl Hdate).
  assert (Hslashed : strptime ascii_decimal (typed_with_slashes y m d) (lit "%d/%m/%Y")
                     = Ok date)
    by exact (strptime_separated 47%N (lit "%d/%m/%Y") y m d date eq_refl Hdate).
  assert (Hnot_dots : strptime ascii_decimal (typed_with_slashes y m d) (lit "%d.%m.%Y")
                      = Raise ValueError).
  { unfold typed_with_slashes. rewrite Hpd.
    apply (strptime_day_first_fails _ 46%N _ [D_m; D_lit 46%N; D_Y]);
      [done|by apply digit_char_facts|done]. }
  assert (Hiso_not : forall sep fmt,
            directives_of fmt = Some [D_d; D_lit sep; D_m; D_lit sep; D_Y] ->
            sep = 46%N \/ sep = 47%N ->
            strptime ascii_decimal (isoformat y m d) fmt = Raise ValueError).
  { intros sep fmt Hfmt Hsep'. unfold isoformat. rewrite Hpy.
    apply (strptime_day_first_fails _ sep _ [D_m; D_lit sep; D_Y]); [done|..];
      destruct Hsep' as [-> | ->]; by apply digit_char_facts. }
  split; [|split].
  - intros _. rewrite (DatetimeSpec.first_parse_ascii dec) by done.
    unfold MANUAL_FORMATS. by rewrite DatetimeSpec.first_parse_cons, Hdotted.
  - rewrite (DatetimeSpec.first_parse_ascii dec) by done.
    unfold MANUAL_FORMATS.
    by rewrite !DatetimeSpec.first_parse_cons, Hnot_dots, Hslashed.
  - rewrite (DatetimeSpec.first_parse_ascii dec) by done.
    unfold MANUAL_FORMATS. rewrite !DatetimeSpec.first_parse_cons.
    rewrite (Hiso_not 46%N (lit "%d.%m.%Y")) by (done || tauto).
    rewrite (Hiso_not 47%N (lit "%d/%m/%Y")) by (done || tauto).
    by rewrite (strptime_iso y m d date Hdate).
Qed.

Lemma dates_round_trip_witness :
  let cfg := Examples.sample_config in
  let today := Examples.sample_today in
  let dec := unicode_decimal cfg in
  let date := ymd2ord 2024 2 29 in
  Status.parse_date cfg (isoformat 2024 2 29) = Some date
  /\ Status.get_days_until cfg today (VStr (isoformat 2024 2 29))
     = Status.get_days_until cfg today (VDate date)
  /\ Status.get_status_emoji cfg today (VStr (isoformat 2024 2 29))
     = Status.get_status_emoji cfg today (VDate date)
  /\ (1000 <= 2024 ->
      first_parse dec (strftime_dmY 2024 2 29) MANUAL_FORMATS = Ok (Some date))
  /\ first_parse dec (typed_with_slashes 2024 2 29) MANUAL_FORMATS = Ok (Some date)
  /\ first_parse dec (isoformat 2024 2 29) MANUAL_FORMATS = Ok (Some date).
Proof.
  apply (dates_round_trip Examples.sample_config Examples.sample_today 2024 2 29).
  - intros c Hc. reflexivity.
  - reflexivity.
Defined.

End DatesSpec.

(** ** The lists of documents *)

Module DocumentListSpec.
Import Utils Router Database DatabaseMore Builtins Keyboards Status.
Import Notions PaginationNotions DocumentList DocumentListNotions BuiltinsSpec.

Lemma get_status_emoji_stored cfg today v :
  end_date_stored v -> exists emoji, get_status_emoji cfg today v = Ok emoji.
Proof.
  intros [->|[[d ->]|[s ->]]]; unfold get_status_emoji, get_days_until.
  - by eexists.
  - cbn [truthy negb mbind result_bind].
    repeat match goal with |- context [if ?b then _ else _] => destruct b end;
      by eexists.
  - destruct (truthy (VStr s)); cbn [negb mbind result_bind]; [|by eexists].
    destruct (parse_date cfg s); cbn [mbind result_bind];
      repeat match goal with |- context [if ?b then _ else _] => destruct b end;
      by eexists.
Qed.

Lemma len_app {A} (a b : list A) : len (a ++ b) = len a + len b.
Proof. unfold len. rewrite length_app. lia. Qed.

Lemma len_slice_to {A} (l : list A) k : 0 <= k -> len (slice_to l k) <= k.
Proof.
  intros Hk. unfold slice_to, slice, clamp_index, len.
  rewrite length_take. change (0 <? 0) with false. cbv iota.
  destruct (Z.ltb_spec k 0); lia.
Qed.

Lemma document_button_ok format cfg today state doc :
  end_date_stored (d_end_date doc) ->
  exists label,
    document_button format cfg today doc
    = Ok [{| Utils.text := label;
             callback_data := lit "doc|view|" ++ of_Z (d_id doc) |}]
    /\ len label <= 40
    /\ dispatch state (lit "doc|view|" ++ of_Z (d_id doc)) = Some Router.view_document.
Proof.
  intros Hdate. destruct (get_status_emoji_stored cfg today _ Hdate) as [emoji He].
  unfold document_button. rewrite He. cbn [mbind result_bind].
  eexists. split; [reflexivity|]. split.
  - destruct (Z.ltb_spec 40 (len (emoji ++ lit " " ++ format (d_name doc)))); [|done].
    rewrite len_app. pose proof (len_slice_to (emoji ++ lit " " ++ format (d_name doc)) 37).
    change (len (lit "...")) with 3. lia.
  - generalize (of_Z (d_id doc)). intros ?. destruct state as [[]|]; reflexivity.
Qed.

Lemma document_buttons_ok format cfg today state docs :
  Forall (fun doc => end_date_stored (d_end_date doc)) docs ->
  exists rows,
    document_buttons format cfg today docs = Ok rows
    /\ map (map callback_data) rows
       = map (fun doc => [lit "doc|view|" ++ of_Z (d_id doc)]) docs
    /\ Forall (Forall (fun b => len (Utils.text b) <= 40
                                /\ dispatch state (callback_data b)
                                   = Some Router.view_document)) rows.
Proof.
  induction 1 as [|doc docs Hdoc _ (rows & Hrows & Hdata & Hlabels)].
  - exists []. by repeat split.
  - destruct (document_button_ok format cfg today state doc Hdoc)
      as (label & Hbutton & Hlen & Hroute).
    eexists. cbn [document_buttons]. rewrite Hbutton, Hrows. cbn [mbind result_bind].
    split; [reflexivity|]. split.
    + cbn [map callback_data]. by rewrite Hdata.
    + apply List.Forall_cons; [|done].
      apply List.Forall_cons; [|apply List.Forall_nil]. done.
Qed.

Lemma page_items_Forall {A} (P : A -> Prop) (l : list A) p k :
  Forall P l -> Forall P (page_items l p k).
Proof. intros Hl. unfold page_items, slice. by apply Forall_take, Forall_drop. Qed.

(** The page [mydocs_list] reads from the data of a page button. *)
Lemma page_of_button dec p :
  len (of_Z p) <= MAX_STR_DIGITS ->
  (if 2 <? len (split 124%N (lit "mydocs|list|" ++ of_Z p))
   then int dec (nth 2 (split 124%N (lit "mydocs|list|" ++ of_Z p)) [])
   else Ok 0) = Ok p.
Proof.
  intros Hp.
  change (lit "mydocs|list|" ++ of_Z p)
    with (lit "mydocs" ++ 124%N :: lit "list" ++ 124%N :: of_Z p).
  rewrite (split_prefix 124%N (lit "mydocs"))
    by (intros H%list_elem_of_In; vm_compute in H; intuition discriminate).
  rewrite (split_prefix 124%N (lit "list"))
    by (intros H%list_elem_of_In; vm_compute in H; intuition discriminate).
  rewrite (split_none 124%N (of_Z p)) by apply of_Z_no_bar.
  change (2 <? len [lit "mydocs"; lit "list"; of_Z p]) with true. cbn [nth].
  by apply int_of_Z.
Qed.

Lemma more_iff_pages n : 0 <= n -> (10 <? n) = (1 <? ceil_div n 10).
Proof.
  intros Hn. pose proof (PaginationSpec.ceil_div_bounds n 10 ltac:(lia)).
  destruct (Z.ltb_spec 10 n), (Z.ltb_spec 1 (ceil_div n 10)); (done || lia).
Qed.

(** X20: /mydocs and the pages of the list show every document once.  For
    a non-empty list of documents whose end dates are NULL, dates or texts,
    there are ceil(n / 10) pages; the documents of the pages 0, 1, ... put
    one after the other are the list, in order.  For every page within
    range whose number is within the digit limit of int(), the list
    callback with the data of its page button shows one button per document
    of the page, with a label of at most 40 characters and the data
    doc|view|<id>, which goes to view_document in every conversation state,
    followed by the navigation row when there is more than one page; each
    navigation button is the page counter or a step to the previous or
    next page, which exists, and goes back to the list callback.  /mydocs
    shows the buttons of page 0, the button for page 1 exactly when there
    is more than one page, and the filter row. *)
Theorem documents_list_pages format cfg today state stats documents :
  documents <> [] ->
  Forall (fun doc => end_date_stored (d_end_date doc)) documents ->
  let total := ceil_div (len documents) 10 in
  let shown p := page_items documents p 10 in
  1 <= total
  /\ concat (map (fun p => shown (Z.of_nat p)) (seq 0 (Z.to_nat total))) = documents
  /\ forall p, 0 <= p < total -> len (of_Z p) <= MAX_STR_DIGITS ->
       exists rows,
         document_buttons format cfg today (shown p) = Ok rows
         /\ map (map callback_data) rows
            = map (fun doc => [lit "doc|view|" ++ of_Z (d_id doc)]) (shown p)
         /\ Forall (Forall (fun b => len (Utils.text b) <= 40
                                     /\ dispatch state (callback_data b)
                                        = Some Router.view_document)) rows
         /\ mydocs_list format cfg today (lit "mydocs|list|" ++ of_Z p) documents
            = Ok [answer;
                  edit_message_text (MYDOCS_PAGE (p + 1) total)
                    (Some (rows ++ if 1 <? total
                                   then [mydocs_nav_row p total] else []))]
         /\ Forall (fun b =>
                      callback_data b = lit "noop"
                      \/ exists q, 0 <= q < total /\ (q = p - 1 \/ q = p + 1)
                           /\ callback_data b = lit "mydocs|list|" ++ of_Z q
                           /\ dispatch state (callback_data b)
                              = Some Router.mydocs_list)
              (mydocs_nav_row p total)
         /\ (p = 0 ->
             cmd_mydocs format cfg today documents stats
             = Ok (reply_text (MYDOCS_HEADER stats)
                     (Some (rows
                            ++ (if 1 <? total
                                then [[{| Utils.text :=
                                            CAPTION_MORE ++ of_Z (len documents - 10)
                                            ++ lit ")";
                                          callback_data :=
                                            lit "mydocs|list|" ++ of_Z 1 |}]]
                                else [])
                            ++ [cmd_mydocs_filters])))).
Proof.
  intros Hne Hdates. cbv zeta.
  remember (ceil_div (len documents) 10) as total eqn:Htot.
  pose proof (PaginationSpec.ceil_div_bounds (len documents) 10 ltac:(lia)) as Hc.
  rewrite <- Htot in Hc.
  pose proof (PaginationSpec.len_nonneg documents) as Hn.
  assert (0 < len documents).
  { pose proof (PaginationSpec.len_nil_iff documents).
    destruct (Z.eq_dec (len documents) 0); [tauto|lia]. }
  assert (Htotal : 1 <= total) by nia.
  split; [done|]. split; [apply PagesSpec.pages_cover; lia|].
  intros p Hp Hdigits.
  destruct (document_buttons_ok format cfg today state (page_items documents p 10))
    as (rows & Hrows & Hdata & Hlabels);
    [by apply page_items_Forall|].
  exists rows. split; [done|]. split; [done|]. split; [done|].
  split; [|split].
  - unfold mydocs_list. cbv zeta.
    rewrite (page_of_button (unicode_decimal cfg) p Hdigits).
    cbn [mbind result_bind].
    rewrite PaginationSpec.floordiv_ceil by lia. cbn [mbind result_bind].
    rewrite <- Htot.
    change (slice documents (p * 10) (Z.min (p * 10 + 10) (len documents)))
      with (page_items documents p 10).
    rewrite Hrows. cbn [mbind result_bind].
    destruct documents as [|doc rest]; [done|].
    unfold mydocs_nav_row.
    destruct (Z.ltb_spec 1 total);
      [|destruct (Z.ltb_spec 0 p), (Z.ltb_spec p (total - 1));
        first [lia | cbn [app]; by rewrite app_nil_r]].
    by destruct (0 <? p).
  - unfold mydocs_nav_row.
    destruct (Z.ltb_spec 0 p), (Z.ltb_spec 1 total), (Z.ltb_spec p (total - 1));
      cbn [app];
      repeat match goal with
             | |- Forall _ (_ :: _) => apply List.Forall_cons
             | |- Forall _ [] => apply List.Forall_nil
             end; cbn [callback_data];
      first [ by left
            | right; eexists; split; [|split; [|split; [reflexivity|]]];
              [lia | (by left) || (by right)
              | match goal with
                | |- dispatch _ (_ ++ ?t) = _ =>
                    generalize t; intros ?; destruct state as [[]|]; reflexivity
                end ] ].
  - intros ->. unfold cmd_mydocs. cbv zeta.
    assert (Hfirst : slice_to documents 10 = page_items documents 0 10).
    { unfold page_items, slice_to, slice, clamp_index.
      change (0 * 10 + 10) with 10. change (0 * 10) with 0.
      destruct (Z.ltb_spec (Z.min 10 (len documents)) 0); [lia|].
      change (10 <? 0) with false. cbv iota. f_equal. lia. }
    rewrite Hfirst, Hrows. cbn [mbind result_bind].
    rewrite (more_iff_pages (len documents)) by done. rewrite <- Htot.
    destruct documents as [|doc rest]; [done|].
    destruct (1 <? total); by rewrite <- ?app_assoc.
Qed.

Lemma documents_list_pages_witness :
  let documents := ListExamples.twelve_documents in
  1 <= ceil_div (len documents) 10
  /\ concat (map (fun p => page_items documents (Z.of_nat p) 10)
                 (seq 0 (Z.to_nat (ceil_div (len documents) 10)))) = documents.
Proof.
  destruct (documents_list_pages ListExamples.name_text Examples.sample_config
              Examples.sample_today None ListExamples.no_statistics
              ListExamples.twelve_documents) as (Hpages & Hcover & _).
  - discriminate.
  - repeat (apply List.Forall_cons; [by left|]). apply List.Forall_nil.
  - split; [exact Hpages | exact Hcover].
Defined.

End DocumentListSpec.

(** ** The date keyboard *)

Module DateKeyboardSpec.
Import Utils Datetime Documents Keyboards DateKeyboard DateKeyboardNotions.

Ltac listed_quick :=
  right; eexists; apply list_elem_of_In; cbn [In quick_dates]; tauto.

Ltac left_as :=
  unfold leaves; repeat split;
  cbn [sent send set_upload user_data upload creating_template db];
  rewrite <- ?app_assoc; reflexivity.

Ltac stored :=
  match goal with
  | Hd : upload (user_data (send answer _)) = Some ?d |- _ =>
      rewrite (DocumentsSpec.upload_setitem_ok _ _ _ d Hd)
  end.

Ltac start_quick Hnext code days :=
  right; exists code, days; eexists; split; [listed_quick|]; split; [reflexivity|];
  split;
  [cbv -[Datetime.add_days upload_setitem send set_upload Z.add insert
         build_date_keyboard];
   rewrite ?DateKeyboardFacts.add_days_ok by lia; rewrite ?Z.add_0_r;
   cbn [mbind result_bind]; stored; cbn [mbind result_bind];
   rewrite Hnext; reflexivity
  |left_as].

Ltac end_quick code days :=
  right; do 2 eexists; split;
  [right; exists code, days; split; [listed_quick|]; split; reflexivity|];
  split;
  [cbv -[Datetime.add_days upload_setitem send show_template_selection
         set_upload Z.add insert];
   rewrite DateKeyboardFacts.add_days_ok by lia;
   cbn [fmap result_fmap mbind result_bind]; stored; reflexivity
  |left_as].

(** X21: every button of the date keyboards is understood.  When the
    keyboards can be built and the dates are in range on the day a button
    is pressed, each button of the start keyboard is dispatched to the
    start-date callback in the state waiting for the start date and to no
    handler in any other state, and the callback either asks for a typed
    date and sets the flag for it in the draft, or stores in the draft the
    day of the press plus the days the keyboard has for the button, and
    moves on to the end date with the end keyboard of its day; likewise
    each button of the end keyboard reaches the end-date callback in the
    state waiting for the end date only, which asks for a typed date, or
    goes on to the template selection with no end date in the draft for
    the skip button and with the day of the press plus the keyboard's days
    for the others.  The rest of the session and the database stay as they
    were. *)
Theorem date_keyboards_are_understood cfg shown pressed built user_id ctx d :
  upload (user_data ctx) = Some d ->
  0 < shown -> shown + 1825 <= MAXORDINAL ->
  0 < pressed -> pressed + 1825 <= MAXORDINAL ->
  0 < built -> built + 1825 <= MAXORDINAL ->
  exists start_keyboard end_keyboard next_keyboard,
    build_date_keyboard cfg shown (lit "start") true false true = Ok start_keyboard
    /\ build_date_keyboard cfg shown (lit "end") false true true = Ok end_keyboard
    /\ build_date_keyboard cfg built (lit "end") false true true = Ok next_keyboard
    /\ Forall (fun data =>
          (forall state,
             Router.dispatch state data
             = match state with
               | Some WAITING_START_DATE => Some Router.upload_start_date_callback
               | _ => None
               end)
          /\ ((data = lit "start|manual"
               /\ exists ctx',
                    upload_start_date_callback cfg pressed built data ctx
                    = Ok (WAITING_START_DATE, ctx')
                    /\ leaves ctx ctx' (<["waiting_manual_start" := VBool true]> d)
                         [answer; edit_message_text ENTER_START_DATE None])
              \/ exists code days ctx',
                   listed true code days
                   /\ data = lit "start|" ++ lit code
                   /\ upload_start_date_callback cfg pressed built data ctx
                      = Ok (WAITING_END_DATE, ctx')
                   /\ leaves ctx ctx' (<["start_date" := VDate (pressed + days)]> d)
                        [answer;
                         edit_message_text (START_DATE_SELECTED (pressed + days))
                           (Some (InlineKeyboard next_keyboard))]))
         (tokens start_keyboard)
    /\ Forall (fun data =>
          (forall state,
             Router.dispatch state data
             = match state with
               | Some WAITING_END_DATE => Some Router.upload_end_date_callback
               | _ => None
               end)
          /\ ((data = lit "end|manual"
               /\ exists ctx',
                    upload_end_date_callback pressed user_id data ctx
                    = Ok (WAITING_END_DATE, ctx')
                    /\ leaves ctx ctx' (<["waiting_manual_end" := VBool true]> d)
                         [answer; edit_message_text ENTER_END_DATE None])
              \/ exists v ctx1,
                   ((data = lit "end|skip" /\ v = VNone)
                    \/ exists code days,
                         listed false code days
                         /\ data = lit "end|" ++ lit code
                         /\ v = VDate (pressed + days))
                   /\ upload_end_date_callback pressed user_id data ctx
                      = show_template_selection user_id ctx1
                   /\ leaves ctx ctx1 (<["end_date" := v]> d) [answer]))
         (tokens end_keyboard).
Proof.
  intros Hd Hlo Hhi Hlo' Hhi' Hlo'' Hhi''.
  assert (Hd' : upload (user_data (send answer ctx)) = Some d) by done.
  assert (Hd'' : forall a, upload (user_data (send a (send answer ctx))) = Some d)
    by done.
  destruct (DateKeyboardFacts.build_date_keyboard_built cfg (lit "start") shown
              true false Hlo Hhi) as (start_keyboard & Hstart & Hstart_tokens & _).
  destruct (DateKeyboardFacts.build_date_keyboard_built cfg (lit "end") shown
              false true Hlo Hhi) as (end_keyboard & Hend & Hend_tokens & _).
  destruct (DateKeyboardFacts.build_date_keyboard_built cfg (lit "end") built
              false true Hlo'' Hhi'') as (next_keyboard & Hnext & _).
  exists start_keyboard, end_keyboard, next_keyboard.
  split; [exact Hstart|]. split; [exact Hend|]. split; [exact Hnext|].
  rewrite Hstart_tokens, Hend_tokens. cbn [app].
  clear Hstart Hend Hstart_tokens Hend_tokens Hhi Hhi''.
  change (lit "end") with [101%N; 110%N; 100%N] in Hnext.
  split.
  - repeat match goal with
           | |- Forall _ (_ :: _) => apply List.Forall_cons
           | |- Forall _ [] => apply List.Forall_nil
           end;
      (split; [intros [[]|]; reflexivity|]).
    + right. exists "today", 0. eexists. split; [left; done|]. split; [reflexivity|].
      split.
      { cbv -[Datetime.add_days upload_setitem send set_upload Z.add insert
              build_date_keyboard].
        stored. cbn [mbind result_bind]. rewrite Hnext. reflexivity. }
      rewrite Z.add_0_r. left_as.
    + start_quick Hnext "+1m" 30.
    + start_quick Hnext "+3m" 90.
    + start_quick Hnext "+6m" 180.
    + start_quick Hnext "+1y" 365.
    + start_quick Hnext "+2y" 730.
    + start_quick Hnext "+5y" 1825.
    + left. split; [reflexivity|]. eexists. split.
      { cbv -[Datetime.add_days upload_setitem send set_upload Z.add insert
              build_date_keyboard].
        by rewrite (DocumentsSpec.upload_setitem_ok _ _ _ d (Hd'' _)). }
      left_as.
  - repeat match goal with
           | |- Forall _ (_ :: _) => apply List.Forall_cons
           | |- Forall _ [] => apply List.Forall_nil
           end;
      (split; [intros [[]|]; reflexivity|]).
    + end_quick "+1m" 30.
    + end_quick "+3m" 90.
    + end_quick "+6m" 180.
    + end_quick "+1y" 365.
    + end_quick "+2y" 730.
    + end_quick "+5y" 1825.
    + left. split; [reflexivity|]. eexists. split.
      { cbv -[Datetime.add_days upload_setitem send show_template_selection
              set_upload Z.add insert].
        by rewrite (DocumentsSpec.upload_setitem_ok _ _ _ d (Hd'' _)). }
      left_as.
    + right. exists VNone. eexists. split; [left; done|]. split.
      { cbv -[Datetime.add_days upload_setitem send show_template_selection
              set_upload Z.add insert].
        by stored. }
      left_as.
Qed.

Lemma date_keyboards_are_understood_witness :
  exists start_keyboard end_keyboard,
    build_date_keyboard Examples.sample_config Examples.sample_today
      (lit "start") true false true = Ok start_keyboard
    /\ build_date_keyboard Examples.sample_config Examples.sample_today
         (lit "end") false true true = Ok end_keyboard.
Proof.
  destruct (date_keyboards_are_understood Examples.sample_config Examples.sample_today
              (Examples.sample_today + 1) (Examples.sample_today + 1) 100
              (Examples.sample_context Examples.sample_draft) Examples.sample_draft)
    as (start_keyboard & end_keyboard & next_keyboard & Hstart & Hend & _).
  - reflexivity.
  - reflexivity.
  - vm_compute. discriminate.
  - reflexivity.
  - vm_compute. discriminate.
  - reflexivity.
  - vm_compute. discriminate.
  - by exists start_keyboard, end_keyboard.
Defined.

End DateKeyboardSpec.
